(** * quad-form: identifier validation, prefix expansion and form state

    A shallow embedding of the QuadFormWC web component.  Two iterations of
    the component are modelled, each in its own module:

    - [Unified]: the FULL|TINY|NANO iteration, the one with the
      [MMM_URN_SCHEMES] / [STANDARD_SCHEMES] sets and the nano regime;
    - [Classic]: [src/quad-form.js], the iteration with the regular-expression
      validator and the auto-clearing submit.

    JavaScript strings are modelled by [string]; a character stands for a
    code unit below 256.  The prefix table (a plain JavaScript object) is the
    list of its own enumerable entries in [Object.entries] order, with
    string values.

    A call that can throw ends in a [Completion].  The rendered inputs
    hold the text the HTML Standard lets them keep: what is assigned to an
    input goes through the value sanitization of the state of its [type]
    attribute, and the object input changes state with the datatype tag.

    A handler is a function from the state before to the state after and
    the trace of what it lets the outside see.  The one asynchronous step,
    the awaited call to the storage collaborator, is taken together with
    the continuation that follows it: the trace keeps the order in which
    the handler's own effects happen. *)

From Stdlib Require Import ZArith List Bool Ascii String Lia.
Import ListNotations.
Open Scope string_scope.
Open Scope Z_scope.

(** ** JavaScript string primitives used by the component *)

Module JS.

(** [s.length] *)
Definition length (s : string) : Z := Z.of_nat (String.length s).

(** [s.startsWith(p)] *)
Fixpoint startsWith (s p : string) {struct p} : bool :=
  match p, s with
  | EmptyString, _ => true
  | String _ _, EmptyString => false
  | String a p', String b s' => Ascii.eqb b a && startsWith s' p'
  end.

(** [s.indexOf(needle)]: position of the first occurrence, or -1 *)
Fixpoint indexOf (s needle : string) {struct s} : Z :=
  if startsWith s needle then 0
  else match s with
       | EmptyString => -1
       | String _ s' =>
           let i := indexOf s' needle in
           if i <? 0 then -1 else i + 1
       end.

(** [s.includes(needle)] *)
Fixpoint includes (s needle : string) {struct s} : bool :=
  startsWith s needle
  || match s with
     | EmptyString => false
     | String _ s' => includes s' needle
     end.

Fixpoint take (n : nat) (s : string) : string :=
  match n, s with
  | O, _ => EmptyString
  | S _, EmptyString => EmptyString
  | S n', String c s' => String c (take n' s')
  end.

Fixpoint skip (n : nat) (s : string) : string :=
  match n, s with
  | O, _ => s
  | S _, EmptyString => EmptyString
  | S n', String _ s' => skip n' s'
  end.

(** An index argument is clamped to [0 .. s.length]. *)
Definition clamp (s : string) (i : Z) : nat :=
  Z.to_nat (Z.min (Z.max i 0) (length s)).

(** [s.substring(a, b)]: both ends clamped, swapped when [a > b] *)
Definition substring (s : string) (a b : Z) : string :=
  let a' := clamp s a in
  let b' := clamp s b in
  take (Nat.max a' b' - Nat.min a' b') (skip (Nat.min a' b') s).

(** [s.substring(a)] *)
Definition substringFrom (s : string) (a : Z) : string :=
  skip (clamp s a) s.

Definition code (c : ascii) : nat := nat_of_ascii c.

Definition between (lo hi : nat) (c : ascii) : bool :=
  (Nat.leb lo (code c) && Nat.leb (code c) hi)%bool.

(** White space stripped by [trim]: TAB, LF, VT, FF, CR, SP and NBSP. *)
Definition isWhiteSpace (c : ascii) : bool :=
  between 9 13 c || Nat.eqb (code c) 32 || Nat.eqb (code c) 160.

Fixpoint trimStart (s : string) : string :=
  match s with
  | EmptyString => EmptyString
  | String c s' => if isWhiteSpace c then trimStart s' else s
  end.

Fixpoint trimEnd (s : string) : string :=
  match s with
  | EmptyString => EmptyString
  | String c s' =>
      match trimEnd s' with
      | EmptyString => if isWhiteSpace c then EmptyString else String c EmptyString
      | t => String c t
      end
  end.

(** [s.trim()] *)
Definition trim (s : string) : string := trimEnd (trimStart s).

(** Every character of [s] is white space; so for the empty string. *)
Fixpoint allWhiteSpace (s : string) : bool :=
  match s with
  | EmptyString => true
  | String c s' => isWhiteSpace c && allWhiteSpace s'
  end.

(** Upper-case letters: A-Z, and the Latin-1 capitals apart from the
    multiplication sign. *)
Definition isUpper (c : ascii) : bool :=
  between 65 90 c || (between 192 222 c && negb (Nat.eqb (code c) 215)).

Definition lowerChar (c : ascii) : ascii :=
  if isUpper c then ascii_of_nat (code c + 32) else c.

(** [s.toLowerCase()] *)
Fixpoint toLowerCase (s : string) : string :=
  match s with
  | EmptyString => EmptyString
  | String c s' => String (lowerChar c) (toLowerCase s')
  end.

(** [[a-zA-Z_]] *)
Definition isNameStart (c : ascii) : bool :=
  between 97 122 c || between 65 90 c || Nat.eqb (code c) 95.

(** [[\w-]]: letters, digits, underscore and hyphen *)
Definition isNameChar (c : ascii) : bool :=
  isNameStart c || between 48 57 c || Nat.eqb (code c) 45.

Fixpoint allNameChars (s : string) : bool :=
  match s with
  | EmptyString => true
  | String c s' => isNameChar c && allNameChars s'
  end.

(** [/^[a-zA-Z_][\w-]*$/.test(s)] *)
Definition localNameRe (s : string) : bool :=
  match s with
  | EmptyString => false
  | String c s' => isNameStart c && allNameChars s'
  end.

(** The tail [[\w-]*:[a-zA-Z_][\w-]*$] of the qualified-name expression. *)
Fixpoint qnameTail (s : string) : bool :=
  match s with
  | EmptyString => false
  | String c s' =>
      if Ascii.eqb c ":" then localNameRe s'
      else isNameChar c && qnameTail s'
  end.

(** [/^[a-zA-Z_][\w-]*:[a-zA-Z_][\w-]*$/.test(s)]; a colon is no name
    character, so the first colon is where the prefix ends. *)
Definition qnameRegex (s : string) : bool :=
  match s with
  | EmptyString => false
  | String c s' => isNameStart c && qnameTail s'
  end.

(** [s.split(':')[0]] *)
Fixpoint beforeColon (s : string) : string :=
  match s with
  | EmptyString => EmptyString
  | String c s' => if Ascii.eqb c ":" then EmptyString else String c (beforeColon s')
  end.

(** [set.has(x)] for a [Set] of strings given by its elements *)
Definition has (set : list string) (x : string) : bool :=
  existsb (String.eqb x) set.

End JS.

(** ** The prefix table *)

Definition PrefixTable := list (string * string).

(** The own property [k] of the table, if any. *)
Fixpoint own (t : PrefixTable) (k : string) : option string :=
match t with
| [] => None
| (p, n) :: t' => if String.eqb p k then Some n else own t' k
end.

(** How a call ends: it returns a value, or it throws. *)
Inductive Completion (A : Type) :=
| Returns (a : A)
| Throws (error : string).

Arguments Returns {A} a.
Arguments Throws {A} error.

(** [t.hasOwnProperty(k)], a call of whatever the table yields under the
    name [hasOwnProperty]: the method every object inherits, unless the
    table has an own entry of that name, whose value is a string and no
    function, so that the call throws a [TypeError]. *)
Definition hasOwnProperty (t : PrefixTable) (k : string) : Completion bool :=
match own t "hasOwnProperty" with
| Some _ => Throws "TypeError"
| None => Returns (match own t k with Some _ => true | None => false end)
end.

(** What a property read [t[k]] can yield.  The table is a plain object, so
  a read that misses the own properties falls through to the members every
  object inherits from [Object.prototype]. *)
Inductive PropValue :=
| Undefined
| Str (s : string)
| Inherited (member : string).

Definition objectPrototypeMembers : list string :=
[ "constructor"; "hasOwnProperty"; "isPrototypeOf"; "propertyIsEnumerable";
  "toLocaleString"; "toString"; "valueOf"; "__proto__";
  "__defineGetter__"; "__defineSetter__"; "__lookupGetter__"; "__lookupSetter__" ].

(** [t[k]] *)
Definition getProp (t : PrefixTable) (k : string) : PropValue :=
match own t k with
| Some n => Str n
| None => if JS.has objectPrototypeMembers k then Inherited k else Undefined
end.

(** Truthiness of a property value: the empty string and [undefined] are
  falsy, functions and objects are truthy. *)
Definition truthy (v : PropValue) : bool :=
match v with
| Undefined => false
| Str s => negb (String.eqb s "")
| Inherited _ => true
end.

(** The text an inherited member turns into under [+]: the source text of a
  built-in function, or [[object Object]] for the prototype itself. *)
Definition inheritedText (member : string) : string :=
if String.eqb member "__proto__" then "[object Object]"
else if String.eqb member "constructor" then "function Object() { [native code] }"
else "function " ++ member ++ "() { [native code] }".

(** [v + s] *)
Definition plus (v : PropValue) (s : string) : string :=
match v with
| Undefined => "undefined" ++ s
| Str n => n ++ s
| Inherited m => inheritedText m ++ s
end.

Definition COMMON_PREFIXES : PrefixTable :=
[ ("rdf", "http://www.w3.org/1999/02/22-rdf-syntax-ns#");
  ("rdfs", "http://www.w3.org/2000/01/rdf-schema#");
  ("owl", "http://www.w3.org/2002/07/owl#");
  ("xsd", "http://www.w3.org/2001/XMLSchema#");
  ("foaf", "http://xmlns.com/foaf/0.1/");
  ("dc", "http://purl.org/dc/elements/1.1/");
  ("dcterms", "http://purl.org/dc/terms/");
  ("schema", "http://schema.org/");
  ("mntl", "urn:mmm:mntl:");
  ("iii", "urn:mmm:iii:");
  ("ex", "http://example.org/");
  ("wp", "https://en.wikipedia.org/wiki/") ].

(** ** Form state shared by the two iterations *)

Inductive Field := Subject | Predicate | Object | Graph.

(** An object keyed by the four field names, as [fieldValues] and
    [fieldTypes] are. *)
Record Fields := {
  subject : string;
  predicate : string;
  object : string;
  graph : string }.

Definition get (f : Field) (v : Fields) : string :=
  match f with
  | Subject => subject v
  | Predicate => predicate v
  | Object => object v
  | Graph => graph v
  end.

Definition set (f : Field) (x : string) (v : Fields) : Fields :=
  match f with
  | Subject => {| subject := x; predicate := predicate v; object := object v; graph := graph v |}
  | Predicate => {| subject := subject v; predicate := x; object := object v; graph := graph v |}
  | Object => {| subject := subject v; predicate := predicate v; object := x; graph := graph v |}
  | Graph => {| subject := subject v; predicate := predicate v; object := object v; graph := x |}
  end.

(** [a || b] on strings: the empty string is the falsy one. *)
Definition orElse (a b : string) : string :=
  if String.eqb a "" then b else a.

(** The record handed out on submission; [d] and [l] are the optional
    datatype and language keys. *)
Module Quad.
Record t := {
  s : string;
  p : string;
  o : string;
  g : string;
  at_ : string;
  by_ : string;
  d : option string;
  l : option string }.
End Quad.

(** The storage collaborator: [addQuad(quad)] resolves or rejects. *)
Inductive Outcome := Resolved | Rejected (err : string).

Definition Server := Quad.t -> Outcome.

(** What a handler lets the outside see, in the order it happens: the
    custom events it dispatches, the call to the collaborator and the
    console output. *)
Inductive Event :=
| ValidationChanged (valid : bool) (errors : list string)
| FieldChanged (field : Field) (value : string)
| QuadSubmitted (detail : Quad.t)
| QuadError (error : string)
| AddQuad (quad : Quad.t)
| ConsoleLog (message : string)
| ConsoleError (message error : string).

(** ** What the rendered controls do to the text they are given

    The value sanitization algorithms of the HTML Standard for the states
    of the [type] attribute that the component gives its inputs, and the
    newline normalization of the value of a textarea. *)

Module HTML.

Definition isLF (c : ascii) : bool := Nat.eqb (JS.code c) 10.

Definition isCR (c : ascii) : bool := Nat.eqb (JS.code c) 13.

(** Strip newlines: every LF and every CR is removed. *)
Fixpoint stripNewlines (s : string) : string :=
  match s with
  | EmptyString => EmptyString
  | String c s' =>
      if isLF c || isCR c then stripNewlines s' else String c (stripNewlines s')
  end.

(** No LF and no CR in [s]: a single line. *)
Fixpoint singleLine (s : string) : bool :=
  match s with
  | EmptyString => true
  | String c s' => negb (isLF c || isCR c) && singleLine s'
  end.

(** ASCII whitespace: TAB, LF, FF, CR and SPACE. *)
Definition isAsciiWhitespace (c : ascii) : bool :=
  Nat.eqb (JS.code c) 9 || isLF c || Nat.eqb (JS.code c) 12 || isCR c
  || Nat.eqb (JS.code c) 32.

Fixpoint stripLeading (s : string) : string :=
  match s with
  | EmptyString => EmptyString
  | String c s' => if isAsciiWhitespace c then stripLeading s' else s
  end.

Fixpoint stripTrailing (s : string) : string :=
  match s with
  | EmptyString => EmptyString
  | String c s' =>
      match stripTrailing s' with
      | EmptyString => if isAsciiWhitespace c then EmptyString else String c EmptyString
      | t => String c t
      end
  end.

(** Strip leading and trailing ASCII whitespace. *)
Definition stripAsciiWhitespace (s : string) : string :=
  stripTrailing (stripLeading s).

(** The value a textarea hands out: CR LF and a CR on its own become LF. *)
Fixpoint normalizeNewlines (s : string) : string :=
  match s with
  | EmptyString => EmptyString
  | String c s' =>
      if isCR c
      then String (ascii_of_nat 10)
                  match s' with
                  | EmptyString => EmptyString
                  | String c' s'' =>
                      if isLF c' then normalizeNewlines s'' else normalizeNewlines s'
                  end
      else String c (normalizeNewlines s')
  end.

Definition isDigit (c : ascii) : bool := JS.between 48 57 c.

(** The ASCII digits [s] starts with, and what follows them. *)
Fixpoint leadingDigits (s : string) : string :=
  match s with
  | EmptyString => EmptyString
  | String c s' => if isDigit c then String c (leadingDigits s') else EmptyString
  end.

Fixpoint dropDigits (s : string) : string :=
  match s with
  | EmptyString => EmptyString
  | String c s' => if isDigit c then dropDigits s' else s
  end.

Definition startsWithDigit (s : string) : bool :=
  match s with
  | EmptyString => false
  | String c _ => isDigit c
  end.

(** The number a string of ASCII digits stands for. *)
Fixpoint numeral (s : string) (acc : N) : N :=
  match s with
  | EmptyString => acc
  | String c s' => numeral s' (10 * acc + N.of_nat (JS.code c - 48))%N
  end.

(** The exponent of a valid floating-point number, after its [e] or [E]:
    an optional sign and one or more digits, to the end. *)
Definition validExponent (s : string) : bool :=
  let digits :=
    match s with
    | String c s' => if Ascii.eqb c "-" || Ascii.eqb c "+" then s' else s
    | EmptyString => s
    end in
  startsWithDigit digits && String.eqb (dropDigits digits) "".

(** What may follow the digits of a valid floating-point number: nothing,
    or an exponent. *)
Definition validAfterDigits (s : string) : bool :=
  match s with
  | EmptyString => true
  | String c s' => (Ascii.eqb c "e" || Ascii.eqb c "E") && validExponent s'
  end.

(** The fractional part: a full stop, one or more digits, and what may
    follow them. *)
Definition validFraction (s : string) : bool :=
  match s with
  | String c s' => Ascii.eqb c "." && startsWithDigit s' && validAfterDigits (dropDigits s')
  | EmptyString => false
  end.

(** A valid floating-point number: an optional minus sign; digits, a
    fractional part, or both in this order; an optional exponent. *)
Definition validFloatingPointNumber (s : string) : bool :=
  let unsigned :=
    match s with
    | String c s' => if Ascii.eqb c "-" then s' else s
    | EmptyString => s
    end in
  if startsWithDigit unsigned
  then match dropDigits unsigned with
       | String c s' =>
           if Ascii.eqb c "." then validFraction (String c s')
           else validAfterDigits (String c s')
       | EmptyString => true
       end
  else validFraction unsigned.

(** Two ASCII digits: their number, and what follows them. *)
Definition twoDigits (s : string) : option (N * string) :=
  match s with
  | String a (String b rest) =>
      if isDigit a && isDigit b
      then Some (numeral (String a (String b EmptyString)) 0, rest)
      else None
  | _ => None
  end.

Definition isLeapYear (year : N) : bool :=
  ((year mod 400 =? 0) || ((year mod 4 =? 0) && negb (year mod 100 =? 0)))%N.

Definition daysInMonth (year month : N) : N :=
  if (month =? 2)%N then (if isLeapYear year then 29 else 28)%N
  else if ((month =? 4) || (month =? 6) || (month =? 9) || (month =? 11))%N
  then 30%N else 31%N.

(** A valid date string at the start of [s]: four or more digits for a
    year above zero, a hyphen, two digits for the month, a hyphen, two
    digits for a day of that month.  The result is what follows it. *)
Definition parseDate (s : string) : option string :=
  let year := leadingDigits s in
  if (4 <=? String.length year)%nat && (0 <? numeral year 0)%N then
    match dropDigits s with
    | String c1 s1 =>
        if Ascii.eqb c1 "-" then
          match twoDigits s1 with
          | Some (month, String c2 s2) =>
              if Ascii.eqb c2 "-" then
                match twoDigits s2 with
                | Some (day, s3) =>
                    if ((1 <=? month) && (month <=? 12) && (1 <=? day)
                        && (day <=? daysInMonth (numeral year 0) month))%N
                    then Some s3 else None
                | None => None
                end
              else None
          | _ => None
          end
        else None
    | EmptyString => None
    end
  else None.

Definition validDate (s : string) : bool :=
  match parseDate s with
  | Some EmptyString => true
  | _ => false
  end.

Fixpoint stripTrailingZeros (s : string) : string :=
  match s with
  | EmptyString => EmptyString
  | String c s' =>
      match stripTrailingZeros s' with
      | EmptyString => if Ascii.eqb c "0" then EmptyString else String c EmptyString
      | t => String c t
      end
  end.

(** The shortest string for a time given as [hh:mm], [hh:mm:ss], its
    seconds and the digits of its fraction. *)
Definition shortestTime (hhmm hhmmss : string) (second : N) (fraction : string)
  : string :=
  match stripTrailingZeros fraction with
  | EmptyString => if (second =? 0)%N then hhmm else hhmmss
  | digits => hhmmss ++ "." ++ digits
  end.

(** A valid time string that is all of [s]: two digits for the hour, a
    colon, two digits for the minute, and optionally a colon and two
    digits for the second, optionally followed by a full stop and one to
    three digits.  The result is the shortest string for the same time. *)
Definition parseTime (s : string) : option string :=
  match twoDigits s with
  | Some (hour, String c1 s1) =>
      if Ascii.eqb c1 ":" && (hour <=? 23)%N then
        match twoDigits s1 with
        | Some (minute, s2) =>
            if (minute <=? 59)%N then
              match s2 with
              | EmptyString => Some (JS.take 5 s)
              | String c2 s3 =>
                  if Ascii.eqb c2 ":" then
                    match twoDigits s3 with
                    | Some (second, s4) =>
                        if (second <=? 59)%N then
                          match s4 with
                          | EmptyString =>
                              Some (shortestTime (JS.take 5 s) (JS.take 8 s) second "")
                          | String c3 s5 =>
                              if Ascii.eqb c3 "."
                                 && (1 <=? String.length s5)%nat
                                 && (String.length s5 <=? 3)%nat
                                 && String.eqb (dropDigits s5) ""
                              then Some (shortestTime (JS.take 5 s) (JS.take 8 s)
                                                      second s5)
                              else None
                          end
                        else None
                    | None => None
                    end
                  else None
              end
            else None
        | None => None
        end
      else None
  | _ => None
  end.

Definition validTime (s : string) : bool :=
  match parseTime s with
  | Some _ => true
  | None => false
  end.

(** A valid local date and time string that is all of [s]: a date, a [T]
    or a space, and a time.  The result is the normalized string: the
    date, a [T] and the shortest string for the time. *)
Definition normalizedLocalDateTime (s : string) : option string :=
  match parseDate s with
  | Some (String c rest) =>
      if Ascii.eqb c "T" || Ascii.eqb c " " then
        match parseTime rest with
        | Some time =>
            Some (JS.take (String.length s - String.length (String c rest)) s
                  ++ "T" ++ time)
        | None => None
        end
      else None
  | _ => None
  end.

End HTML.

(** ** The rendered inputs *)

(** The states of the [type] attribute that [updateObjectInputType] gives
    the object input. *)
Inductive InputType :=
| TextInput
| UrlInput
| NumberInput
| DateInput
| TimeInput
| DateTimeLocalInput
| CheckboxInput.

Definition isCheckbox (ty : InputType) : bool :=
  match ty with
  | CheckboxInput => true
  | _ => false
  end.

Definition sameType (a b : InputType) : bool :=
  match a, b with
  | TextInput, TextInput
  | UrlInput, UrlInput
  | NumberInput, NumberInput
  | DateInput, DateInput
  | TimeInput, TimeInput
  | DateTimeLocalInput, DateTimeLocalInput
  | CheckboxInput, CheckboxInput => true
  | _, _ => false
  end.

(** The state [objectInput.type = XSD_TO_HTML5[datatype]] leads to, and
    the text state for every other datatype. *)
Definition html5Type (datatype : string) : InputType :=
  if String.eqb datatype "xsd:date" then DateInput
  else if String.eqb datatype "xsd:time" then TimeInput
  else if String.eqb datatype "xsd:dateTime" then DateTimeLocalInput
  else if String.eqb datatype "xsd:integer" || String.eqb datatype "xsd:decimal"
          || String.eqb datatype "xsd:float" || String.eqb datatype "xsd:double"
  then NumberInput
  else if String.eqb datatype "xsd:boolean" then CheckboxInput
  else if String.eqb datatype "xsd:anyURI" then UrlInput
  else TextInput.

(** The value sanitization algorithm of each state; a checkbox has none. *)
Definition sanitize (ty : InputType) (s : string) : string :=
  match ty with
  | TextInput => HTML.stripNewlines s
  | UrlInput => HTML.stripAsciiWhitespace (HTML.stripNewlines s)
  | NumberInput => if HTML.validFloatingPointNumber s then s else ""
  | DateInput => if HTML.validDate s then s else ""
  | TimeInput => if HTML.validTime s then s else ""
  | DateTimeLocalInput =>
      match HTML.normalizedLocalDateTime s with
      | Some normalized => normalized
      | None => ""
      end
  | CheckboxInput => s
  end.

(** The part of the rendered form the handlers read back and write to: the
    three field inputs, the object textarea and the language input.  The
    subject, predicate and language inputs are text inputs.  The object
    input has the state of its [type] attribute, its value, and its
    [value] content attribute, which is what a checkbox reads and writes
    in place of a value of its own.  The texts are as the controls hand
    them out. *)
Record Dom := {
  subjectInput : string;
  predicateInput : string;
  objectInput : string;
  objectInputType : InputType;
  objectInputAttr : string;
  objectTextarea : string;
  languageInput : string;
  languageDisabled : bool }.

(** [objectInput.value] *)
Definition objectInputValue (m : Dom) : string :=
  if isCheckbox (objectInputType m) then objectInputAttr m else objectInput m.

(** [getElementById(field + '-input')?.value]; the graph has no such input. *)
Definition inputValue (f : Field) (m : Dom) : option string :=
  match f with
  | Subject => Some (subjectInput m)
  | Predicate => Some (predicateInput m)
  | Object => Some (objectInputValue m)
  | Graph => None
  end.

Definition withObjectInput (value : string) (ty : InputType) (attr : string)
           (m : Dom) : Dom :=
  {| subjectInput := subjectInput m; predicateInput := predicateInput m;
     objectInput := value; objectInputType := ty; objectInputAttr := attr;
     objectTextarea := objectTextarea m;
     languageInput := languageInput m; languageDisabled := languageDisabled m |}.

(** [getElementById(f + '-input').value = x]: the input keeps the
    sanitized text; a checkbox keeps [x] in its content attribute. *)
Definition setInput (f : Field) (x : string) (m : Dom) : Dom :=
  match f with
  | Subject =>
      {| subjectInput := HTML.stripNewlines x; predicateInput := predicateInput m;
         objectInput := objectInput m; objectInputType := objectInputType m;
         objectInputAttr := objectInputAttr m; objectTextarea := objectTextarea m;
         languageInput := languageInput m; languageDisabled := languageDisabled m |}
  | Predicate =>
      {| subjectInput := subjectInput m; predicateInput := HTML.stripNewlines x;
         objectInput := objectInput m; objectInputType := objectInputType m;
         objectInputAttr := objectInputAttr m; objectTextarea := objectTextarea m;
         languageInput := languageInput m; languageDisabled := languageDisabled m |}
  | Object =>
      if isCheckbox (objectInputType m)
      then withObjectInput (objectInput m) (objectInputType m) x m
      else withObjectInput (sanitize (objectInputType m) x) (objectInputType m)
                           (objectInputAttr m) m
  | Graph => m
  end.

(** [objectInput.type = ...] with a value that leads to state [ty].  A
    change of state sanitizes the value for the new state; on the way to
    a checkbox a value that is not empty is moved to the content
    attribute, and on the way back the value is taken from there. *)
Definition setObjectInputType (ty : InputType) (m : Dom) : Dom :=
  if sameType (objectInputType m) ty then m
  else if isCheckbox ty
  then withObjectInput (objectInput m) ty
                       (if String.eqb (objectInput m) "" then objectInputAttr m
                        else objectInput m) m
  else if isCheckbox (objectInputType m)
  then withObjectInput (sanitize ty (objectInputAttr m)) ty (objectInputAttr m) m
  else withObjectInput (sanitize ty (objectInput m)) ty (objectInputAttr m) m.

(** What [updateObjectInputType()] does to the object input when the
    datatype tag is [datatype]. *)
Definition updateObjectInputType (datatype : string) (m : Dom) : Dom :=
  setObjectInputType (html5Type datatype) m.

(** The user's edit of the input of [f] to [typed]: the input keeps the
    sanitized text; a checkbox has no text to edit. *)
Definition typeInto (f : Field) (typed : string) (m : Dom) : Dom :=
  match f with
  | Object => if isCheckbox (objectInputType m) then m else setInput f typed m
  | _ => setInput f typed m
  end.

(** [objectTextarea.value = x], also by the user's edit. *)
Definition setTextarea (x : string) (m : Dom) : Dom :=
  {| subjectInput := subjectInput m; predicateInput := predicateInput m;
     objectInput := objectInput m; objectInputType := objectInputType m;
     objectInputAttr := objectInputAttr m;
     objectTextarea := HTML.normalizeNewlines x;
     languageInput := languageInput m; languageDisabled := languageDisabled m |}.

(** [languageInput.value = x], also by the user's edit. *)
Definition setLanguageInput (x : string) (m : Dom) : Dom :=
  {| subjectInput := subjectInput m; predicateInput := predicateInput m;
     objectInput := objectInput m; objectInputType := objectInputType m;
     objectInputAttr := objectInputAttr m; objectTextarea := objectTextarea m;
     languageInput := HTML.stripNewlines x; languageDisabled := languageDisabled m |}.

Definition setLanguageDisabled (b : bool) (m : Dom) : Dom :=
  {| subjectInput := subjectInput m; predicateInput := predicateInput m;
     objectInput := objectInput m; objectInputType := objectInputType m;
     objectInputAttr := objectInputAttr m; objectTextarea := objectTextarea m;
     languageInput := languageInput m; languageDisabled := b |}.

(** The inputs of the form as first rendered: empty text inputs, each with
    an empty [value] content attribute, and the language input disabled. *)
Definition renderedDom : Dom :=
  {| subjectInput := ""; predicateInput := ""; objectInput := "";
     objectInputType := TextInput; objectInputAttr := "";
     objectTextarea := ""; languageInput := ""; languageDisabled := true |}.

(** The inputs and the textarea emptied, the language input emptied and
    disabled: the part of [clear()] that writes to the full form. *)
Definition clearInputs (m : Dom) : Dom :=
  setLanguageDisabled true
    (setLanguageInput ""
       (setTextarea "" (setInput Object "" (setInput Predicate "" (setInput Subject "" m))))).

(** The field types of the constructor and of [clear()]. *)
Definition defaultTypes : Fields :=
  {| subject := "uri"; predicate := "qname"; object := "uri"; graph := "qname" |}.

(** The types that switch the object to the textarea. *)
Definition shouldUseTextarea (newType : string) : bool :=
  String.eqb newType "xsd:string"
  || String.eqb newType "rdf:HTML"
  || String.eqb newType "rdf:XMLLiteral"
  || String.eqb newType "rdf:JSON"
  || String.eqb newType "mmmdt:markdown".

Definition isQNameOrUri (newType : string) : bool :=
  String.eqb newType "qname" || String.eqb newType "uri".

(** [s.replace(/^@/, '')] *)
Definition stripAt (s : string) : string :=
  match s with
  | String c rest => if Ascii.eqb c "@" then rest else s
  | EmptyString => s
  end.

(** [if (!v) errors.push(message)] *)
Definition required (v message : string) : list string :=
  if String.eqb v "" then [message] else [].

(** [this._currentIdentity || 'anonymous'] *)
Definition attribution (identity : option string) : string :=
  match identity with
  | Some i => orElse i "anonymous"
  | None => "anonymous"
  end.

(** The optional keys of the record: [d] is set when the datatype tag is
    non-empty and not [xsd:string], [l] when the language tag is non-empty. *)
Definition datatypeKey (datatype : string) : option string :=
  if negb (String.eqb datatype "") && negb (String.eqb datatype "xsd:string")
  then Some datatype else None.

Definition languageKey (language : string) : option string :=
  if negb (String.eqb language "") then Some language else None.

(** ** The unified FULL|TINY|NANO iteration: identifiers *)

Module Unified.

Definition MMM_URN_SCHEMES : list string :=
  [ "trpl"; "quad"; "snip"; "atby"; "mntl"; "iii"; "time" ].

Definition STANDARD_SCHEMES : list string :=
  [ "http"; "https"; "ftp"; "ftps"; "file"; "data";
    "mailto"; "tel"; "sms"; "geo";
    "urn"; "isbn"; "issn"; "doi"; "uuid"; "oid"; "lex" ].

(** [validateField(field, value, type)]; [prefixes] is [this._prefixes]. *)
Definition validateField (prefixes : PrefixTable)
           (field value type : string) : Completion bool :=
  if String.eqb value "" || String.eqb (JS.trim value) "" then Returns false
  else if String.eqb type "uri" || String.eqb type "qname" then
    let colonIndex := JS.indexOf value ":" in
    if colonIndex <=? 0 then Returns false
    else
      let scheme := JS.toLowerCase (JS.substring value 0 colonIndex) in
      let nss := JS.substringFrom value (colonIndex + 1) in
      if JS.length nss =? 0 then Returns false
      else if JS.has MMM_URN_SCHEMES scheme then Returns true
      else if JS.has STANDARD_SCHEMES scheme then Returns true
      else
        match hasOwnProperty prefixes scheme with
        | Returns true => Returns (JS.localNameRe nss)
        | Returns false => Returns false
        | Throws error => Throws error
        end
  else if String.eqb type "string" then Returns true
  else Returns true.

(** [expandQName(value)] *)
Definition expandQName (prefixes : PrefixTable) (value : string) : string :=
  if String.eqb value "" || JS.includes value "://" then value
  else
    let colonIndex := JS.indexOf value ":" in
    if colonIndex =? -1 then value
    else
      let prefix := JS.substring value 0 colonIndex in
      if JS.has MMM_URN_SCHEMES prefix || JS.has STANDARD_SCHEMES prefix then value
      else
        let localPart := JS.substringFrom value (colonIndex + 1) in
        if truthy (getProp prefixes prefix)
        then plus (getProp prefixes prefix) localPart
        else value.

(** [contractUri(value)]: the loop over [Object.entries(this._prefixes)] *)
Fixpoint contractUri (prefixes : PrefixTable) (value : string) : string :=
  match prefixes with
  | [] => value
  | (prefix, expansion) :: rest =>
      if JS.startsWith value expansion
      then prefix ++ ":" ++ JS.substringFrom value (JS.length expansion)
      else contractUri rest value
  end.

(** ** The unified iteration: form state and handlers *)

(** [container.dataset.mode || 'full'] *)
Inductive Mode := full | tiny | nano.

(** The component's own fields, and [dom] for the rendered inputs.  Pure
    presentation (colours, placeholders, hidden classes, the write-only
    [fieldValidity] flags, the graph path input) is left out. *)
Record State := {
  fieldValues : Fields;
  fieldTypes : Fields;
  objectDatatype : string;
  objectLanguage : string;
  objectUsesTextarea : bool;
  nanoMode : bool;
  tinyMode : bool;
  dataMode : Mode;
  mmmServer : option Server;
  prefixes : PrefixTable;
  currentIdentity : option string;
  expandQNames : bool;
  defaultGraph : string;
  dom : Dom }.

Definition withValues (v : Fields) (st : State) : State :=
  {| fieldValues := v; fieldTypes := fieldTypes st;
     objectDatatype := objectDatatype st; objectLanguage := objectLanguage st;
     objectUsesTextarea := objectUsesTextarea st;
     nanoMode := nanoMode st; tinyMode := tinyMode st; dataMode := dataMode st;
     mmmServer := mmmServer st; prefixes := prefixes st;
     currentIdentity := currentIdentity st; expandQNames := expandQNames st;
     defaultGraph := defaultGraph st; dom := dom st |}.

Definition withTypes (v : Fields) (st : State) : State :=
  {| fieldValues := fieldValues st; fieldTypes := v;
     objectDatatype := objectDatatype st; objectLanguage := objectLanguage st;
     objectUsesTextarea := objectUsesTextarea st;
     nanoMode := nanoMode st; tinyMode := tinyMode st; dataMode := dataMode st;
     mmmServer := mmmServer st; prefixes := prefixes st;
     currentIdentity := currentIdentity st; expandQNames := expandQNames st;
     defaultGraph := defaultGraph st; dom := dom st |}.

Definition withDatatype (x : string) (st : State) : State :=
  {| fieldValues := fieldValues st; fieldTypes := fieldTypes st;
     objectDatatype := x; objectLanguage := objectLanguage st;
     objectUsesTextarea := objectUsesTextarea st;
     nanoMode := nanoMode st; tinyMode := tinyMode st; dataMode := dataMode st;
     mmmServer := mmmServer st; prefixes := prefixes st;
     currentIdentity := currentIdentity st; expandQNames := expandQNames st;
     defaultGraph := defaultGraph st; dom := dom st |}.

Definition withLanguage (x : string) (st : State) : State :=
  {| fieldValues := fieldValues st; fieldTypes := fieldTypes st;
     objectDatatype := objectDatatype st; objectLanguage := x;
     objectUsesTextarea := objectUsesTextarea st;
     nanoMode := nanoMode st; tinyMode := tinyMode st; dataMode := dataMode st;
     mmmServer := mmmServer st; prefixes := prefixes st;
     currentIdentity := currentIdentity st; expandQNames := expandQNames st;
     defaultGraph := defaultGraph st; dom := dom st |}.

Definition withTextarea (b : bool) (st : State) : State :=
  {| fieldValues := fieldValues st; fieldTypes := fieldTypes st;
     objectDatatype := objectDatatype st; objectLanguage := objectLanguage st;
     objectUsesTextarea := b;
     nanoMode := nanoMode st; tinyMode := tinyMode st; dataMode := dataMode st;
     mmmServer := mmmServer st; prefixes := prefixes st;
     currentIdentity := currentIdentity st; expandQNames := expandQNames st;
     defaultGraph := defaultGraph st; dom := dom st |}.

Definition withDom (m : Dom) (st : State) : State :=
  {| fieldValues := fieldValues st; fieldTypes := fieldTypes st;
     objectDatatype := objectDatatype st; objectLanguage := objectLanguage st;
     objectUsesTextarea := objectUsesTextarea st;
     nanoMode := nanoMode st; tinyMode := tinyMode st; dataMode := dataMode st;
     mmmServer := mmmServer st; prefixes := prefixes st;
     currentIdentity := currentIdentity st; expandQNames := expandQNames st;
     defaultGraph := defaultGraph st; dom := m |}.

Definition withServer (srv : option Server) (st : State) : State :=
  {| fieldValues := fieldValues st; fieldTypes := fieldTypes st;
     objectDatatype := objectDatatype st; objectLanguage := objectLanguage st;
     objectUsesTextarea := objectUsesTextarea st;
     nanoMode := nanoMode st; tinyMode := tinyMode st; dataMode := dataMode st;
     mmmServer := srv; prefixes := prefixes st;
     currentIdentity := currentIdentity st; expandQNames := expandQNames st;
     defaultGraph := defaultGraph st; dom := dom st |}.

(** The state the constructor builds, once rendered in full mode. *)
Definition initial : State :=
  {| fieldValues := {| subject := ""; predicate := ""; object := ""; graph := "" |};
     fieldTypes := defaultTypes;
     objectDatatype := ""; objectLanguage := ""; objectUsesTextarea := false;
     nanoMode := false; tinyMode := false; dataMode := full;
     mmmServer := None; prefixes := COMMON_PREFIXES;
     currentIdentity := None; expandQNames := true;
     defaultGraph := "mntl:publ/scratch";
     dom := renderedDom |}.

(** [set objectDatatype(value)]: a change of the datatype tag updates the
    type of the object input. *)
Definition setObjectDatatype (value : string) (st : State) : State :=
  if String.eqb (objectDatatype st) value then st
  else withDom (updateObjectInputType value (dom st)) (withDatatype value st).

(** [set mmmServer(value)] *)
Definition setMmmServer (srv : Server) (st : State) : State :=
  withServer (Some srv) st.

(** [set defaultGraph(value)] *)
Definition setDefaultGraph (value : string) (st : State) : State :=
  {| fieldValues := set Graph value (fieldValues st); fieldTypes := fieldTypes st;
     objectDatatype := objectDatatype st; objectLanguage := objectLanguage st;
     objectUsesTextarea := objectUsesTextarea st;
     nanoMode := nanoMode st; tinyMode := tinyMode st; dataMode := dataMode st;
     mmmServer := mmmServer st; prefixes := prefixes st;
     currentIdentity := currentIdentity st; expandQNames := expandQNames st;
     defaultGraph := value; dom := dom st |}.

(** [validate()]: the required-field check of the current mode and the
    [validation-changed] event it dispatches. *)
Definition validate (st : State) : bool * list Event :=
  let v := fieldValues st in
  let errors :=
    match dataMode st with
    | nano => required (object v) "Object is required"
    | tiny =>
        (required (subject v) "Subject is required"
         ++ required (predicate v) "Predicate is required"
         ++ required (object v) "Object is required")%list
    | full =>
        (required (subject v) "Subject is required"
         ++ required (predicate v) "Predicate is required"
         ++ required (object v) "Object is required"
         ++ required (graph v) "Graph is required")%list
    end in
  let valid := match errors with [] => true | _ :: _ => false end in
  (valid, [ValidationChanged valid errors]).

(** The hidden fields' defaults of the nano regime. *)
Definition nanoDefaults (st : State) : Fields :=
  let v := fieldValues st in
  {| subject := orElse (subject v) "ex:DefaultSubject";
     predicate := orElse (predicate v) "rdfs:comment";
     object := object v;
     graph := orElse (graph v) (defaultGraph st) |}.

(** [toggleNanoMode()] *)
Definition toggleNanoMode (st : State) : State :=
  if nanoMode st then st
  else
    {| fieldValues := nanoDefaults st; fieldTypes := fieldTypes st;
       objectDatatype := objectDatatype st; objectLanguage := objectLanguage st;
       objectUsesTextarea := objectUsesTextarea st;
       nanoMode := true; tinyMode := false; dataMode := nano;
       mmmServer := mmmServer st; prefixes := prefixes st;
       currentIdentity := currentIdentity st; expandQNames := expandQNames st;
       defaultGraph := defaultGraph st; dom := dom st |}.

(** The quad literal of [handleSubmit]; [now] is [new Date().toISOString()]. *)
Definition buildQuad (now : string) (st : State) : Quad.t :=
  let v := fieldValues st in
  let expand := fun x => if expandQNames st then expandQName (prefixes st) x else x in
  {| Quad.s := expand (subject v);
     Quad.p := expand (predicate v);
     Quad.o := expand (object v);
     Quad.g := expand (graph v);
     Quad.at_ := now;
     Quad.by_ := attribution (currentIdentity st);
     Quad.d := datatypeKey (objectDatatype st);
     Quad.l := languageKey (objectLanguage st) |}.

(** The tail of [handleSubmit]: the [quad-submitted] event, then the awaited
    [addQuad] call when a server is set, with the [catch] branch on
    rejection.  Nothing is cleared on either outcome. *)
Definition deliver (st : State) (quad : Quad.t) : list Event :=
  QuadSubmitted quad
  :: match mmmServer st with
     | Some server =>
         AddQuad quad
         :: match server quad with
            | Resolved => []
            | Rejected err => [ConsoleError "Failed to submit quad:" err; QuadError err]
            end
     | None => []
     end.

(** [handleSubmit(e)] *)
Definition handleSubmit (now : string) (st : State) : State * list Event :=
  match dataMode st with
  | nano =>
      if String.eqb (object (fieldValues st)) ""
         || String.eqb (JS.trim (object (fieldValues st))) ""
      then (st, [])
      else
        let st' := withValues (nanoDefaults st) st in
        (st', deliver st' (buildQuad now st'))
  | tiny =>
      let st' :=
        withValues (set Graph (orElse (graph (fieldValues st)) (defaultGraph st))
                        (fieldValues st)) st in
      let (valid, events) := validate st' in
      if valid then (st', (events ++ deliver st' (buildQuad now st'))%list)
      else (st', events)
  | full =>
      let (valid, events) := validate st in
      if valid then (st, (events ++ deliver st (buildQuad now st))%list)
      else (st, events)
  end.

(** The value a switch between [qname] and [uri] turns [currentValue] into,
    if the switch is one of the two converting ones. *)
Definition convert (st : State) (oldType newType currentValue : string) : option string :=
  if String.eqb oldType "qname" && String.eqb newType "uri"
  then Some (expandQName (prefixes st) currentValue)
  else if String.eqb oldType "uri" && String.eqb newType "qname"
  then Some (contractUri (prefixes st) currentValue)
  else None.

(** The object branch of [handleTypeChange]. *)
Definition changeObjectType (oldType newType : string) (st : State) : State :=
  let currentValue :=
    orElse (orElse (objectInputValue (dom st)) (objectTextarea (dom st)))
           (object (fieldValues st)) in
  let valueToUse :=
    match convert st oldType newType currentValue with
    | Some v => v
    | None => currentValue
    end in
  let st1 := withValues (set Object valueToUse (fieldValues st)) st in
  let st2 := withTextarea (shouldUseTextarea newType) st1 in
  let st3 :=
    if shouldUseTextarea newType
    then withDom (setLanguageDisabled false (setTextarea valueToUse (dom st2))) st2
    else withDom (setInput Object valueToUse (dom st2)) st2 in
  if isQNameOrUri newType
  then
    withLanguage ""
      (setObjectDatatype ""
         (withDom (setLanguageInput "" (setLanguageDisabled true (dom st3))) st3))
  else
    let st4 :=
      if negb (shouldUseTextarea newType)
      then withDom (setLanguageDisabled true (dom st3)) st3
      else st3 in
    let st5 := setObjectDatatype newType st4 in
    withDom (updateObjectInputType (objectDatatype st5) (dom st5)) st5.

(** [handleTypeChange(e)] with [e.target.dataset.field = field] and
    [e.target.value = newType]. *)
Definition handleTypeChange (field : Field) (newType : string) (st : State)
  : State * list Event :=
  let oldType := get field (fieldTypes st) in
  let st1 := withTypes (set field newType (fieldTypes st)) st in
  let st2 :=
    match field with
    | Object => changeObjectType oldType newType st1
    | _ =>
        match inputValue field (dom st1) with
        | Some shown =>
            let currentValue := orElse shown (get field (fieldValues st1)) in
            match convert st1 oldType newType currentValue with
            | Some v =>
                withValues (set field v (fieldValues st1))
                           (withDom (setInput field v (dom st1)) st1)
            | None => st1
            end
        | None => st1
        end
    end in
  (st2, snd (validate st2)).

(** The [input] listener of the field inputs, after the user's edit of the
    input of [field] to [typed]; [value] is [e.target.value]. *)
Definition handleInput (field : Field) (typed : string) (st : State)
  : State * list Event :=
  let m := typeInto field typed (dom st) in
  match inputValue field m with
  | Some value =>
      let st' := withValues (set field value (fieldValues st)) (withDom m st) in
      (st', FieldChanged field value :: snd (validate st'))
  | None => (st, [])
  end.

(** The [change] listener of the field pickers: the user picked [value] in
    the select of [field]; the text input keeps what it shows. *)
Definition handleSelect (field : Field) (value : string) (st : State)
  : State * list Event :=
  match inputValue field (dom st) with
  | Some _ =>
      let st' := withValues (set field value (fieldValues st)) st in
      (st', FieldChanged field value :: snd (validate st'))
  | None => (st, [])
  end.

(** The [input] listener of the object textarea, after the user's edit of
    the textarea to [typed]; [value] is [e.target.value]. *)
Definition handleTextareaInput (typed : string) (st : State) : State * list Event :=
  let m := setTextarea typed (dom st) in
  let value := objectTextarea m in
  let st' := withValues (set Object value (fieldValues st)) (withDom m st) in
  (st', FieldChanged Object value :: snd (validate st')).

(** The [input] listener of the language input, after the user's edit of
    the input to [typed]; [shown] is [e.target.value]. *)
Definition handleLanguageInput (typed : string) (st : State) : State :=
  let m := setLanguageInput typed (dom st) in
  let shown := languageInput m in
  let value := JS.toLowerCase (stripAt shown) in
  if JS.length value =? 1
  then withLanguage "" (withDom (setLanguageInput "" m) st)
  else withLanguage value (withDom m st).

(** [getField(name)] *)
Definition getField (st : State) (name : Field) : string :=
  orElse (get name (fieldValues st)) "".

(** [clear()] *)
Definition clear (st : State) : State * list Event :=
  let st' :=
    {| fieldValues := {| subject := ""; predicate := ""; object := "";
                         graph := defaultGraph st |};
       fieldTypes := defaultTypes;
       objectDatatype := ""; objectLanguage := ""; objectUsesTextarea := false;
       nanoMode := nanoMode st; tinyMode := tinyMode st; dataMode := dataMode st;
       mmmServer := mmmServer st; prefixes := prefixes st;
       currentIdentity := currentIdentity st; expandQNames := expandQNames st;
       defaultGraph := defaultGraph st;
       dom := clearInputs (dom (setObjectDatatype "" st)) |} in
  (st', snd (validate st')).

End Unified.

(** ** The iteration of [src/quad-form.js] *)

Module Classic.

(** [validateField(field, value, type)] *)
Definition validateField (prefixes : PrefixTable)
           (field value type : string) : Completion bool :=
  if String.eqb value "" || String.eqb (JS.trim value) "" then Returns false
  else if String.eqb type "qname" then
    if negb (JS.qnameRegex value) then Returns false
    else hasOwnProperty prefixes (JS.beforeColon value)
  else if String.eqb type "uri" then Returns (JS.includes value "://")
  else if String.eqb type "string" then Returns true
  else Returns true.

(** [expandQName(value)] *)
Definition expandQName (prefixes : PrefixTable) (value : string) : string :=
  if String.eqb value "" || JS.includes value "://" then value
  else
    let colonIndex := JS.indexOf value ":" in
    if colonIndex =? -1 then value
    else
      let prefix := JS.substring value 0 colonIndex in
      let localPart := JS.substringFrom value (colonIndex + 1) in
      if truthy (getProp prefixes prefix)
      then plus (getProp prefixes prefix) localPart
      else value.

(** The loop of [contractUri] over [Object.entries(this._prefixes)]. *)
Fixpoint firstMatch (prefixes : PrefixTable) (uri : string) : string :=
  match prefixes with
  | [] => uri
  | (prefix, expansion) :: rest =>
      if JS.startsWith uri expansion
      then prefix ++ ":" ++ JS.substringFrom uri (JS.length expansion)
      else firstMatch rest uri
  end.

(** [contractUri(uri)] *)
Definition contractUri (prefixes : PrefixTable) (uri : string) : string :=
  if String.eqb uri "" || negb (JS.includes uri "://") then uri
  else firstMatch prefixes uri.

(** The component's own fields, and [dom] for the inputs of the full form. *)
Record State := {
  fieldValues : Fields;
  fieldTypes : Fields;
  objectDatatype : string;
  objectLanguage : string;
  objectUsesTextarea : bool;
  tinyMode : bool;
  mmmServer : option Server;
  prefixes : PrefixTable;
  currentIdentity : option string;
  expandQNames : bool;
  defaultGraph : string;
  dom : Dom }.

Definition withValues (v : Fields) (st : State) : State :=
  {| fieldValues := v; fieldTypes := fieldTypes st;
     objectDatatype := objectDatatype st; objectLanguage := objectLanguage st;
     objectUsesTextarea := objectUsesTextarea st; tinyMode := tinyMode st;
     mmmServer := mmmServer st; prefixes := prefixes st;
     currentIdentity := currentIdentity st; expandQNames := expandQNames st;
     defaultGraph := defaultGraph st; dom := dom st |}.

Definition withTypes (v : Fields) (st : State) : State :=
  {| fieldValues := fieldValues st; fieldTypes := v;
     objectDatatype := objectDatatype st; objectLanguage := objectLanguage st;
     objectUsesTextarea := objectUsesTextarea st; tinyMode := tinyMode st;
     mmmServer := mmmServer st; prefixes := prefixes st;
     currentIdentity := currentIdentity st; expandQNames := expandQNames st;
     defaultGraph := defaultGraph st; dom := dom st |}.

Definition withDatatype (x : string) (st : State) : State :=
  {| fieldValues := fieldValues st; fieldTypes := fieldTypes st;
     objectDatatype := x; objectLanguage := objectLanguage st;
     objectUsesTextarea := objectUsesTextarea st; tinyMode := tinyMode st;
     mmmServer := mmmServer st; prefixes := prefixes st;
     currentIdentity := currentIdentity st; expandQNames := expandQNames st;
     defaultGraph := defaultGraph st; dom := dom st |}.

Definition withLanguage (x : string) (st : State) : State :=
  {| fieldValues := fieldValues st; fieldTypes := fieldTypes st;
     objectDatatype := objectDatatype st; objectLanguage := x;
     objectUsesTextarea := objectUsesTextarea st; tinyMode := tinyMode st;
     mmmServer := mmmServer st; prefixes := prefixes st;
     currentIdentity := currentIdentity st; expandQNames := expandQNames st;
     defaultGraph := defaultGraph st; dom := dom st |}.

Definition withTextarea (b : bool) (st : State) : State :=
  {| fieldValues := fieldValues st; fieldTypes := fieldTypes st;
     objectDatatype := objectDatatype st; objectLanguage := objectLanguage st;
     objectUsesTextarea := b; tinyMode := tinyMode st;
     mmmServer := mmmServer st; prefixes := prefixes st;
     currentIdentity := currentIdentity st; expandQNames := expandQNames st;
     defaultGraph := defaultGraph st; dom := dom st |}.

Definition withDom (m : Dom) (st : State) : State :=
  {| fieldValues := fieldValues st; fieldTypes := fieldTypes st;
     objectDatatype := objectDatatype st; objectLanguage := objectLanguage st;
     objectUsesTextarea := objectUsesTextarea st; tinyMode := tinyMode st;
     mmmServer := mmmServer st; prefixes := prefixes st;
     currentIdentity := currentIdentity st; expandQNames := expandQNames st;
     defaultGraph := defaultGraph st; dom := m |}.

Definition withServer (srv : option Server) (st : State) : State :=
  {| fieldValues := fieldValues st; fieldTypes := fieldTypes st;
     objectDatatype := objectDatatype st; objectLanguage := objectLanguage st;
     objectUsesTextarea := objectUsesTextarea st; tinyMode := tinyMode st;
     mmmServer := srv; prefixes := prefixes st;
     currentIdentity := currentIdentity st; expandQNames := expandQNames st;
     defaultGraph := defaultGraph st; dom := dom st |}.

(** The state the constructor builds, once the full form is rendered. *)
Definition initial : State :=
  {| fieldValues := {| subject := ""; predicate := ""; object := ""; graph := "" |};
     fieldTypes := defaultTypes;
     objectDatatype := ""; objectLanguage := ""; objectUsesTextarea := false;
     tinyMode := false;
     mmmServer := None; prefixes := COMMON_PREFIXES;
     currentIdentity := None; expandQNames := true;
     defaultGraph := "mntl:publ/scratch";
     dom := renderedDom |}.

(** [set mmmServer(value)] *)
Definition setMmmServer (srv : Server) (st : State) : State :=
  withServer (Some srv) st.

(** [validate()] *)
Definition validate (st : State) : bool * list Event :=
  let v := fieldValues st in
  let errors :=
    (required (subject v) "Subject is required"
     ++ required (predicate v) "Predicate is required"
     ++ required (object v) "Object is required"
     ++ required (graph v) "Graph is required")%list in
  let valid := match errors with [] => true | _ :: _ => false end in
  (valid, [ValidationChanged valid errors]).

(** [getField(name)] *)
Definition getField (st : State) (name : Field) : string :=
  orElse (get name (fieldValues st)) "".

(** [clear()]: in tiny mode the textarea and the language input of the
    full form are not there to be reset.  The datatype tag is a plain
    field here: emptying it leaves the type of the object input as it is. *)
Definition clear (st : State) : State * list Event :=
  let m :=
    if tinyMode st
    then setInput Subject "" (setInput Predicate "" (setInput Object "" (dom st)))
    else clearInputs (dom st) in
  let st' :=
    {| fieldValues := {| subject := ""; predicate := ""; object := "";
                         graph := defaultGraph st |};
       fieldTypes := defaultTypes;
       objectDatatype := ""; objectLanguage := ""; objectUsesTextarea := false;
       tinyMode := tinyMode st;
       mmmServer := mmmServer st; prefixes := prefixes st;
       currentIdentity := currentIdentity st; expandQNames := expandQNames st;
       defaultGraph := defaultGraph st; dom := m |} in
  (st', snd (validate st')).

(** The quad literal of [handleSubmit]; [now] is [new Date().toISOString()]. *)
Definition buildQuad (now : string) (st : State) : Quad.t :=
  let v := fieldValues st in
  let expand := fun x => if expandQNames st then expandQName (prefixes st) x else x in
  {| Quad.s := expand (subject v);
     Quad.p := expand (predicate v);
     Quad.o := expand (object v);
     Quad.g := expand (graph v);
     Quad.at_ := now;
     Quad.by_ := attribution (currentIdentity st);
     Quad.d := datatypeKey (objectDatatype st);
     Quad.l := languageKey (objectLanguage st) |}.

(** The [console.log] about long textarea content. *)
Definition snipNotice (st : State) : list Event :=
  if objectUsesTextarea st
     && negb (String.eqb (object (fieldValues st)) "")
     && (50 <? JS.length (object (fieldValues st)))
  then [ConsoleLog "SNIP should be generated for long text:"]
  else [].

(** [handleSubmit(e)]: the form is cleared once the server has resolved, or
    at once when there is no server; a rejection goes to the [catch] branch,
    which clears nothing. *)
Definition handleSubmit (now : string) (st : State) : State * list Event :=
  let (valid, events) := validate st in
  if negb valid then (st, events)
  else
    let quad := buildQuad now st in
    let emitted := (events ++ snipNotice st ++ [QuadSubmitted quad])%list in
    match mmmServer st with
    | Some server =>
        match server quad with
        | Resolved =>
            let (st', cleared) := clear st in
            (st', (emitted ++ [AddQuad quad] ++ cleared)%list)
        | Rejected err =>
            (st, (emitted ++ [AddQuad quad;
                              ConsoleError "Failed to submit quad:" err;
                              QuadError err])%list)
        end
    | None =>
        let (st', cleared) := clear st in
        (st', (emitted ++ cleared)%list)
    end.

Definition convert (st : State) (oldType newType currentValue : string) : option string :=
  if String.eqb oldType "qname" && String.eqb newType "uri"
  then Some (expandQName (prefixes st) currentValue)
  else if String.eqb oldType "uri" && String.eqb newType "qname"
  then Some (contractUri (prefixes st) currentValue)
  else None.

(** The object branch of [handleTypeChange]. *)
Definition changeObjectType (oldType newType : string) (st : State) : State :=
  let currentValue :=
    orElse (orElse (objectInputValue (dom st)) (objectTextarea (dom st)))
           (object (fieldValues st)) in
  let st1 :=
    match convert st oldType newType currentValue with
    | Some v =>
        withValues (set Object v (fieldValues st))
                   (withDom (setTextarea v (setInput Object v (dom st))) st)
    | None => st
    end in
  let st2 := withTextarea (shouldUseTextarea newType) st1 in
  let st3 :=
    if shouldUseTextarea newType
    then
      let moved :=
        if String.eqb (objectInputValue (dom st2)) "" then st2
        else withValues (set Object (objectInputValue (dom st2)) (fieldValues st2))
                        (withDom (setTextarea (objectInputValue (dom st2)) (dom st2)) st2) in
      withDom (setLanguageDisabled false (dom moved)) moved
    else
      if String.eqb (objectTextarea (dom st2)) "" then st2
      else withValues (set Object (objectTextarea (dom st2)) (fieldValues st2))
                      (withDom (setInput Object (objectTextarea (dom st2)) (dom st2)) st2) in
  if isQNameOrUri newType
  then
    withLanguage ""
      (withDatatype ""
         (withDom (setLanguageInput "" (setLanguageDisabled true (dom st3))) st3))
  else
    let st4 :=
      if negb (shouldUseTextarea newType)
      then withDom (setLanguageDisabled true (dom st3)) st3
      else st3 in
    withDom (updateObjectInputType newType (dom st4)) (withDatatype newType st4).

(** [handleTypeChange(e)] with [e.target.dataset.field = field] and
    [e.target.value = newType]. *)
Definition handleTypeChange (field : Field) (newType : string) (st : State)
  : State * list Event :=
  let oldType := get field (fieldTypes st) in
  let st1 := withTypes (set field newType (fieldTypes st)) st in
  let st2 :=
    match field with
    | Object => changeObjectType oldType newType st1
    | _ =>
        match inputValue field (dom st1) with
        | Some shown =>
            let currentValue := orElse shown (get field (fieldValues st1)) in
            match convert st1 oldType newType currentValue with
            | Some v =>
                withValues (set field v (fieldValues st1))
                           (withDom (setInput field v (dom st1)) st1)
            | None => st1
            end
        | None => st1
        end
    end in
  (st2, snd (validate st2)).

(** [handleFieldChange(e)] on a field input, after the user's edit of the
    input of [field] to [typed]; [value] is [e.target.value]. *)
Definition handleFieldChange (field : Field) (typed : string) (st : State)
  : State * list Event :=
  let m := typeInto field typed (dom st) in
  let value :=
    match inputValue field m with
    | Some shown => shown
    | None => typed
    end in
  let st' := withValues (set field value (fieldValues st)) (withDom m st) in
  (st', FieldChanged field value :: snd (validate st')).

(** [handleFieldChange(e)] on a field picker: the user picked [value] in
    the select of [field]; the text input keeps what it shows. *)
Definition handleSelect (field : Field) (value : string) (st : State)
  : State * list Event :=
  let st' := withValues (set field value (fieldValues st)) st in
  (st', FieldChanged field value :: snd (validate st')).

(** [handleFieldChange(e)] on the object textarea, after the user's edit
    of the textarea to [typed]; [value] is [e.target.value]. *)
Definition handleTextareaChange (typed : string) (st : State) : State * list Event :=
  let m := setTextarea typed (dom st) in
  let value := objectTextarea m in
  let st' := withValues (set Object value (fieldValues st)) (withDom m st) in
  (st', FieldChanged Object value :: snd (validate st')).

(** The [input] listener of the language input, after the user's edit of
    the input to [typed]; [shown] is [e.target.value]. *)
Definition handleLanguageInput (typed : string) (st : State) : State :=
  let m := setLanguageInput typed (dom st) in
  let shown := languageInput m in
  let value := JS.toLowerCase (stripAt shown) in
  if JS.length value =? 1
  then withLanguage "" (withDom (setLanguageInput "" m) st)
  else withLanguage value (withDom m st).

End Classic.

(** ** Runs used as concrete instances *)

(** A server that rejects whatever it is sent. *)
Definition offline : Server := fun _ => Rejected "offline".

(** The full form after Clear, with the subject typed in, the predicate
    picked, the object switched to [rdf:HTML], its text entered and the
    language tag [en] given. *)
Definition unifiedFilled : Unified.State :=
  let st0 := fst (Unified.clear Unified.initial) in
  let st1 := fst (Unified.handleInput Subject "ex:Alice" st0) in
  let st2 := fst (Unified.handleSelect Predicate "rdfs:comment" st1) in
  let st3 := fst (Unified.handleTypeChange Object "rdf:HTML" st2) in
  let st4 := fst (Unified.handleTextareaInput "<b>hi</b>" st3) in
  Unified.handleLanguageInput "en" st4.

Definition classicFilled : Classic.State :=
  let st0 := fst (Classic.clear Classic.initial) in
  let st1 := fst (Classic.handleFieldChange Subject "ex:Alice" st0) in
  let st2 := fst (Classic.handleSelect Predicate "rdfs:comment" st1) in
  let st3 := fst (Classic.handleTypeChange Object "rdf:HTML" st2) in
  let st4 := fst (Classic.handleTextareaChange "<b>hi</b>" st3) in
  Classic.handleLanguageInput "en" st4.

(** The nano regime entered from the initial form, the object left blank. *)
Definition nanoBlank : Unified.State :=
  let st := Unified.toggleNanoMode Unified.initial in
  Unified.withValues (set Object "   " (Unified.fieldValues st)) st.

(** The record the filled form of the unified iteration submits at [now]. *)
Definition unifiedQuad (now : string) : Quad.t :=
  {| Quad.s := "http://example.org/Alice";
     Quad.p := "http://www.w3.org/2000/01/rdf-schema#comment";
     Quad.o := "<b>hi</b>";
     Quad.g := "mntl:publ/scratch";
     Quad.at_ := now;
     Quad.by_ := "anonymous";
     Quad.d := Some "rdf:HTML";
     Quad.l := Some "en" |}.

(** The record the filled form of [src/quad-form.js] submits at [now]. *)
Definition classicQuad (now : string) : Quad.t :=
  {| Quad.s := "http://example.org/Alice";
     Quad.p := "http://www.w3.org/2000/01/rdf-schema#comment";
     Quad.o := "<b>hi</b>";
     Quad.g := "urn:mmm:mntl:publ/scratch";
     Quad.at_ := now;
     Quad.by_ := "anonymous";
     Quad.d := Some "rdf:HTML";
     Quad.l := Some "en" |}.


(** The filled forms once the object is switched on to [xsd:integer]. *)
Definition unifiedSwitched : Unified.State :=
  fst (Unified.handleTypeChange Object "xsd:integer" unifiedFilled).

Definition classicSwitched : Classic.State :=
  fst (Classic.handleTypeChange Object "xsd:integer" classicFilled).
(** ** Changes to the prefix table *)

(** The value of a decimal numeral. *)
Fixpoint digits (s : string) (acc : N) : option N :=
  match s with
  | EmptyString => Some acc
  | String c s' =>
      if JS.between 48 57 c
      then digits s' (10 * acc + N.of_nat (JS.code c - 48))%N
      else None
  end.

(** The array index a key stands for, if it is one: a decimal numeral
    without a leading zero, below 2^32 - 1.  An object lists such keys
    first, in ascending order, and the other keys after them in the order
    they were added. *)
Definition arrayIndex (k : string) : option N :=
  match k with
  | EmptyString => None
  | String c rest =>
      if Ascii.eqb c "0" then (if String.eqb rest "" then Some 0%N else None)
      else match digits k 0 with
           | Some n => if (n <? 4294967295)%N then Some n else None
           | None => None
           end
  end.

(** Where the new array-index key [k] goes among the entries. *)
Fixpoint insertIndex (n : N) (k v : string) (t : PrefixTable) : PrefixTable :=
  match t with
  | [] => [(k, v)]
  | (k', v') :: t' =>
      match arrayIndex k' with
      | Some m => if (m <? n)%N then (k', v') :: insertIndex n k v t' else (k, v) :: t
      | None => (k, v) :: t
      end
  end.

(** The entries once the new key [k] is added. *)
Definition place (k v : string) (t : PrefixTable) : PrefixTable :=
  match arrayIndex k with
  | Some n => insertIndex n k v t
  | None => (t ++ [(k, v)])%list
  end.

(** The entries once the value of the existing key [k] is replaced. *)
Fixpoint replace (k v : string) (t : PrefixTable) : PrefixTable :=
  match t with
  | [] => []
  | (k', v') :: t' =>
      if String.eqb k' k then (k', v) :: t' else (k', v') :: replace k v t'
  end.

(** A key of an object literal or of a spread: defined as an own property
    whatever its name. *)
Definition defineProp (t : PrefixTable) (k v : string) : PrefixTable :=
  match own t k with
  | Some _ => replace k v t
  | None => place k v t
  end.

(** [t[k] = v] with a string [v]: an existing own property is overwritten,
    a new one is added, except that without an own [__proto__] the inherited
    setter of that name takes the assignment and ignores a string. *)
Definition assignProp (t : PrefixTable) (k v : string) : PrefixTable :=
  match own t k with
  | Some _ => replace k v t
  | None => if String.eqb k "__proto__" then t else place k v t
  end.

(** [delete t[k]] *)
Definition deleteProp (t : PrefixTable) (k : string) : PrefixTable :=
  filter (fun e => negb (String.eqb (fst e) k)) t.

(** [{ ...a, ...b }] for the sources in the order they are spread. *)
Definition spread (sources : list PrefixTable) : PrefixTable :=
  fold_left
    (fun acc src => fold_left (fun a e => defineProp a (fst e) (snd e)) src acc)
    sources [].

(** ** Graph prefix, pickers and the tiny line *)

(** [getGraphPrefix()]; the text is the same in both iterations. *)
Definition getGraphPrefix (currentIdentity : option string)
           (graphMentalSpace : string) : string :=
  let identity := match currentIdentity with Some i => i | None => "" end in
  if String.eqb identity "" then
    if String.eqb graphMentalSpace "mntl:publ" then "mntl:publ"
    else graphMentalSpace ++ "/{identity}"
  else if String.eqb graphMentalSpace "http:" || String.eqb graphMentalSpace "https:"
  then graphMentalSpace ++ "//"
  else if String.eqb graphMentalSpace "mntl:publ" then "mntl:publ"
  else graphMentalSpace ++ "/" ++ identity.

Definition COMMON_PROPERTIES : list string :=
  [ "rdf:type"; "rdfs:label"; "rdfs:comment"; "owl:sameAs";
    "foaf:name"; "foaf:knows"; "dc:title"; "dc:creator";
    "dcterms:created"; "schema:name"; "schema:description" ].

(** The subject, the predicate and the object: the fields that have an
    input, a picker and a place on the tiny line. *)
Inductive Term := TSubject | TPredicate | TObject.

Definition fieldOf (t : Term) : Field :=
  match t with
  | TSubject => Subject
  | TPredicate => Predicate
  | TObject => Object
  end.

(** An object keyed by the three terms, as [tinyFieldTypes] and
    [tinyPickerIndices] are. *)
Record Terms (A : Type) := {
  ofSubject : A;
  ofPredicate : A;
  ofObject : A }.

Arguments ofSubject {A} _.
Arguments ofPredicate {A} _.
Arguments ofObject {A} _.

Definition termGet {A : Type} (t : Term) (v : Terms A) : A :=
  match t with
  | TSubject => ofSubject v
  | TPredicate => ofPredicate v
  | TObject => ofObject v
  end.

Definition termSet {A : Type} (t : Term) (x : A) (v : Terms A) : Terms A :=
  match t with
  | TSubject => {| ofSubject := x; ofPredicate := ofPredicate v; ofObject := ofObject v |}
  | TPredicate => {| ofSubject := ofSubject v; ofPredicate := x; ofObject := ofObject v |}
  | TObject => {| ofSubject := ofSubject v; ofPredicate := ofPredicate v; ofObject := x |}
  end.

(** [getPickerValues(field)]; the text is the same in both iterations. *)
Definition getPickerValues (prefixes : PrefixTable) (field : Term) : list string :=
  match field with
  | TPredicate => COMMON_PROPERTIES
  | _ => flat_map (fun e => [fst e ++ ":Class"; fst e ++ ":Resource"]) prefixes
  end.

(** The type [cycleTinyFieldType] moves to: the object goes from qname to
    uri to string and back to qname, the other two between qname and uri. *)
Definition nextTinyType (field : Term) (current : string) : string :=
  match field with
  | TObject =>
      if String.eqb current "qname" then "uri"
      else if String.eqb current "uri" then "string"
      else "qname"
  | _ => if String.eqb current "qname" then "uri" else "qname"
  end.

(** The index [cycleTinyPicker] moves to among [len] values. *)
Definition wrapIndex (len currentIndex direction : Z) : Z :=
  let newIndex := currentIndex + direction in
  let newIndex := if newIndex <? 0 then len - 1 else newIndex in
  if newIndex >=? len then 0 else newIndex.

(** [values[i]] *)
Definition at_ (values : list string) (i : Z) : string :=
  nth (Z.to_nat i) values "".

(** What a key press carries: [e.key], the modifier flags, and whether the
    target is the textarea. *)
Record KeyEvent := {
  key : string;
  shiftKey : bool;
  ctrlKey : bool;
  metaKey : bool;
  inTextarea : bool }.

(** ** The unified iteration with the rest of its fields *)

Module Widget.

Record State := {
  core : Unified.State;
  fieldControls : Fields;
  graphMentalSpace : string;
  graphPath : string;
  tinyFieldTypes : Terms string;
  tinyPickerIndices : Terms Z }.

Definition withCore (c : Unified.State) (w : State) : State :=
  {| core := c; fieldControls := fieldControls w;
     graphMentalSpace := graphMentalSpace w; graphPath := graphPath w;
     tinyFieldTypes := tinyFieldTypes w; tinyPickerIndices := tinyPickerIndices w |}.

Definition withGraph (space path : string) (w : State) : State :=
  {| core := core w; fieldControls := fieldControls w;
     graphMentalSpace := space; graphPath := path;
     tinyFieldTypes := tinyFieldTypes w; tinyPickerIndices := tinyPickerIndices w |}.

Definition withTinyTypes (v : Terms string) (w : State) : State :=
  {| core := core w; fieldControls := fieldControls w;
     graphMentalSpace := graphMentalSpace w; graphPath := graphPath w;
     tinyFieldTypes := v; tinyPickerIndices := tinyPickerIndices w |}.

Definition withPickerIndices (v : Terms Z) (w : State) : State :=
  {| core := core w; fieldControls := fieldControls w;
     graphMentalSpace := graphMentalSpace w; graphPath := graphPath w;
     tinyFieldTypes := tinyFieldTypes w; tinyPickerIndices := v |}.

Definition withControls (v : Fields) (w : State) : State :=
  {| core := core w; fieldControls := v;
     graphMentalSpace := graphMentalSpace w; graphPath := graphPath w;
     tinyFieldTypes := tinyFieldTypes w; tinyPickerIndices := tinyPickerIndices w |}.

Definition withPrefixes (t : PrefixTable) (c : Unified.State) : Unified.State :=
  {| Unified.fieldValues := Unified.fieldValues c;
     Unified.fieldTypes := Unified.fieldTypes c;
     Unified.objectDatatype := Unified.objectDatatype c;
     Unified.objectLanguage := Unified.objectLanguage c;
     Unified.objectUsesTextarea := Unified.objectUsesTextarea c;
     Unified.nanoMode := Unified.nanoMode c;
     Unified.tinyMode := Unified.tinyMode c;
     Unified.dataMode := Unified.dataMode c;
     Unified.mmmServer := Unified.mmmServer c;
     Unified.prefixes := t;
     Unified.currentIdentity := Unified.currentIdentity c;
     Unified.expandQNames := Unified.expandQNames c;
     Unified.defaultGraph := Unified.defaultGraph c;
     Unified.dom := Unified.dom c |}.

(** The state the constructor builds, once rendered in full mode. *)
Definition initial : State :=
  {| core := Unified.initial;
     fieldControls := {| subject := "input"; predicate := "select";
                         object := "input"; graph := "select" |};
     graphMentalSpace := "mntl:publ";
     graphPath := "/scratch";
     tinyFieldTypes := {| ofSubject := "qname"; ofPredicate := "qname"; ofObject := "qname" |};
     tinyPickerIndices := {| ofSubject := 0; ofPredicate := 0; ofObject := 0 |} |}.

(** [set prefixes(value)] *)
Definition setPrefixes (value : PrefixTable) (w : State) : State :=
  withCore (withPrefixes (spread [COMMON_PREFIXES; value]) (core w)) w.

(** The [prefix-added] and [prefix-enabled] listeners. *)
Definition prefixAdded (prefix expansion : string) (w : State) : State :=
  withCore (withPrefixes (assignProp (Unified.prefixes (core w)) prefix expansion)
                         (core w)) w.

(** The [prefix-disabled] listener. *)
Definition prefixDisabled (prefix : string) (w : State) : State :=
  withCore (withPrefixes (deleteProp (Unified.prefixes (core w)) prefix) (core w)) w.

(** [this.getGraphPrefix()] *)
Definition graphPrefix (w : State) : string :=
  getGraphPrefix (Unified.currentIdentity (core w)) (graphMentalSpace w).

(** The graph value is the graph prefix followed by the graph path. *)
Definition graphConsistent (w : State) : Prop :=
  graph (Unified.fieldValues (core w)) = graphPrefix w ++ graphPath w.

(** [setField(name, value)] *)
Definition setField (name : Field) (value : string) (w : State) : State * list Event :=
  let c := core w in
  let c1 := Unified.withValues (set name value (Unified.fieldValues c)) c in
  let m1 :=
    if String.eqb (get name (fieldControls w)) "input"
    then setInput name value (Unified.dom c1)
    else Unified.dom c1 in
  let m2 := match name with Object => setTextarea value m1 | _ => m1 end in
  let w1 := withCore (Unified.withDom m2 c1) w in
  let w2 :=
    match name with
    | Graph =>
        let prefix := graphPrefix w1 in
        if JS.startsWith value prefix
        then withGraph (graphMentalSpace w1)
                       (JS.substringFrom value (JS.length prefix)) w1
        else w1
    | _ => w1
    end in
  (w2, snd (Unified.validate (core w2))).

(** [getField(name)] *)
Definition getField (w : State) (name : Field) : string :=
  Unified.getField (core w) name.

(** [populateFromEntity(entity, role, mode)] *)
Definition populateFromEntity (entity : string) (role : Field) (mode : string)
           (w : State) : State * list Event :=
  if String.eqb mode "reuse" then setField role entity w
  else if String.eqb mode "meta" then setField Subject entity w
  else (w, []).

(** [handleGraphPathChange(e)] with [e.target.value = path] *)
Definition handleGraphPathChange (path : string) (w : State) : State * list Event :=
  let w1 := withGraph (graphMentalSpace w) path w in
  let c := core w1 in
  let w2 :=
    withCore (Unified.withValues (set Graph (graphPrefix w1 ++ path)
                                      (Unified.fieldValues c)) c) w1 in
  (w2, snd (Unified.validate (core w2))).

(** [handleGraphMentalSpaceChange(e)] with [e.target.value = newSpace] *)
Definition handleGraphMentalSpaceChange (newSpace : string) (w : State)
  : State * list Event :=
  let oldSpace := graphMentalSpace w in
  let path1 :=
    if JS.startsWith oldSpace "mntl:" && JS.startsWith newSpace "mntl:"
    then graphPath w
    else if String.eqb newSpace "mntl:publ" then "/scratch" else "/path" in
  let w1 := withGraph newSpace path1 w in
  let prefix := graphPrefix w1 in
  let path2 :=
    if (String.eqb newSpace "http:" || String.eqb newSpace "https:")
       && (String.eqb path1 "/scratch" || String.eqb path1 "/path")
    then "//example.org/graph"
    else path1 in
  let w2 := withGraph newSpace path2 w1 in
  let c := core w2 in
  let w3 :=
    withCore (Unified.withValues (set Graph (prefix ++ path2)
                                      (Unified.fieldValues c)) c) w2 in
  (w3, snd (Unified.validate (core w3))).

(** [cycleTinyFieldType(field)] *)
Definition cycleTinyFieldType (field : Term) (w : State) : State :=
  let current := termGet field (tinyFieldTypes w) in
  let next := nextTinyType field current in
  let w1 := withTinyTypes (termSet field next (tinyFieldTypes w)) w in
  let c := core w1 in
  let currentValue := get (fieldOf field) (Unified.fieldValues c) in
  let value :=
    if String.eqb currentValue "" then currentValue
    else if String.eqb next "uri" && String.eqb current "qname"
    then Unified.expandQName (Unified.prefixes c) currentValue
    else if String.eqb next "qname" && String.eqb current "uri"
    then Unified.contractUri (Unified.prefixes c) currentValue
    else currentValue in
  withCore
    (Unified.withDom (setInput (fieldOf field) value (Unified.dom c))
       (Unified.withValues (set (fieldOf field) value (Unified.fieldValues c)) c))
    w1.

(** [this.getPickerValues(field)] *)
Definition pickerValues (w : State) (field : Term) : list string :=
  getPickerValues (Unified.prefixes (core w)) field.

(** [cycleTinyPicker(field, direction)] *)
Definition cycleTinyPicker (field : Term) (direction : Z) (w : State) : State :=
  let values := pickerValues w field in
  match values with
  | [] => w
  | _ :: _ =>
      let newIndex :=
        wrapIndex (Z.of_nat (List.length values))
                  (termGet field (tinyPickerIndices w)) direction in
      let w1 := withPickerIndices (termSet field newIndex (tinyPickerIndices w)) w in
      let c := core w1 in
      withCore
        (Unified.withDom (setInput (fieldOf field) (at_ values newIndex) (Unified.dom c))
           (Unified.withValues
              (set (fieldOf field) (at_ values newIndex) (Unified.fieldValues c)) c))
        w1
  end.

(** [handleControlToggle(e)] on the toggle button of [field] *)
Definition handleControlToggle (field : Term) (w : State) : State * list Event :=
  let currentControl := get (fieldOf field) (fieldControls w) in
  let newControl := if String.eqb currentControl "input" then "select" else "input" in
  let w1 := withControls (set (fieldOf field) newControl (fieldControls w)) w in
  (w1, snd (Unified.validate (core w1))).

(** [handleSubmit(e)] *)
Definition handleSubmit (now : string) (w : State) : State * list Event :=
  (withCore (fst (Unified.handleSubmit now (core w))) w,
   snd (Unified.handleSubmit now (core w))).

(** [handleTinyKeydown(e, field)]: Tab only moves the focus. *)
Definition handleTinyKeydown (e : KeyEvent) (field : Term) (now : string)
           (w : State) : State * list Event :=
  if String.eqb (key e) "Tab" then (w, [])
  else if String.eqb (key e) "Escape" && negb (inTextarea e)
  then (cycleTinyFieldType field w, [])
  else if (String.eqb (key e) "ArrowUp" || String.eqb (key e) "ArrowDown")
          && negb (inTextarea e)
  then (cycleTinyPicker field (if String.eqb (key e) "ArrowUp" then -1 else 1) w, [])
  else if String.eqb (key e) "Enter" && negb (inTextarea e)
  then handleSubmit now w
  else if String.eqb (key e) "Enter" && inTextarea e && (ctrlKey e || metaKey e)
  then handleSubmit now w
  else (w, []).

(** The [keydown] listener of the input of [field], and of the object
    textarea when [field] is the object. *)
Definition onKeydown (e : KeyEvent) (field : Term) (now : string) (w : State)
  : State * list Event :=
  match Unified.dataMode (core w) with
  | Unified.tiny => handleTinyKeydown e field now w
  | Unified.nano =>
      match field with
      | TObject => if String.eqb (key e) "Tab" then handleSubmit now w else (w, [])
      | _ => (w, [])
      end
  | Unified.full => (w, [])
  end.

(** The [blur] listener of the input of [field], and of the object
    textarea when [field] is the object. *)
Definition onBlur (field : Term) (now : string) (w : State) : State * list Event :=
  match Unified.dataMode (core w), field with
  | Unified.nano, TObject => handleSubmit now w
  | _, _ => (w, [])
  end.

End Widget.

(** The full form after Clear, with text that is no identifier typed into
    the subject, the predicate picked and the object typed in. *)
Definition sloppyFilled : Unified.State :=
  let st0 := fst (Unified.clear Unified.initial) in
  let st1 := fst (Unified.handleInput Subject "not an identifier" st0) in
  let st2 := fst (Unified.handleSelect Predicate "rdfs:comment" st1) in
  fst (Unified.handleInput Object "ex:Bob" st2).

(** The nano regime entered from the initial form, with a note typed into
    the object. *)
Definition nanoNote : Unified.State :=
  fst (Unified.handleInput Object "a note" (Unified.toggleNanoMode Unified.initial)).

(** A server that accepts whatever it is sent. *)
Definition online : Server := fun _ => Resolved.


(** The form as built, with [ex:Alice] typed into the subject and [ex:Bob]
    into the object; the field types of the tiny line are all qname. *)
Definition tinyLine : Widget.State :=
  let c0 := Unified.initial in
  let c1 := fst (Unified.handleInput Subject "ex:Alice" c0) in
  let c2 := fst (Unified.handleInput Object "ex:Bob" c1) in
  Widget.withCore c2 Widget.initial.

(** ** Facts about the string primitives *)

Section StringFacts.

Lemma take_app (a b : string) : JS.take (String.length a) (a ++ b) = a.
Proof. induction a as [|c a IH]; simpl; [now destruct b | now rewrite IH]. Qed.

Lemma skip_app (a b : string) : JS.skip (String.length a) (a ++ b) = b.
Proof. induction a as [|c a IH]; simpl; auto. Qed.

Lemma length_app (a b : string) :
  String.length (a ++ b) = (String.length a + String.length b)%nat.
Proof. induction a as [|c a IH]; simpl; auto. Qed.

Lemma append_assoc (a b c : string) : (a ++ b) ++ c = a ++ b ++ c.
Proof. induction a as [|x a IH]; simpl; [reflexivity | now rewrite IH]. Qed.

Lemma startsWith_app (a b : string) : JS.startsWith (a ++ b) a = true.
Proof.
  induction a as [|c a IH]; simpl; [reflexivity|].
  now rewrite Ascii.eqb_refl.
Qed.

Lemma startsWith_colon (s : string) :
  JS.startsWith s ":" = match s with String c _ => Ascii.eqb c ":" | EmptyString => false end.
Proof. destruct s as [|c s]; simpl; [reflexivity | now rewrite andb_true_r]. Qed.

(** Two strings that both begin a third one are comparable. *)
Lemma startsWith_comparable (n l m : string) :
  JS.startsWith (n ++ l) m = true ->
  JS.startsWith n m = true \/ JS.startsWith m n = true.
Proof.
  revert m. induction n as [|c n IH]; intros m H.
  - right. now destruct m.
  - destruct m as [|d m]; [now left|].
    simpl in H. apply andb_true_iff in H as [Hc Hm].
    destruct (IH m Hm) as [Hl|Hr].
    + left. simpl. now rewrite Hc.
    + right. simpl. apply Ascii.eqb_eq in Hc. subst d.
      now rewrite Ascii.eqb_refl.
Qed.

Lemma indexOf_lower (s needle : string) : -1 <= JS.indexOf s needle.
Proof.
  induction s as [|c s IH]; simpl.
  - destruct needle; simpl; lia.
  - destruct (JS.startsWith (String c s) needle); [lia|].
    destruct (JS.indexOf s needle <? 0) eqn:E; [lia|].
    apply Z.ltb_ge in E. lia.
Qed.

Lemma indexOf_upper (s needle : string) : JS.indexOf s needle <= JS.length s.
Proof.
  unfold JS.length. induction s as [|c s IH].
  - simpl. destruct needle; simpl; lia.
  - cbn [JS.indexOf String.length].
    destruct (JS.startsWith (String c s) needle); [lia|].
    destruct (JS.indexOf s needle <? 0); lia.
Qed.

(** [includes] is [indexOf] compared with -1. *)
Lemma includes_indexOf (s needle : string) :
  JS.includes s needle = (0 <=? JS.indexOf s needle).
Proof.
  induction s as [|c s IH]; cbn [JS.includes JS.indexOf].
  - destruct (JS.startsWith "" needle); reflexivity.
  - destruct (JS.startsWith (String c s) needle); [reflexivity|].
    rewrite orb_false_l, IH.
    destruct (JS.indexOf s needle <? 0) eqn:E.
    + apply Z.ltb_lt in E. apply Z.leb_gt. exact E.
    + apply Z.ltb_ge in E.
      transitivity true; [|symmetry]; apply Z.leb_le; lia.
Qed.

Lemma clamp_in_range (s : string) (i : Z) :
  0 <= i <= JS.length s -> JS.clamp s i = Z.to_nat i.
Proof. unfold JS.clamp. intros H. f_equal. lia. Qed.

Lemma substring_take (s : string) (i : Z) :
  0 <= i <= JS.length s -> JS.substring s 0 i = JS.take (Z.to_nat i) s.
Proof.
  intros H. unfold JS.substring.
  rewrite (clamp_in_range s i H).
  assert (H0 : JS.clamp s 0 = 0%nat).
  { unfold JS.clamp, JS.length. lia. }
  rewrite H0. rewrite Nat.max_0_l, Nat.min_0_l, Nat.sub_0_r. reflexivity.
Qed.

Lemma substringFrom_skip (s : string) (i : Z) :
  0 <= i <= JS.length s -> JS.substringFrom s i = JS.skip (Z.to_nat i) s.
Proof. intros H. unfold JS.substringFrom. now rewrite clamp_in_range. Qed.

Lemma skip_past_end (s : string) (n : nat) :
  (String.length s <= n)%nat -> JS.skip n s = "".
Proof.
  revert s. induction n as [|n IH]; intros [|c s] H; simpl in *; try reflexivity; try lia.
  apply IH. lia.
Qed.

(** The first colon of [p ++ ":" ++ x] is the one after [p] when [p] has none. *)
Lemma indexOf_colon_app (p x : string) :
  JS.includes p ":" = false ->
  JS.indexOf (p ++ ":" ++ x) ":" = JS.length p.
Proof.
  unfold JS.length. change (":" ++ x) with (String ":" x).
  induction p as [|c p IH]; intros H.
  - reflexivity.
  - cbn [JS.includes] in H. apply orb_false_iff in H as [Hc Hp].
    rewrite startsWith_colon in Hc.
    cbn [String.append JS.indexOf]. rewrite startsWith_colon, Hc.
    rewrite (IH Hp). cbn [String.length].
    destruct (Z.of_nat (String.length p) <? 0) eqn:E; [apply Z.ltb_lt in E|]; lia.
Qed.

Lemma split_at_colon (p x : string) :
  JS.includes p ":" = false ->
  JS.substring (p ++ ":" ++ x) 0 (JS.indexOf (p ++ ":" ++ x) ":") = p
  /\ JS.substringFrom (p ++ ":" ++ x) (JS.indexOf (p ++ ":" ++ x) ":" + 1) = x.
Proof.
  intros H. rewrite (indexOf_colon_app p x H).
  assert (L : JS.length (p ++ ":" ++ x) = JS.length p + 1 + JS.length x).
  { unfold JS.length. rewrite length_app. cbn [String.append String.length]. lia. }
  assert (P : 0 <= JS.length p) by (unfold JS.length; lia).
  assert (X : 0 <= JS.length x) by (unfold JS.length; lia).
  split.
  - rewrite substring_take by lia.
    unfold JS.length. rewrite Nat2Z.id. apply take_app.
  - rewrite substringFrom_skip by lia.
    unfold JS.length.
    replace (Z.to_nat (Z.of_nat (String.length p) + 1)) with (S (String.length p)) by lia.
    change (":" ++ x) with (String ":" x).
    replace (p ++ String ":" x) with ((p ++ ":") ++ x) by (now rewrite append_assoc).
    replace (S (String.length p)) with (String.length (p ++ ":")).
    + apply skip_app.
    + rewrite length_app. simpl. lia.
Qed.

(** A name character is neither a colon nor a slash. *)
Lemma nameChar_not_colon (c : ascii) : JS.isNameChar c = true -> Ascii.eqb c ":" = false.
Proof.
  intros H. destruct (Ascii.eqb c ":") eqn:E; [|reflexivity].
  apply Ascii.eqb_eq in E. subst c. discriminate H.
Qed.

Lemma nameChar_not_slash (c : ascii) : JS.isNameChar c = true -> Ascii.eqb c "/" = false.
Proof.
  intros H. destruct (Ascii.eqb c "/") eqn:E; [|reflexivity].
  apply Ascii.eqb_eq in E. subst c. discriminate H.
Qed.

Lemma nameStart_nameChar (c : ascii) : JS.isNameStart c = true -> JS.isNameChar c = true.
Proof. intros H. unfold JS.isNameChar. now rewrite H. Qed.

Lemma localNameRe_allNameChars (s : string) :
  JS.localNameRe s = true -> JS.allNameChars s = true.
Proof.
  destruct s as [|c s]; simpl; [discriminate|].
  intros H. apply andb_true_iff in H as [Hc Hs].
  now rewrite (nameStart_nameChar c Hc), Hs.
Qed.

Lemma startsWith_cons (c : ascii) (s : string) (d : ascii) (p : string) :
  JS.startsWith (String c s) (String d p) = Ascii.eqb c d && JS.startsWith s p.
Proof. reflexivity. Qed.

Lemma allNameChars_no_colon (s : string) :
  JS.allNameChars s = true -> JS.includes s ":" = false.
Proof.
  induction s as [|c s IH]; simpl; [reflexivity|].
  intros H. apply andb_true_iff in H as [Hc Hs].
  rewrite (nameChar_not_colon c Hc), (IH Hs). reflexivity.
Qed.

Lemma allNameChars_no_slash (s : string) :
  JS.allNameChars s = true -> JS.includes s "/" = false.
Proof.
  induction s as [|c s IH]; simpl; [reflexivity|].
  intros H. apply andb_true_iff in H as [Hc Hs].
  rewrite (nameChar_not_slash c Hc), (IH Hs). reflexivity.
Qed.

(** A string with [://] in it has a colon and a slash. *)
Lemma includes_uri_colon (s : string) :
  JS.includes s "://" = true -> JS.includes s ":" = true.
Proof.
  induction s as [|c s IH]; [discriminate|].
  cbn [JS.includes]. rewrite startsWith_colon.
  intros H. apply orb_true_iff in H as [H|H].
  - destruct s as [|d s]; simpl in H.
    + now rewrite andb_false_r in H.
    + apply andb_true_iff in H as [H _]. now rewrite H.
  - rewrite (IH H). apply orb_true_r.
Qed.

Lemma includes_uri_slash (s : string) :
  JS.includes s "://" = true -> JS.includes s "/" = true.
Proof.
  induction s as [|c s IH]; [discriminate|].
  cbn [JS.includes].
  intros H. apply orb_true_iff in H as [H|H].
  - destruct s as [|d s]; [simpl in H; now rewrite andb_false_r in H|].
    rewrite startsWith_cons in H. apply andb_true_iff in H as [_ H].
    destruct s as [|e s]; [simpl in H; now rewrite andb_false_r in H|].
    rewrite startsWith_cons in H. apply andb_true_iff in H as [H _].
    apply orb_true_iff. right. cbn [JS.includes].
    simpl. rewrite H. reflexivity.
  - rewrite (IH H). apply orb_true_r.
Qed.

End StringFacts.


(** *** Text inputs *)

(** A text input keeps a single line as it is. *)
Lemma stripNewlines_singleLine (s : string) :
  HTML.singleLine s = true -> HTML.stripNewlines s = s.
Proof.
  induction s as [|c s IH]; [reflexivity|].
  cbn [HTML.singleLine HTML.stripNewlines]. intros H.
  apply andb_true_iff in H as [Hc Hs]. apply negb_true_iff in Hc.
  now rewrite Hc, (IH Hs).
Qed.






(** ** Identifier validation and prefix expansion in the unified iteration *)

Section UnifiedIdentifiers.

Variable table : PrefixTable.

Lemma has_In (set : list string) (x : string) : JS.has set x = true -> In x set.
Proof.
  unfold JS.has. intros H. apply existsb_exists in H as [y [Hy E]].
  apply String.eqb_eq in E. now subst y.
Qed.

Lemma scheme_no_colon (scheme : string) :
  JS.has Unified.MMM_URN_SCHEMES scheme || JS.has Unified.STANDARD_SCHEMES scheme = true ->
  JS.includes scheme ":" = false.
Proof.
  intros H. apply orb_true_iff in H as [H|H]; apply has_In in H; simpl in H;
    repeat (destruct H as [H|H]; [subst scheme; reflexivity|]); contradiction.
Qed.

Lemma app_colon_nonempty (p x : string) : String.eqb (p ++ ":" ++ x) "" = false.
Proof. apply String.eqb_neq. now destruct p. Qed.

(** A value with a non-blank character does not trim to the empty string. *)
Lemma trimStart_colon (s : string) :
  JS.includes s ":" = true ->
  exists c t, JS.trimStart s = String c t /\ JS.isWhiteSpace c = false.
Proof.
  induction s as [|c s IH]; [discriminate|].
  cbn [JS.includes JS.trimStart]. rewrite startsWith_colon. intros H.
  destruct (JS.isWhiteSpace c) eqn:W.
  - apply IH. destruct (Ascii.eqb c ":") eqn:E; [|exact H].
    apply Ascii.eqb_eq in E. subst c. discriminate W.
  - now exists c, s.
Qed.

Lemma trim_colon (s : string) :
  JS.includes s ":" = true -> String.eqb (JS.trim s) "" = false.
Proof.
  intros H. destruct (trimStart_colon s H) as [c [t [E W]]].
  unfold JS.trim. rewrite E. cbn [JS.trimEnd]. rewrite W.
  apply String.eqb_neq. now destruct (JS.trimEnd t).
Qed.

(** What follows the first colon of a value with [://] in it has a slash. *)
Lemma uri_rest_has_slash (s : string) :
  JS.includes s "://" = true ->
  JS.includes (JS.skip (S (Z.to_nat (JS.indexOf s ":"))) s) "/" = true.
Proof.
  induction s as [|c s IH]; [discriminate|].
  intros H. cbn [JS.indexOf]. rewrite startsWith_colon.
  destruct (Ascii.eqb c ":") eqn:E.
  - cbn [Z.to_nat JS.skip].
    cbn [JS.includes] in H. apply orb_true_iff in H as [H|H].
    + destruct s as [|d s]; [simpl in H; now rewrite andb_false_r in H|].
      rewrite startsWith_cons in H. apply andb_true_iff in H as [_ H].
      rewrite startsWith_cons in H. apply andb_true_iff in H as [H _].
      cbn [JS.includes]. rewrite startsWith_cons, H. reflexivity.
    + now apply includes_uri_slash.
  - cbn [JS.includes] in H. rewrite startsWith_cons, E in H. simpl in H.
    pose proof (includes_uri_colon s H) as Hc.
    rewrite includes_indexOf in Hc. apply Z.leb_le in Hc.
    destruct (JS.indexOf s ":" <? 0) eqn:F; [apply Z.ltb_lt in F; lia|].
    replace (Z.to_nat (JS.indexOf s ":" + 1)) with (S (Z.to_nat (JS.indexOf s ":"))) by lia.
    cbn [JS.skip]. now apply IH.
Qed.

Lemma slash_not_local (x : string) :
  JS.includes x "/" = true -> JS.localNameRe x = false /\ (JS.length x =? 0) = false.
Proof.
  intros H. split.
  - destruct (JS.localNameRe x) eqn:E; [|reflexivity].
    apply localNameRe_allNameChars, allNameChars_no_slash in E. congruence.
  - destruct x; [discriminate H|]. reflexivity.
Qed.

(** A prefixed name whose prefix has no colon and whose local part is a
    local name has no [://] in it. *)
Lemma qname_no_uri (p loc : string) :
  JS.includes p ":" = false -> JS.localNameRe loc = true ->
  JS.includes (p ++ ":" ++ loc) "://" = false.
Proof.
  intros Hp Hl. change (":" ++ loc) with (String ":" loc).
  induction p as [|c p IH].
  - cbn [String.append JS.includes].
    assert (N : JS.includes loc "://" = false).
    { destruct (JS.includes loc "://") eqn:E; [|reflexivity].
      apply includes_uri_colon in E.
      apply localNameRe_allNameChars, allNameChars_no_colon in Hl. congruence. }
    rewrite N, orb_false_r, startsWith_cons.
    destruct loc as [|d loc]; [discriminate Hl|].
    simpl in Hl. apply andb_true_iff in Hl as [Hd _].
    rewrite startsWith_cons, (nameChar_not_slash d (nameStart_nameChar d Hd)).
    reflexivity.
  - cbn [JS.includes] in Hp. apply orb_false_iff in Hp as [Hc Hp].
    rewrite startsWith_colon in Hc.
    cbn [String.append JS.includes]. rewrite startsWith_cons, Hc, (IH Hp).
    reflexivity.
Qed.

(** *** Validation *)

Lemma validateField_uri_or_qname (type : string) :
  type = "uri" \/ type = "qname" ->
  String.eqb type "uri" || String.eqb type "qname" = true.
Proof. intros [->| ->]; reflexivity. Qed.

(** A value containing [://], under kind [uri] or [qname]: rejected when
    its first colon is at position 0, accepted when the lower-cased
    scheme before the colon is in one of the two scheme sets; otherwise
    the table is asked for the scheme, a call that throws when the table
    has an own entry named [hasOwnProperty], and the value is rejected
    whatever the answer. *)
Lemma unified_validateField_complete_uri (field value type : string) :
  JS.includes value "://" = true ->
  type = "uri" \/ type = "qname" ->
  let colonIndex := JS.indexOf value ":" in
  let scheme := JS.toLowerCase (JS.substring value 0 colonIndex) in
  Unified.validateField table field value type =
    if colonIndex <=? 0 then Returns false
    else if JS.has Unified.MMM_URN_SCHEMES scheme || JS.has Unified.STANDARD_SCHEMES scheme
    then Returns true
    else match own table "hasOwnProperty" with
         | Some _ => Throws "TypeError"
         | None => Returns false
         end.
Proof.
  intros Huri Hty colonIndex scheme. unfold Unified.validateField.
  assert (Hne : String.eqb value "" = false) by (now destruct value).
  rewrite Hne, (trim_colon value (includes_uri_colon value Huri)).
  rewrite (validateField_uri_or_qname type Hty). cbn [orb].
  fold colonIndex. fold scheme.
  destruct (colonIndex <=? 0) eqn:E; [reflexivity|].
  apply Z.leb_gt in E.
  pose proof (indexOf_upper value ":") as U. fold colonIndex in U.
  pose proof (uri_rest_has_slash value Huri) as Hsl. fold colonIndex in Hsl.
  assert (R : JS.substringFrom value (colonIndex + 1)
              = JS.skip (S (Z.to_nat colonIndex)) value).
  { destruct (Z.eq_dec colonIndex (JS.length value)) as [L|L].
    - unfold JS.substringFrom, JS.clamp.
      rewrite !skip_past_end; [reflexivity| |]; unfold JS.length in *; lia.
    - rewrite substringFrom_skip by lia. f_equal. lia. }
  rewrite R. destruct (slash_not_local _ Hsl) as [Hl Hn].
  rewrite Hl, Hn.
  destruct (JS.has Unified.MMM_URN_SCHEMES scheme); [reflexivity|].
  destruct (JS.has Unified.STANDARD_SCHEMES scheme); [reflexivity|].
  cbn [orb]. unfold hasOwnProperty.
  destruct (own table "hasOwnProperty"); [reflexivity|].
  now destruct (own table scheme).
Qed.

(** A prefixed value outside the two scheme sets is looked up in the
    prefix table under its lower-cased prefix. *)
Lemma validateField_curie (field p loc type : string) :
  p <> "" -> JS.includes p ":" = false -> loc <> "" ->
  type = "uri" \/ type = "qname" ->
  JS.has Unified.MMM_URN_SCHEMES (JS.toLowerCase p)
    || JS.has Unified.STANDARD_SCHEMES (JS.toLowerCase p) = false ->
  Unified.validateField table field (p ++ ":" ++ loc) type =
    match hasOwnProperty table (JS.toLowerCase p) with
    | Returns true => Returns (JS.localNameRe loc)
    | Returns false => Returns false
    | Throws error => Throws error
    end.
Proof.
  intros Hp Hc Hl Hty Hs. unfold Unified.validateField.
  rewrite app_colon_nonempty, (validateField_uri_or_qname type Hty). cbn [orb].
  assert (I : JS.includes (p ++ ":" ++ loc) ":" = true).
  { rewrite includes_indexOf, (indexOf_colon_app p loc Hc).
    apply Z.leb_le. unfold JS.length. lia. }
  rewrite (trim_colon _ I).
  destruct (split_at_colon p loc Hc) as [E1 E2]. rewrite E1, E2.
  rewrite (indexOf_colon_app p loc Hc).
  assert (P : (JS.length p <=? 0) = false).
  { apply Z.leb_gt. unfold JS.length. destruct p; [congruence|simpl; lia]. }
  assert (L : (JS.length loc =? 0) = false).
  { apply Z.eqb_neq. unfold JS.length. destruct loc; [congruence|simpl; lia]. }
  rewrite P, L. apply orb_false_iff in Hs as [H1 H2]. rewrite H1, H2.
  reflexivity.
Qed.

(** *** Expansion *)

(** An identifier whose scheme is in the reserved or in the standard
    scheme set is returned unchanged by [Unified.expandQName], whatever the
    prefix table holds. *)
Lemma unified_expandQName_scheme_fixed (scheme x : string) :
  JS.has Unified.MMM_URN_SCHEMES scheme || JS.has Unified.STANDARD_SCHEMES scheme = true ->
  Unified.expandQName table (scheme ++ ":" ++ x) = scheme ++ ":" ++ x.
Proof.
  intros Hs. unfold Unified.expandQName.
  destruct (String.eqb (scheme ++ ":" ++ x) "" || JS.includes (scheme ++ ":" ++ x) "://");
    [reflexivity|].
  destruct (JS.indexOf (scheme ++ ":" ++ x) ":" =? -1); [reflexivity|].
  destruct (split_at_colon scheme x (scheme_no_colon scheme Hs)) as [E _].
  now rewrite E, Hs.
Qed.

(** [expandQName] on a prefixed name, once the split at the colon is done. *)
Lemma expandQName_prefixed (p loc : string) :
  JS.includes p ":" = false -> JS.localNameRe loc = true ->
  Unified.expandQName table (p ++ ":" ++ loc) =
    if JS.has Unified.MMM_URN_SCHEMES p || JS.has Unified.STANDARD_SCHEMES p
    then p ++ ":" ++ loc
    else if truthy (getProp table p) then plus (getProp table p) loc
    else p ++ ":" ++ loc.
Proof.
  intros Hp Hl. unfold Unified.expandQName.
  rewrite app_colon_nonempty, (qname_no_uri p loc Hp Hl). cbn [orb].
  destruct (split_at_colon p loc Hp) as [E1 E2]. rewrite E1, E2.
  rewrite (indexOf_colon_app p loc Hp).
  assert (I : (JS.length p =? -1) = false).
  { apply Z.eqb_neq. unfold JS.length. lia. }
  now rewrite I.
Qed.

Lemma getProp_own (p n : string) :
  own table p = Some n -> n <> "" ->
  getProp table p = Str n /\ truthy (Str n) = true.
Proof.
  intros Hown Hn. unfold getProp. rewrite Hown. split; [reflexivity|].
  cbn [truthy]. apply String.eqb_neq in Hn. now rewrite Hn.
Qed.


(** A value with [://] in it is returned as it is. *)
Lemma expandQName_complete_uri (s : string) :
  JS.includes s "://" = true -> Unified.expandQName table s = s.
Proof. intros H. unfold Unified.expandQName. now rewrite H, orb_true_r. Qed.

(** So is a value without a colon. *)
Lemma expandQName_no_colon (s : string) :
  JS.includes s ":" = false -> Unified.expandQName table s = s.
Proof.
  intros H. unfold Unified.expandQName.
  destruct (String.eqb s "" || JS.includes s "://"); [reflexivity|].
  rewrite includes_indexOf in H. apply Z.leb_gt in H.
  pose proof (indexOf_lower s ":").
  replace (JS.indexOf s ":") with (-1) by lia. reflexivity.
Qed.

(** And a value whose prefix the table does not resolve, neither through
    an own entry nor through an inherited member. *)
Lemma expandQName_unresolved (s : string) :
  truthy (getProp table (JS.substring s 0 (JS.indexOf s ":"))) = false ->
  Unified.expandQName table s = s.
Proof.
  intros H. unfold Unified.expandQName. rewrite H.
  repeat match goal with |- context [if ?b then _ else _] => destruct b end;
    reflexivity.
Qed.

(** *** Contraction *)

Lemma substringFrom_app (n loc : string) :
  JS.substringFrom (n ++ loc) (JS.length n) = loc.
Proof.
  rewrite substringFrom_skip.
  - unfold JS.length. rewrite Nat2Z.id. apply skip_app.
  - unfold JS.length. rewrite length_app. lia.
Qed.

(** The entry of [p] wins the loop when no entry before it has a namespace
    that begins the value. *)
Lemma contractUri_first_match (t : PrefixTable) (p n loc : string) :
  own t p = Some n ->
  (forall q m, In (q, m) t -> q <> p -> JS.startsWith (n ++ loc) m = false) ->
  Unified.contractUri t (n ++ loc) = p ++ ":" ++ loc.
Proof.
  induction t as [|[q m] t IH]; intros Hown Hothers; [discriminate|].
  cbn [own] in Hown. cbn [Unified.contractUri].
  destruct (String.eqb q p) eqn:E.
  - apply String.eqb_eq in E. subst q. injection Hown as ->.
    now rewrite startsWith_app, substringFrom_app.
  - apply String.eqb_neq in E.
    rewrite (Hothers q m (or_introl eq_refl) E).
    apply IH; [exact Hown|].
    intros q' m' Hin. apply Hothers. now right.
Qed.

(** When every other registered namespace is neither a beginning of [n]
    nor begun by [n], and [p] is a colon-free prefix outside both scheme
    sets registered with the non-empty namespace [n], contracting the
    expansion of [p:loc] gives [p:loc] back. *)
Lemma unified_contract_expand_roundtrip (p n loc : string) :
  own table p = Some n -> n <> "" ->
  JS.includes p ":" = false ->
  JS.has Unified.MMM_URN_SCHEMES p || JS.has Unified.STANDARD_SCHEMES p = false ->
  (forall q m, In (q, m) table -> q <> p ->
               JS.startsWith n m = false /\ JS.startsWith m n = false) ->
  JS.localNameRe loc = true ->
  Unified.contractUri table (Unified.expandQName table (p ++ ":" ++ loc)) = p ++ ":" ++ loc.
Proof.
  intros Hown Hn Hp Hs Hothers Hl.
  rewrite (expandQName_prefixed p loc Hp Hl), Hs.
  destruct (getProp_own p n Hown Hn) as [G T]. rewrite G, T. cbn [plus].
  apply contractUri_first_match; [exact Hown|].
  intros q m Hin Hq. destruct (Hothers q m Hin Hq) as [H1 H2].
  destruct (JS.startsWith (n ++ loc) m) eqn:E; [|reflexivity].
  destruct (startsWith_comparable n loc m E); congruence.
Qed.

(** No entry of the table has a namespace that begins the value: the loop
    of [contractUri] returns the value. *)
Lemma contractUri_unmatched (t : PrefixTable) (v : string) :
  (forall q m, In (q, m) t -> JS.startsWith v m = false) ->
  Unified.contractUri t v = v.
Proof.
  induction t as [|[q m] t IH]; intros H; [reflexivity|].
  cbn [Unified.contractUri]. rewrite (H q m (or_introl eq_refl)).
  apply IH. intros q' m' Hin. apply (H q' m'). now right.
Qed.

(** A name whose prefix is in one of the two scheme sets is left alone by
    the expansion, and by the contraction too when no registered
    namespace begins it. *)
Lemma unified_scheme_roundtrip (p loc : string) :
  JS.has Unified.MMM_URN_SCHEMES p || JS.has Unified.STANDARD_SCHEMES p = true ->
  (forall q m, In (q, m) table -> JS.startsWith (p ++ ":" ++ loc) m = false) ->
  Unified.contractUri table (Unified.expandQName table (p ++ ":" ++ loc)) = p ++ ":" ++ loc.
Proof.
  intros Hs Hnone. rewrite (unified_expandQName_scheme_fixed p loc Hs).
  now apply contractUri_unmatched.
Qed.

End UnifiedIdentifiers.
(** ** The same questions in [src/quad-form.js] *)

Section ClassicIdentifiers.

Variable table : PrefixTable.

(** Under kind [uri] every value with [://] in it is accepted. *)
Lemma classic_validateField_uri (field value : string) :
  JS.includes value "://" = true ->
  Classic.validateField table field value "uri" = Returns true.
Proof.
  intros H. unfold Classic.validateField.
  assert (Hne : String.eqb value "" = false) by (now destruct value).
  rewrite Hne, (trim_colon value (includes_uri_colon value H)). cbn [orb].
  cbn [String.eqb Ascii.eqb Bool.eqb andb]. now rewrite H.
Qed.

Lemma qnameTail_no_slash (s : string) :
  JS.qnameTail s = true -> JS.includes s "/" = false.
Proof.
  induction s as [|c s IH]; [discriminate|].
  cbn [JS.qnameTail JS.includes]. rewrite startsWith_cons.
  destruct (Ascii.eqb c ":") eqn:E.
  - apply Ascii.eqb_eq in E. subst c. intros H.
    apply localNameRe_allNameChars, allNameChars_no_slash in H.
    rewrite H. reflexivity.
  - intros H. apply andb_true_iff in H as [Hc Hs].
    rewrite (nameChar_not_slash c Hc), (IH Hs). reflexivity.
Qed.

(** Under kind [qname] every value with [://] in it is rejected, before
    the table is asked. *)
Lemma classic_validateField_qname (field value : string) :
  JS.includes value "://" = true ->
  Classic.validateField table field value "qname" = Returns false.
Proof.
  intros H. unfold Classic.validateField.
  destruct (String.eqb value "" || String.eqb (JS.trim value) ""); [reflexivity|].
  cbn [String.eqb Ascii.eqb Bool.eqb andb].
  assert (R : JS.qnameRegex value = false).
  { destruct (JS.qnameRegex value) eqn:E; [|reflexivity].
    destruct value as [|c s]; [discriminate|].
    simpl in E. apply andb_true_iff in E as [Hc Hs].
    apply qnameTail_no_slash in Hs.
    apply includes_uri_slash in H. cbn [JS.includes] in H.
    rewrite startsWith_cons, Hs, (nameChar_not_slash c (nameStart_nameChar c Hc)) in H.
    discriminate H. }
  now rewrite R.
Qed.

(** [expandQName] on a value with a colon-free text before its first
    colon, once the split at the colon is done. *)
Lemma classic_expandQName_split (p x : string) :
  JS.includes p ":" = false ->
  Classic.expandQName table (p ++ ":" ++ x) =
    if JS.includes (p ++ ":" ++ x) "://" then p ++ ":" ++ x
    else if truthy (getProp table p) then plus (getProp table p) x
    else p ++ ":" ++ x.
Proof.
  intros Hp. unfold Classic.expandQName.
  rewrite app_colon_nonempty. cbn [orb].
  destruct (JS.includes (p ++ ":" ++ x) "://"); [reflexivity|].
  destruct (split_at_colon p x Hp) as [E1 E2]. rewrite E1, E2.
  rewrite (indexOf_colon_app p x Hp).
  assert (I : (JS.length p =? -1) = false).
  { apply Z.eqb_neq. unfold JS.length. lia. }
  now rewrite I.
Qed.

(** A registered prefix is expanded whether or not it names a scheme. *)
Lemma classic_expandQName_registered (p n loc : string) :
  own table p = Some n -> n <> "" ->
  JS.includes p ":" = false ->
  JS.localNameRe loc = true ->
  Classic.expandQName table (p ++ ":" ++ loc) = n ++ loc.
Proof.
  intros Hown Hn Hp Hl.
  rewrite (classic_expandQName_split p loc Hp), (qname_no_uri p loc Hp Hl).
  unfold getProp. rewrite Hown. cbn [truthy plus].
  apply String.eqb_neq in Hn. now rewrite Hn.
Qed.

(** No scheme of the two sets is the name of an inherited member. *)
Lemma scheme_not_inherited (scheme : string) :
  JS.has Unified.MMM_URN_SCHEMES scheme || JS.has Unified.STANDARD_SCHEMES scheme = true ->
  JS.has objectPrototypeMembers scheme = false.
Proof.
  intros H. apply orb_true_iff in H as [H|H]; apply has_In in H; simpl in H;
    repeat (destruct H as [H|H]; [subst scheme; reflexivity|]); contradiction.
Qed.

(** An identifier whose scheme is in one of the two scheme sets, in
    [src/quad-form.js], which has no such sets: it is returned unchanged
    when it has [://] in it or when its scheme is no key of the table, or
    one with an empty namespace, and it is expanded like any prefixed
    name when its scheme is a key with a namespace. *)
Lemma classic_expandQName_scheme (scheme x : string) :
  JS.has Unified.MMM_URN_SCHEMES scheme || JS.has Unified.STANDARD_SCHEMES scheme = true ->
  (JS.includes (scheme ++ ":" ++ x) "://" = true ->
     Classic.expandQName table (scheme ++ ":" ++ x) = scheme ++ ":" ++ x)
  /\ (own table scheme = None \/ own table scheme = Some "" ->
     Classic.expandQName table (scheme ++ ":" ++ x) = scheme ++ ":" ++ x)
  /\ (forall n, own table scheme = Some n -> n <> "" ->
     JS.includes (scheme ++ ":" ++ x) "://" = false ->
     Classic.expandQName table (scheme ++ ":" ++ x) = n ++ x).
Proof.
  intros Hs.
  pose proof (classic_expandQName_split scheme x (scheme_no_colon scheme Hs)) as E.
  repeat apply conj.
  - intros H. now rewrite E, H.
  - intros H. rewrite E.
    destruct (JS.includes (scheme ++ ":" ++ x) "://"); [reflexivity|].
    unfold getProp. destruct H as [H|H]; rewrite H.
    + now rewrite (scheme_not_inherited scheme Hs).
    + reflexivity.
  - intros n Hown Hn H. rewrite E, H. unfold getProp. rewrite Hown.
    cbn [truthy plus]. apply String.eqb_neq in Hn. now rewrite Hn.
Qed.

Lemma startsWith_app_l (a b s : string) :
  JS.startsWith a s = true -> JS.startsWith (a ++ b) s = true.
Proof.
  revert a. induction s as [|c s IH]; intros a H; [reflexivity|].
  destruct a as [|d a]; [discriminate|].
  rewrite startsWith_cons in H. apply andb_true_iff in H as [Hc Hs].
  cbn [String.append]. rewrite startsWith_cons, Hc. now apply IH.
Qed.

Lemma includes_app_l (a b s : string) :
  JS.includes a s = true -> JS.includes (a ++ b) s = true.
Proof.
  induction a as [|d a IH]; intros H.
  - cbn [JS.includes] in H. rewrite orb_false_r in H.
    destruct s; [|discriminate H]. now destruct b.
  - cbn [JS.includes] in H. apply orb_true_iff in H as [H|H].
    + cbn [String.append JS.includes].
      change (String d (a ++ b)) with (String d a ++ b).
      now rewrite (startsWith_app_l _ b _ H).
    + cbn [String.append JS.includes]. rewrite (IH H). apply orb_true_r.
Qed.

(** The round trip in [src/quad-form.js]: it needs a namespace with [://]
    in it, since [contractUri] returns every other value as it is. *)
Lemma classic_contract_expand_roundtrip (p n loc : string) :
  own table p = Some n -> n <> "" ->
  JS.includes p ":" = false ->
  JS.localNameRe loc = true ->
  ((forall q m, In (q, m) table -> q <> p ->
                JS.startsWith n m = false /\ JS.startsWith m n = false) ->
   JS.includes n "://" = true ->
   Classic.contractUri table (Classic.expandQName table (p ++ ":" ++ loc))
   = p ++ ":" ++ loc)
  /\ (JS.includes (n ++ loc) "://" = false ->
      Classic.contractUri table (Classic.expandQName table (p ++ ":" ++ loc))
      = n ++ loc).
Proof.
  intros Hown Hn Hp Hl.
  rewrite (classic_expandQName_registered p n loc Hown Hn Hp Hl).
  unfold Classic.contractUri.
  assert (Hne : String.eqb (n ++ loc) "" = false).
  { apply String.eqb_neq. destruct n; [congruence | discriminate]. }
  rewrite Hne. cbn [orb]. split.
  - intros Hothers Huri. rewrite (includes_app_l n loc _ Huri). cbn [negb].
    assert (F : forall t v, Classic.firstMatch t v = Unified.contractUri t v).
    { induction t as [|[q m] t IH]; intros v; [reflexivity|].
      cbn [Classic.firstMatch Unified.contractUri]. now rewrite IH. }
    rewrite F. apply contractUri_first_match; [exact Hown|].
    intros q m Hin Hq. destruct (Hothers q m Hin Hq) as [H1 H2].
    destruct (JS.startsWith (n ++ loc) m) eqn:E; [|reflexivity].
    destruct (startsWith_comparable n loc m E); congruence.
  - intros H. now rewrite H.
Qed.

End ClassicIdentifiers.

(** ** The identifier claims over both iterations *)

Section Identifiers.

Variable table : PrefixTable.

(** C1 (amended): a value containing [://], under kind [uri] or [qname].
    In the unified iteration [validateField] rejects it when its first
    colon is at position 0 and accepts it when the lower-cased scheme
    before that colon is in the reserved or in the standard scheme set;
    with any other scheme it asks the table, with a call that throws when
    the table has an own entry named [hasOwnProperty], and rejects the
    value whatever is registered.  In [src/quad-form.js] kind [uri]
    accepts every such value and kind [qname] rejects every such value,
    and the table is not asked. *)
Theorem validateField_complete_uri (field value type : string) :
  JS.includes value "://" = true ->
  type = "uri" \/ type = "qname" ->
  let colonIndex := JS.indexOf value ":" in
  let scheme := JS.toLowerCase (JS.substring value 0 colonIndex) in
  Unified.validateField table field value type
  = (if colonIndex <=? 0 then Returns false
     else if JS.has Unified.MMM_URN_SCHEMES scheme || JS.has Unified.STANDARD_SCHEMES scheme
     then Returns true
     else match own table "hasOwnProperty" with
          | Some _ => Throws "TypeError"
          | None => Returns false
          end)
  /\ Classic.validateField table field value "uri" = Returns true
  /\ Classic.validateField table field value "qname" = Returns false.
Proof.
  intros Huri Hty. cbv zeta. repeat apply conj.
  - now apply unified_validateField_complete_uri.
  - now apply classic_validateField_uri.
  - now apply classic_validateField_qname.
Qed.

(** C3 (amended): an identifier [scheme:x] whose scheme is in the reserved
    or in the standard scheme set.  In the unified iteration [expandQName]
    returns it unchanged, whatever the prefix table holds.  In
    [src/quad-form.js], which has no scheme sets, [expandQName] returns it
    unchanged when it has [://] in it, or when the scheme is no key of the
    table or a key with an empty namespace; when the scheme is a key with
    the namespace [n] and the identifier has no [://] in it, the result is
    [n] followed by [x]. *)
Theorem expandQName_scheme_fixed (scheme x : string) :
  JS.has Unified.MMM_URN_SCHEMES scheme || JS.has Unified.STANDARD_SCHEMES scheme = true ->
  x <> "" ->
  Unified.expandQName table (scheme ++ ":" ++ x) = scheme ++ ":" ++ x
  /\ (JS.includes (scheme ++ ":" ++ x) "://" = true ->
      Classic.expandQName table (scheme ++ ":" ++ x) = scheme ++ ":" ++ x)
  /\ (own table scheme = None \/ own table scheme = Some "" ->
      Classic.expandQName table (scheme ++ ":" ++ x) = scheme ++ ":" ++ x)
  /\ (forall n, own table scheme = Some n -> n <> "" ->
      JS.includes (scheme ++ ":" ++ x) "://" = false ->
      Classic.expandQName table (scheme ++ ":" ++ x) = n ++ x).
Proof.
  intros Hs _. split.
  - now apply unified_expandQName_scheme_fixed.
  - now apply classic_expandQName_scheme.
Qed.

(** C6 (amended): a colon-free prefix [p] registered with the non-empty
    namespace [n], and a local name [loc].  In the unified iteration
    contracting the expansion of [p:loc] gives [p:loc] back when [p] is
    outside both scheme sets and every other registered namespace is
    neither a beginning of [n] nor begun by [n], and also when [p] is in
    one of the scheme sets and no registered namespace begins [p:loc].  In
    [src/quad-form.js] it gives [p:loc] back when every other registered
    namespace is neither a beginning of [n] nor begun by [n] and [n] has
    [://] in it; when [n] followed by [loc] has no [://] in it, the
    expansion [n] followed by [loc] comes back as it is. *)
Theorem contract_expand_roundtrip (p n loc : string) :
  own table p = Some n -> n <> "" ->
  JS.includes p ":" = false ->
  JS.localNameRe loc = true ->
  let others_apart :=
    forall q m, In (q, m) table -> q <> p ->
                JS.startsWith n m = false /\ JS.startsWith m n = false in
  (JS.has Unified.MMM_URN_SCHEMES p || JS.has Unified.STANDARD_SCHEMES p = false ->
   others_apart ->
   Unified.contractUri table (Unified.expandQName table (p ++ ":" ++ loc))
   = p ++ ":" ++ loc)
  /\ (JS.has Unified.MMM_URN_SCHEMES p || JS.has Unified.STANDARD_SCHEMES p = true ->
      (forall q m, In (q, m) table -> JS.startsWith (p ++ ":" ++ loc) m = false) ->
      Unified.contractUri table (Unified.expandQName table (p ++ ":" ++ loc))
      = p ++ ":" ++ loc)
  /\ (others_apart ->
      JS.includes n "://" = true ->
      Classic.contractUri table (Classic.expandQName table (p ++ ":" ++ loc))
      = p ++ ":" ++ loc)
  /\ (JS.includes (n ++ loc) "://" = false ->
      Classic.contractUri table (Classic.expandQName table (p ++ ":" ++ loc))
      = n ++ loc).
Proof.
  intros Hown Hn Hp Hl. cbv zeta.
  destruct (classic_contract_expand_roundtrip table p n loc Hown Hn Hp Hl) as [C1 C2].
  repeat apply conj.
  - intros Hs Hothers. now apply unified_contract_expand_roundtrip with (n := n).
  - intros Hs Hnone. now apply unified_scheme_roundtrip.
  - exact C1.
  - exact C2.
Qed.

End Identifiers.

(** ** Concrete instances over the built-in prefixes *)

Lemma validateField_complete_uri_witness :
  JS.includes "http://example.org/Alice" "://" = true
  /\ Unified.validateField COMMON_PREFIXES "subject" "http://example.org/Alice" "uri"
     = Returns true
  /\ Classic.validateField COMMON_PREFIXES "subject" "http://example.org/Alice" "uri"
     = Returns true
  /\ Classic.validateField COMMON_PREFIXES "subject" "http://example.org/Alice" "qname"
     = Returns false.
Proof.
  split; [reflexivity|].
  exact (validateField_complete_uri COMMON_PREFIXES "subject"
           "http://example.org/Alice" "uri" eq_refl (or_introl eq_refl)).
Defined.

(** A value with [://] is not accepted unconditionally: in the unified
    iteration one whose scheme is in neither set is rejected under either
    kind, and in [src/quad-form.js] kind [qname] rejects even a plain
    [http] address. *)
Lemma validateField_unknown_scheme_rejected :
  JS.includes "foo://bar" "://" = true
  /\ Unified.validateField COMMON_PREFIXES "subject" "foo://bar" "uri" = Returns false
  /\ Unified.validateField COMMON_PREFIXES "subject" "foo://bar" "qname" = Returns false
  /\ JS.includes "http://example.org/Alice" "://" = true
  /\ Classic.validateField COMMON_PREFIXES "subject" "http://example.org/Alice" "qname"
     = Returns false.
Proof. repeat split; reflexivity. Qed.

(** With a table that has an own entry named [hasOwnProperty], the
    unified [validateField] throws on a value with [://] whose scheme is
    in neither set. *)
Lemma validateField_shadowed_lookup_throws :
  Unified.validateField [("hasOwnProperty", "http://example.org/h#")]
                        "subject" "foo://bar" "uri"
  = Throws "TypeError".
Proof. reflexivity. Qed.

(** C2: [validateField] tests the scheme sets on the lower-cased scheme,
    and looks the prefix up lower-cased too.  With the built-in table, where
    [ex] is a key and [EX] is not, [EX:Alice] is accepted, and
    [expandQName], which looks the prefix up as written, leaves it
    unexpanded; with the single key [Ex], the name [Ex:Alice] is rejected
    although [expandQName] resolves it. *)
Theorem validateField_prefix_case_folded :
  Unified.validateField [] "subject" "MNTL:publ/scratch" "qname" = Returns true
  /\ Unified.validateField [] "subject" "Https:example.org" "uri" = Returns true
  /\ own COMMON_PREFIXES "EX" = None
  /\ Unified.validateField COMMON_PREFIXES "subject" "EX:Alice" "qname" = Returns true
  /\ Unified.expandQName COMMON_PREFIXES "EX:Alice" = "EX:Alice"
  /\ own [("Ex", "http://example.org/")] "Ex" = Some "http://example.org/"
  /\ Unified.validateField [("Ex", "http://example.org/")] "subject" "Ex:Alice" "qname"
     = Returns false
  /\ Unified.expandQName [("Ex", "http://example.org/")] "Ex:Alice"
     = "http://example.org/Alice".
Proof. repeat split; reflexivity. Qed.

Lemma expandQName_scheme_fixed_witness :
  JS.has Unified.MMM_URN_SCHEMES "mntl" = true
  /\ own COMMON_PREFIXES "mntl" = Some "urn:mmm:mntl:"
  /\ Unified.expandQName COMMON_PREFIXES ("mntl" ++ ":" ++ "publ/scratch")
     = "mntl" ++ ":" ++ "publ/scratch"
  /\ Classic.expandQName COMMON_PREFIXES ("mntl" ++ ":" ++ "publ/scratch")
     = "urn:mmm:mntl:" ++ "publ/scratch".
Proof.
  split; [reflexivity|]. split; [reflexivity|].
  assert (H : "publ/scratch" <> "") by discriminate.
  pose proof (expandQName_scheme_fixed COMMON_PREFIXES "mntl" "publ/scratch" eq_refl H)
    as (U & _ & _ & C).
  split; [exact U|].
  apply (C "urn:mmm:mntl:"); [reflexivity | discriminate | reflexivity].
Defined.

(** In [src/quad-form.js] the reserved name [mntl:publ/scratch] is no
    fixed point of the expansion: [mntl] is a key of the built-in table. *)
Lemma classic_scheme_expanded :
  JS.has Unified.MMM_URN_SCHEMES "mntl" = true
  /\ Classic.expandQName COMMON_PREFIXES ("mntl" ++ ":" ++ "publ/scratch")
     = "urn:mmm:mntl:publ/scratch"
  /\ String.eqb "urn:mmm:mntl:publ/scratch" ("mntl" ++ ":" ++ "publ/scratch") = false.
Proof. repeat split; reflexivity. Qed.



(** C5: a prefix that is no key of the table but the name of a member
    inherited from [Object.prototype] is resolved by the property read, in
    both iterations: the value comes back changed. *)
Theorem expandQName_inherited_member :
  own COMMON_PREFIXES "constructor" = None
  /\ Unified.expandQName COMMON_PREFIXES "constructor:x"
     = "function Object() { [native code] }x"
  /\ Classic.expandQName COMMON_PREFIXES "constructor:x"
     = "function Object() { [native code] }x"
  /\ String.eqb (Unified.expandQName COMMON_PREFIXES "toString:x") "toString:x" = false
  /\ Unified.validateField COMMON_PREFIXES "subject" "constructor:x" "qname"
     = Returns false.
Proof. repeat split; reflexivity. Qed.

(** With [ppl] registered after the built-in [ex], whose namespace begins
    the namespace of [ppl], the round trip comes back under [ex]; the
    namespace of [ppl] itself begins no other namespace.  In
    [src/quad-form.js], with [my] registered for [urn:my:], the expansion
    of [my:thing] is not contracted at all. *)
Lemma contractUri_earlier_namespace_wins :
  let t := (COMMON_PREFIXES ++ [("ppl", "http://example.org/people/")])%list in
  own t "ppl" = Some "http://example.org/people/"
  /\ (forall q m, In (q, m) t -> q <> "ppl" ->
                  JS.startsWith m "http://example.org/people/" = false)
  /\ JS.localNameRe "Alice" = true
  /\ Unified.contractUri t (Unified.expandQName t ("ppl" ++ ":" ++ "Alice"))
     = "ex:people/Alice"
  /\ String.eqb "ex:people/Alice" ("ppl" ++ ":" ++ "Alice") = false
  /\ Classic.contractUri [("my", "urn:my:")]
       (Classic.expandQName [("my", "urn:my:")] ("my" ++ ":" ++ "thing"))
     = "urn:my:thing".
Proof.
  cbv zeta. repeat split; try reflexivity.
  intros q m Hin Hq. simpl in Hin.
  repeat (destruct Hin as [Hin|Hin];
          [injection Hin as <- <-; first [reflexivity | congruence]|]).
  contradiction.
Qed.

Lemma others_apart_from_ex (q m : string) :
  In (q, m) COMMON_PREFIXES -> q <> "ex" ->
  JS.startsWith "http://example.org/" m = false
  /\ JS.startsWith m "http://example.org/" = false.
Proof.
  intros Hin Hq. simpl in Hin.
  repeat (destruct Hin as [Hin|Hin];
          [injection Hin as <- <-; first [split; reflexivity | congruence]|]).
  contradiction.
Qed.

Lemma nothing_begins_mntl_publ (q m : string) :
  In (q, m) COMMON_PREFIXES -> JS.startsWith ("mntl" ++ ":" ++ "publ") m = false.
Proof.
  intros Hin. simpl in Hin.
  repeat (destruct Hin as [Hin|Hin]; [injection Hin as <- <-; reflexivity|]).
  contradiction.
Qed.

Lemma contract_expand_roundtrip_witness :
  own COMMON_PREFIXES "ex" = Some "http://example.org/"
  /\ own COMMON_PREFIXES "mntl" = Some "urn:mmm:mntl:"
  /\ JS.localNameRe "Alice" = true
  /\ JS.localNameRe "publ" = true
  /\ Unified.contractUri COMMON_PREFIXES
       (Unified.expandQName COMMON_PREFIXES ("ex" ++ ":" ++ "Alice"))
     = "ex" ++ ":" ++ "Alice"
  /\ Classic.contractUri COMMON_PREFIXES
       (Classic.expandQName COMMON_PREFIXES ("ex" ++ ":" ++ "Alice"))
     = "ex" ++ ":" ++ "Alice"
  /\ Unified.contractUri COMMON_PREFIXES
       (Unified.expandQName COMMON_PREFIXES ("mntl" ++ ":" ++ "publ"))
     = "mntl" ++ ":" ++ "publ"
  /\ Classic.contractUri COMMON_PREFIXES
       (Classic.expandQName COMMON_PREFIXES ("mntl" ++ ":" ++ "publ"))
     = "urn:mmm:mntl:" ++ "publ".
Proof.
  do 4 (split; [reflexivity|]).
  assert (Hex : "http://example.org/" <> "") by discriminate.
  assert (Hmntl : "urn:mmm:mntl:" <> "") by discriminate.
  pose proof (contract_expand_roundtrip COMMON_PREFIXES "ex" "http://example.org/"
                "Alice" eq_refl Hex eq_refl eq_refl) as E.
  pose proof (contract_expand_roundtrip COMMON_PREFIXES "mntl" "urn:mmm:mntl:"
                "publ" eq_refl Hmntl eq_refl eq_refl) as M.
  cbv zeta in E, M.
  destruct E as (E1 & _ & E3 & _). destruct M as (_ & M2 & _ & M4).
  split; [exact (E1 eq_refl others_apart_from_ex)|].
  split; [exact (E3 others_apart_from_ex eq_refl)|].
  split; [exact (M2 eq_refl nothing_begins_mntl_publ)|].
  exact (M4 eq_refl).
Defined.

(** There the reserved names are expanded, and an expansion without [://]
    is not contracted again. *)
Lemma classic_reserved_names_expand :
  Classic.expandQName COMMON_PREFIXES "mntl:publ" = "urn:mmm:mntl:publ"
  /\ Classic.contractUri COMMON_PREFIXES "urn:mmm:mntl:publ" = "urn:mmm:mntl:publ"
  /\ Classic.contractUri COMMON_PREFIXES
       (Classic.expandQName COMMON_PREFIXES "ex:Alice") = "ex:Alice".
Proof. repeat split; reflexivity. Qed.

(** ** Blank values *)

Section BlankValues.

Lemma trimStart_allWhiteSpace (s : string) :
  JS.allWhiteSpace s = true -> JS.trimStart s = "".
Proof.
  induction s as [|c s IH]; simpl; [reflexivity|].
  intros H. apply andb_true_iff in H as [Hc Hs]. now rewrite Hc, IH.
Qed.

(** A value made of white space only trims to the empty string. *)
Lemma trim_allWhiteSpace (s : string) :
  JS.allWhiteSpace s = true -> JS.trim s = "".
Proof. intros H. unfold JS.trim. now rewrite trimStart_allWhiteSpace. Qed.

Lemma trimStart_shape (s : string) :
  (JS.trimStart s = "" /\ JS.allWhiteSpace s = true)
  \/ exists c t, JS.trimStart s = String c t /\ JS.isWhiteSpace c = false.
Proof.
  induction s as [|c s IH]; simpl; [now left|].
  destruct (JS.isWhiteSpace c) eqn:W.
  - exact IH.
  - right. now exists c, s.
Qed.

(** And only such a value does. *)
Lemma trim_empty (s : string) :
  JS.trim s = "" -> JS.allWhiteSpace s = true.
Proof.
  unfold JS.trim. destruct (trimStart_shape s) as [[_ H]|[c [t [E W]]]]; [easy|].
  rewrite E. cbn [JS.trimEnd]. rewrite W. now destruct (JS.trimEnd t).
Qed.

End BlankValues.

(** ** Submission, clearing and the object's tags in the unified iteration *)

Section UnifiedForm.

Variable st : Unified.State.

(** C8: in the nano regime a submit gesture over an empty or blank object
    returns at once: no event is dispatched, the server is not called and
    the state is the one before. *)
Theorem handleSubmit_nano_blank (now : string) :
  Unified.dataMode st = Unified.nano ->
  JS.allWhiteSpace (object (Unified.fieldValues st)) = true ->
  Unified.handleSubmit now st = (st, []).
Proof.
  intros Hmode Hblank. unfold Unified.handleSubmit. rewrite Hmode.
  rewrite (trim_allWhiteSpace _ Hblank). cbn [String.eqb]. now rewrite orb_true_r.
Qed.

(** With anything else in the object, the nano regime does submit. *)
Lemma handleSubmit_nano_filled (now : string) :
  Unified.dataMode st = Unified.nano ->
  JS.allWhiteSpace (object (Unified.fieldValues st)) = false ->
  exists rest,
    snd (Unified.handleSubmit now st)
    = QuadSubmitted (Unified.buildQuad now (Unified.withValues (Unified.nanoDefaults st) st))
      :: rest.
Proof.
  intros Hmode Hfilled. unfold Unified.handleSubmit. rewrite Hmode.
  assert (E : String.eqb (object (Unified.fieldValues st)) ""
              || String.eqb (JS.trim (object (Unified.fieldValues st))) "" = false).
  { apply orb_false_iff. split; apply String.eqb_neq; intros E.
    - rewrite E in Hfilled. discriminate.
    - apply trim_empty in E. congruence. }
  rewrite E. cbn [snd Unified.deliver]. eexists. reflexivity.
Qed.

Lemma deliver_submitted (s' : Unified.State) (quad q : Quad.t) :
  In (QuadSubmitted q) (Unified.deliver s' quad) -> q = quad.
Proof.
  unfold Unified.deliver. intros [H|H]; [now injection H|].
  destruct (Unified.mmmServer s') as [server|]; [|contradiction].
  destruct H as [H|H]; [discriminate|].
  destruct (server quad); simpl in H; intuition discriminate.
Qed.

Lemma deliver_rejected (s' : Unified.State) (server : Server) (quad : Quad.t) (err : string) :
  Unified.mmmServer s' = Some server -> server quad = Rejected err ->
  Unified.deliver s' quad
  = [QuadSubmitted quad; AddQuad quad;
     ConsoleError "Failed to submit quad:" err; QuadError err].
Proof. intros Hs Hr. unfold Unified.deliver. now rewrite Hs, Hr. Qed.

Lemma orElse_filled (a b : string) : a <> "" -> orElse a b = a.
Proof. intros H. unfold orElse. apply String.eqb_neq in H. now rewrite H. Qed.

Lemma nanoDefaults_keeps (f : Field) :
  get f (Unified.fieldValues st) <> "" ->
  get f (Unified.nanoDefaults st) = get f (Unified.fieldValues st).
Proof.
  intros H. destruct f; cbn [get Unified.nanoDefaults subject predicate object graph] in *;
    try reflexivity; now apply orElse_filled.
Qed.

Lemma required_filled (v message : string) : v <> "" -> required v message = [].
Proof. intros H. unfold required. apply String.eqb_neq in H. now rewrite H. Qed.

Lemma required_empty (message : string) : required "" message = [message].
Proof. reflexivity. Qed.

(** What [handleSubmit] does with a form that passes the checks of its
    mode: in full mode the four fields are filled. *)
Lemma unified_submit_full (now : string) :
  Unified.dataMode st = Unified.full ->
  subject (Unified.fieldValues st) <> "" ->
  predicate (Unified.fieldValues st) <> "" ->
  object (Unified.fieldValues st) <> "" ->
  graph (Unified.fieldValues st) <> "" ->
  Unified.handleSubmit now st
  = (st, ValidationChanged true [] :: Unified.deliver st (Unified.buildQuad now st)).
Proof.
  intros Hmode Hs Hp Ho Hg. unfold Unified.handleSubmit, Unified.validate.
  rewrite Hmode, (required_filled _ _ Hs), (required_filled _ _ Hp),
    (required_filled _ _ Ho), (required_filled _ _ Hg).
  reflexivity.
Qed.

(** In tiny mode the graph falls back to the default graph and the other
    three fields are filled. *)
Lemma unified_submit_tiny (now : string) :
  Unified.dataMode st = Unified.tiny ->
  subject (Unified.fieldValues st) <> "" ->
  predicate (Unified.fieldValues st) <> "" ->
  object (Unified.fieldValues st) <> "" ->
  let st' :=
    Unified.withValues
      (set Graph (orElse (graph (Unified.fieldValues st)) (Unified.defaultGraph st))
           (Unified.fieldValues st)) st in
  Unified.handleSubmit now st
  = (st', ValidationChanged true [] :: Unified.deliver st' (Unified.buildQuad now st')).
Proof.
  intros Hmode Hs Hp Ho. cbv zeta. unfold Unified.handleSubmit, Unified.validate.
  rewrite Hmode.
  cbn [Unified.dataMode Unified.withValues Unified.fieldValues set
       subject predicate object graph].
  rewrite Hmode, (required_filled _ _ Hs), (required_filled _ _ Hp),
    (required_filled _ _ Ho).
  reflexivity.
Qed.

(** In the nano regime the object is not blank, and the hidden fields get
    their defaults. *)
Lemma unified_submit_nano (now : string) :
  Unified.dataMode st = Unified.nano ->
  JS.allWhiteSpace (object (Unified.fieldValues st)) = false ->
  let st' := Unified.withValues (Unified.nanoDefaults st) st in
  Unified.handleSubmit now st = (st', Unified.deliver st' (Unified.buildQuad now st')).
Proof.
  intros Hmode Hfilled. cbv zeta. unfold Unified.handleSubmit. rewrite Hmode.
  assert (E : String.eqb (object (Unified.fieldValues st)) ""
              || String.eqb (JS.trim (object (Unified.fieldValues st))) "" = false).
  { apply orb_false_iff. split; apply String.eqb_neq; intros E.
    - rewrite E in Hfilled. discriminate.
    - apply trim_empty in E. congruence. }
  now rewrite E.
Qed.

(** The graph default of tiny mode leaves every filled field as it is. *)
Lemma graphDefault_keeps (f : Field) :
  get f (Unified.fieldValues st) <> "" ->
  get f (set Graph (orElse (graph (Unified.fieldValues st)) (Unified.defaultGraph st))
             (Unified.fieldValues st))
  = get f (Unified.fieldValues st).
Proof.
  intros Hf. destruct f; cbn [get set subject predicate object graph] in *;
    try reflexivity. now apply orElse_filled.
Qed.

(** What [clear()] leaves behind. *)
Lemma unified_clear_resets_form :
  let st' := fst (Unified.clear st) in
  Unified.getField st' Subject = ""
  /\ Unified.getField st' Predicate = ""
  /\ Unified.getField st' Object = ""
  /\ Unified.getField st' Graph = Unified.defaultGraph st
  /\ Unified.fieldTypes st'
     = {| subject := "uri"; predicate := "qname"; object := "uri"; graph := "qname" |}
  /\ Unified.objectDatatype st' = ""
  /\ Unified.objectLanguage st' = "".
Proof.
  cbv zeta. repeat split; try reflexivity.
  unfold Unified.getField, Unified.clear, orElse. cbn [fst Unified.fieldValues get graph].
  destruct (String.eqb (Unified.defaultGraph st) "") eqn:E; [|reflexivity].
  apply String.eqb_eq in E. now rewrite E.
Qed.

End UnifiedForm.

Lemma handleSubmit_nano_blank_witness :
  Unified.dataMode nanoBlank = Unified.nano
  /\ object (Unified.fieldValues nanoBlank) = "   "
  /\ Unified.handleSubmit "2025-01-15T10:30:00.000Z" nanoBlank = (nanoBlank, []).
Proof.
  split; [reflexivity|]. split; [reflexivity|].
  exact (handleSubmit_nano_blank nanoBlank "2025-01-15T10:30:00.000Z" eq_refl eq_refl).
Defined.

(** The filled form of the unified iteration submits a record with both
    keys. *)
Lemma unified_record_with_both_tags :
  languageDisabled (Unified.dom unifiedFilled) = false
  /\ Unified.objectDatatype unifiedFilled = "rdf:HTML"
  /\ Unified.objectLanguage unifiedFilled = "en"
  /\ snd (Unified.handleSubmit "2025-01-15T10:30:00.000Z" unifiedFilled)
     = [ValidationChanged true [];
        QuadSubmitted (unifiedQuad "2025-01-15T10:30:00.000Z")].
Proof. repeat split; reflexivity. Qed.

(** ** The object's tags, submission and clearing in [src/quad-form.js] *)

Section ClassicForm.

Variable st : Classic.State.

(** The console line about long text is the only thing between the
    validation event and the record. *)
Lemma classic_snipNotice_console (e : Event) :
  In e (Classic.snipNotice st) -> exists message, e = ConsoleLog message.
Proof.
  unfold Classic.snipNotice.
  match goal with |- context [if ?b then _ else _] => destruct b end;
    [|intros []].
  intros [<-|[]]. now eexists.
Qed.

(** When the form is filled and the server rejects the record,
    [src/quad-form.js] leaves the whole state as it was and ends the trace
    with the record, the call to the server, the console line and the
    error notification. *)
Lemma classic_handleSubmit_rejected (now : string) (server : Server) (err : string) :
  subject (Classic.fieldValues st) <> "" ->
  predicate (Classic.fieldValues st) <> "" ->
  object (Classic.fieldValues st) <> "" ->
  graph (Classic.fieldValues st) <> "" ->
  Classic.mmmServer st = Some server ->
  server (Classic.buildQuad now st) = Rejected err ->
  exists notice,
    (forall e, In e notice -> exists message, e = ConsoleLog message)
    /\ Classic.handleSubmit now st
       = (st, (ValidationChanged true []
               :: notice
               ++ [QuadSubmitted (Classic.buildQuad now st);
                   AddQuad (Classic.buildQuad now st);
                   ConsoleError "Failed to submit quad:" err;
                   QuadError err])%list).
Proof.
  intros Hs Hp Ho Hg Hserver Hrej.
  exists (Classic.snipNotice st). split; [apply classic_snipNotice_console|].
  unfold Classic.handleSubmit, Classic.validate.
  rewrite (required_filled _ _ Hs), (required_filled _ _ Hp),
    (required_filled _ _ Ho), (required_filled _ _ Hg).
  cbn [app negb]. rewrite Hserver, Hrej.
  cbn [app]. now rewrite <- !List.app_assoc.
Qed.

(** When it resolves, or when there is none, the form is cleared. *)
Lemma classic_handleSubmit_clears (now : string) :
  fst (Classic.validate st) = true ->
  (forall server, Classic.mmmServer st = Some server ->
                  server (Classic.buildQuad now st) = Resolved) ->
  fst (Classic.handleSubmit now st) = fst (Classic.clear st).
Proof.
  intros Hvalid Hres. unfold Classic.handleSubmit.
  destruct (Classic.validate st) as [valid events]. cbn [fst] in Hvalid. subst valid.
  cbn [negb]. destruct (Classic.mmmServer st) as [server|].
  - rewrite (Hres server eq_refl). now destruct (Classic.clear st).
  - now destruct (Classic.clear st).
Qed.

(** [clear()] resets the same fields in [src/quad-form.js]. *)
Lemma classic_clear_resets_form :
  let st' := fst (Classic.clear st) in
  Classic.getField st' Subject = ""
  /\ Classic.getField st' Predicate = ""
  /\ Classic.getField st' Object = ""
  /\ Classic.getField st' Graph = Classic.defaultGraph st
  /\ Classic.fieldTypes st'
     = {| subject := "uri"; predicate := "qname"; object := "uri"; graph := "qname" |}
  /\ Classic.objectDatatype st' = ""
  /\ Classic.objectLanguage st' = "".
Proof.
  cbv zeta. repeat split; try reflexivity.
  unfold Classic.getField, Classic.clear, orElse. cbn [fst Classic.fieldValues get graph].
  destruct (String.eqb (Classic.defaultGraph st) "") eqn:E; [|reflexivity].
  apply String.eqb_eq in E. now rewrite E.
Qed.

End ClassicForm.

(** The filled form: the datatype tag [rdf:HTML] and the language tag [en]
    are both set, with the language input enabled, and the record that is
    submitted carries both [d] and [l]. *)
Lemma classic_record_with_both_tags :
  languageDisabled (Classic.dom classicFilled) = false
  /\ Classic.objectDatatype classicFilled = "rdf:HTML"
  /\ Classic.objectLanguage classicFilled = "en"
  /\ snd (Classic.handleSubmit "2025-01-15T10:30:00.000Z" classicFilled)
     = [ValidationChanged true [];
        QuadSubmitted (classicQuad "2025-01-15T10:30:00.000Z");
        ValidationChanged false
          ["Subject is required"; "Predicate is required"; "Object is required"]]
  /\ Quad.d (classicQuad "2025-01-15T10:30:00.000Z") = Some "rdf:HTML"
  /\ Quad.l (classicQuad "2025-01-15T10:30:00.000Z") = Some "en".
Proof. repeat split; reflexivity. Qed.

(** ** The form claims over both iterations *)

(** C7: the two tags are not kept apart.  In both iterations the filled
    form has the datatype tag [rdf:HTML] and the language tag [en] set
    together, and the record it submits carries both [d] and [l].
    Switching the object on to [xsd:integer] disables the language input
    but leaves the language tag [en] in place, and the record submitted
    next carries [d = xsd:integer] and [l = en]; the sibling branch, for
    qname and uri, does empty both tags.  [cycleTinyFieldType] changes
    the type shown on the tiny line, also to uri and to qname, and
    touches neither tag. *)
Theorem language_tag_survives_type_change :
  let now := "2025-01-15T10:30:00.000Z" in
  (Classic.objectDatatype classicFilled = "rdf:HTML"
   /\ Classic.objectLanguage classicFilled = "en"
   /\ In (QuadSubmitted (classicQuad now)) (snd (Classic.handleSubmit now classicFilled))
   /\ Quad.d (classicQuad now) = Some "rdf:HTML"
   /\ Quad.l (classicQuad now) = Some "en"
   /\ languageDisabled (Classic.dom classicSwitched) = true
   /\ Classic.objectDatatype classicSwitched = "xsd:integer"
   /\ Classic.objectLanguage classicSwitched = "en"
   /\ (exists q, In (QuadSubmitted q) (snd (Classic.handleSubmit now classicSwitched))
                 /\ Quad.d q = Some "xsd:integer" /\ Quad.l q = Some "en")
   /\ Classic.objectDatatype (fst (Classic.handleTypeChange Object "uri" classicFilled)) = ""
   /\ Classic.objectLanguage (fst (Classic.handleTypeChange Object "uri" classicFilled)) = "")
  /\ (Unified.objectDatatype unifiedFilled = "rdf:HTML"
      /\ Unified.objectLanguage unifiedFilled = "en"
      /\ In (QuadSubmitted (unifiedQuad now)) (snd (Unified.handleSubmit now unifiedFilled))
      /\ Quad.d (unifiedQuad now) = Some "rdf:HTML"
      /\ Quad.l (unifiedQuad now) = Some "en"
      /\ languageDisabled (Unified.dom unifiedSwitched) = true
      /\ Unified.objectDatatype unifiedSwitched = "xsd:integer"
      /\ Unified.objectLanguage unifiedSwitched = "en"
      /\ (exists q, In (QuadSubmitted q) (snd (Unified.handleSubmit now unifiedSwitched))
                    /\ Quad.d q = Some "xsd:integer" /\ Quad.l q = Some "en")
      /\ Unified.objectDatatype (fst (Unified.handleTypeChange Object "uri" unifiedFilled)) = ""
      /\ Unified.objectLanguage (fst (Unified.handleTypeChange Object "uri" unifiedFilled)) = "")
  /\ (forall (w : Widget.State) (field : Term),
        Unified.objectDatatype (Widget.core (Widget.cycleTinyFieldType field w))
        = Unified.objectDatatype (Widget.core w)
        /\ Unified.objectLanguage (Widget.core (Widget.cycleTinyFieldType field w))
           = Unified.objectLanguage (Widget.core w)).
Proof.
  cbv zeta. split; [|split].
  - repeat split; try reflexivity.
    + simpl. right. left. reflexivity.
    + eexists. split; [simpl; right; left; reflexivity|]. split; reflexivity.
  - repeat split; try reflexivity.
    + simpl. right. left. reflexivity.
    + eexists. split; [simpl; right; left; reflexivity|]. split; reflexivity.
  - intros w field. split; reflexivity.
Qed.

(** C9: in both iterations, when the form passes the checks of
    [handleSubmit] and the server rejects the record, the trace is the
    [quad-submitted] event for the record, the call to the server, the
    console line and the [quad-error] event carrying the error, after the
    validation event (and, in [src/quad-form.js], the console line about
    long text); nothing is cleared: in [src/quad-form.js] and in full mode
    the state is the one before, in tiny mode an empty graph has got the
    default graph and in the nano regime the empty hidden fields have got
    their defaults, and every field value that was filled in is
    unchanged. *)
Theorem handleSubmit_rejection (now : string) (server : Server) (err : string) :
  (forall st : Classic.State,
     subject (Classic.fieldValues st) <> "" ->
     predicate (Classic.fieldValues st) <> "" ->
     object (Classic.fieldValues st) <> "" ->
     graph (Classic.fieldValues st) <> "" ->
     Classic.mmmServer st = Some server ->
     server (Classic.buildQuad now st) = Rejected err ->
     exists notice,
       (forall e, In e notice -> exists message, e = ConsoleLog message)
       /\ Classic.handleSubmit now st
          = (st, (ValidationChanged true []
                  :: notice
                  ++ [QuadSubmitted (Classic.buildQuad now st);
                      AddQuad (Classic.buildQuad now st);
                      ConsoleError "Failed to submit quad:" err;
                      QuadError err])%list))
  /\ (forall st : Unified.State,
     Unified.dataMode st = Unified.full ->
     subject (Unified.fieldValues st) <> "" ->
     predicate (Unified.fieldValues st) <> "" ->
     object (Unified.fieldValues st) <> "" ->
     graph (Unified.fieldValues st) <> "" ->
     Unified.mmmServer st = Some server ->
     server (Unified.buildQuad now st) = Rejected err ->
     Unified.handleSubmit now st
     = (st, [ValidationChanged true [];
             QuadSubmitted (Unified.buildQuad now st);
             AddQuad (Unified.buildQuad now st);
             ConsoleError "Failed to submit quad:" err;
             QuadError err]))
  /\ (forall st : Unified.State,
     Unified.dataMode st = Unified.tiny ->
     subject (Unified.fieldValues st) <> "" ->
     predicate (Unified.fieldValues st) <> "" ->
     object (Unified.fieldValues st) <> "" ->
     Unified.mmmServer st = Some server ->
     let st' :=
       Unified.withValues
         (set Graph (orElse (graph (Unified.fieldValues st)) (Unified.defaultGraph st))
              (Unified.fieldValues st)) st in
     server (Unified.buildQuad now st') = Rejected err ->
     Unified.handleSubmit now st
     = (st', [ValidationChanged true [];
              QuadSubmitted (Unified.buildQuad now st');
              AddQuad (Unified.buildQuad now st');
              ConsoleError "Failed to submit quad:" err;
              QuadError err])
     /\ (forall f, get f (Unified.fieldValues st) <> "" ->
                   get f (Unified.fieldValues st') = get f (Unified.fieldValues st)))
  /\ (forall st : Unified.State,
     Unified.dataMode st = Unified.nano ->
     JS.allWhiteSpace (object (Unified.fieldValues st)) = false ->
     Unified.mmmServer st = Some server ->
     let st' := Unified.withValues (Unified.nanoDefaults st) st in
     server (Unified.buildQuad now st') = Rejected err ->
     Unified.handleSubmit now st
     = (st', [QuadSubmitted (Unified.buildQuad now st');
              AddQuad (Unified.buildQuad now st');
              ConsoleError "Failed to submit quad:" err;
              QuadError err])
     /\ (forall f, get f (Unified.fieldValues st) <> "" ->
                   get f (Unified.fieldValues st') = get f (Unified.fieldValues st))).
Proof.
  repeat apply conj.
  - intros st Hs Hp Ho Hg Hserver Hrej.
    apply (classic_handleSubmit_rejected st now server err); assumption.
  - intros st Hmode Hs Hp Ho Hg Hserver Hrej.
    rewrite (unified_submit_full st now Hmode Hs Hp Ho Hg).
    now rewrite (deliver_rejected st server _ err Hserver Hrej).
  - intros st Hmode Hs Hp Ho Hserver st' Hrej. split.
    + rewrite (unified_submit_tiny st now Hmode Hs Hp Ho). fold st'.
      now rewrite (deliver_rejected st' server _ err Hserver Hrej).
    + intros f Hf. now apply graphDefault_keeps.
  - intros st Hmode Ho Hserver st' Hrej. split.
    + rewrite (unified_submit_nano st now Hmode Ho). fold st'.
      now rewrite (deliver_rejected st' server _ err Hserver Hrej).
    + intros f Hf. now apply nanoDefaults_keeps.
Qed.

Lemma handleSubmit_rejection_witness :
  offline (classicQuad "2025-01-15T10:30:00.000Z") = Rejected "offline"
  /\ offline (unifiedQuad "2025-01-15T10:30:00.000Z") = Rejected "offline"
  /\ (exists notice,
        (forall e, In e notice -> exists message, e = ConsoleLog message)
        /\ Classic.handleSubmit "2025-01-15T10:30:00.000Z"
             (Classic.setMmmServer offline classicFilled)
           = (Classic.setMmmServer offline classicFilled,
              (ValidationChanged true []
               :: notice
               ++ [QuadSubmitted (classicQuad "2025-01-15T10:30:00.000Z");
                   AddQuad (classicQuad "2025-01-15T10:30:00.000Z");
                   ConsoleError "Failed to submit quad:" "offline";
                   QuadError "offline"])%list))
  /\ Unified.handleSubmit "2025-01-15T10:30:00.000Z"
       (Unified.setMmmServer offline unifiedFilled)
     = (Unified.setMmmServer offline unifiedFilled,
        [ValidationChanged true [];
         QuadSubmitted (unifiedQuad "2025-01-15T10:30:00.000Z");
         AddQuad (unifiedQuad "2025-01-15T10:30:00.000Z");
         ConsoleError "Failed to submit quad:" "offline";
         QuadError "offline"]).
Proof.
  split; [reflexivity|]. split; [reflexivity|].
  pose proof (handleSubmit_rejection "2025-01-15T10:30:00.000Z" offline "offline")
    as (C & U & _).
  split.
  - apply (C (Classic.setMmmServer offline classicFilled));
      first [discriminate | reflexivity].
  - apply (U (Unified.setMmmServer offline unifiedFilled));
      first [discriminate | reflexivity].
Defined.

(** C10: in both iterations, after [clear()], [getField] gives the empty
    string for subject, predicate and object and the configured default
    graph for graph; the field types are back at uri for the subject,
    qname for the predicate and uri for the object (qname for the graph),
    and the datatype and language tags are empty. *)
Theorem clear_resets_form :
  (forall st : Classic.State,
     let st' := fst (Classic.clear st) in
     Classic.getField st' Subject = ""
     /\ Classic.getField st' Predicate = ""
     /\ Classic.getField st' Object = ""
     /\ Classic.getField st' Graph = Classic.defaultGraph st
     /\ Classic.fieldTypes st'
        = {| subject := "uri"; predicate := "qname"; object := "uri"; graph := "qname" |}
     /\ Classic.objectDatatype st' = ""
     /\ Classic.objectLanguage st' = "")
  /\ (forall st : Unified.State,
     let st' := fst (Unified.clear st) in
     Unified.getField st' Subject = ""
     /\ Unified.getField st' Predicate = ""
     /\ Unified.getField st' Object = ""
     /\ Unified.getField st' Graph = Unified.defaultGraph st
     /\ Unified.fieldTypes st'
        = {| subject := "uri"; predicate := "qname"; object := "uri"; graph := "qname" |}
     /\ Unified.objectDatatype st' = ""
     /\ Unified.objectLanguage st' = "").
Proof.
  split; intros st.
  - apply classic_clear_resets_form.
  - apply unified_clear_resets_form.
Qed.

(** Clearing the filled form: the graph reads back as the default graph. *)
Lemma clear_filled_form :
  Unified.getField (fst (Unified.clear unifiedFilled)) Object = ""
  /\ Unified.getField (fst (Unified.clear unifiedFilled)) Graph = "mntl:publ/scratch"
  /\ Classic.getField (fst (Classic.clear classicFilled)) Graph = "mntl:publ/scratch".
Proof. repeat split; reflexivity. Qed.

(** ** Further facts about validation, expansion and contraction *)

Section MoreIdentifiers.

Variable table : PrefixTable.

(** X1: a blank value is rejected whatever kind is expected, in both
    iterations. *)
Theorem validateField_blank (field value type : string) :
  JS.allWhiteSpace value = true ->
  Unified.validateField table field value type = Returns false
  /\ Classic.validateField table field value type = Returns false.
Proof.
  intros H. unfold Unified.validateField, Classic.validateField.
  rewrite (trim_allWhiteSpace value H). cbn [String.eqb].
  now rewrite orb_true_r.
Qed.

Lemma not_blank (value : string) :
  JS.allWhiteSpace value = false ->
  String.eqb value "" || String.eqb (JS.trim value) "" = false.
Proof.
  intros H. apply orb_false_iff. split; apply String.eqb_neq; intros E.
  - rewrite E in H. discriminate.
  - apply trim_empty in E. congruence.
Qed.

(** X2: under a literal kind, that is any kind but [uri] and [qname], every
    value that is not blank is accepted, in both iterations. *)
Theorem validateField_literal (field value type : string) :
  JS.allWhiteSpace value = false ->
  type <> "uri" -> type <> "qname" ->
  Unified.validateField table field value type = Returns true
  /\ Classic.validateField table field value type = Returns true.
Proof.
  intros H Hu Hq. apply String.eqb_neq in Hu, Hq.
  unfold Unified.validateField, Classic.validateField.
  rewrite (not_blank value H), Hu, Hq. cbn [orb].
  split; now destruct (String.eqb type "string").
Qed.

Lemma allNameChars_qnameTail (p loc : string) :
  JS.allNameChars p = true ->
  JS.qnameTail (p ++ String ":" loc) = JS.localNameRe loc.
Proof.
  induction p as [|c p IH]; intros H.
  - reflexivity.
  - cbn [JS.allNameChars] in H. apply andb_true_iff in H as [Hc Hp].
    cbn [String.append JS.qnameTail].
    now rewrite (nameChar_not_colon c Hc), Hc, (IH Hp).
Qed.

Lemma beforeColon_app (p loc : string) :
  JS.includes p ":" = false -> JS.beforeColon (p ++ String ":" loc) = p.
Proof.
  induction p as [|c p IH]; intros H.
  - reflexivity.
  - cbn [JS.includes] in H. apply orb_false_iff in H as [Hc Hp].
    rewrite startsWith_colon in Hc.
    cbn [String.append JS.beforeColon]. now rewrite Hc, (IH Hp).
Qed.

(** X3: in [src/quad-form.js] a name made of a well-formed prefix and a
    well-formed local part is valid under kind [qname] exactly when the
    prefix, as written, is a key of the table; when the table has an own
    entry named [hasOwnProperty], the lookup throws a [TypeError]
    instead. *)
Theorem classic_validateField_names (field p loc : string) :
  JS.localNameRe p = true -> JS.localNameRe loc = true ->
  Classic.validateField table field (p ++ ":" ++ loc) "qname"
  = match own table "hasOwnProperty" with
    | Some _ => Throws "TypeError"
    | None => Returns (match own table p with Some _ => true | None => false end)
    end.
Proof.
  intros Hp Hl. unfold Classic.validateField. fold (hasOwnProperty table p).
  pose proof (allNameChars_no_colon p (localNameRe_allNameChars p Hp)) as Hc.
  assert (I : JS.includes (p ++ ":" ++ loc) ":" = true).
  { rewrite includes_indexOf, (indexOf_colon_app p loc Hc).
    apply Z.leb_le. unfold JS.length. lia. }
  rewrite app_colon_nonempty, (trim_colon _ I). cbn [orb String.eqb Ascii.eqb Bool.eqb andb].
  change (":" ++ loc) with (String ":" loc).
  rewrite (beforeColon_app p loc Hc).
  destruct p as [|c p]; [discriminate Hp|].
  cbn [JS.localNameRe] in Hp. apply andb_true_iff in Hp as [Hs Hr].
  cbn [String.append JS.qnameRegex].
  now rewrite Hs, (allNameChars_qnameTail p loc Hr), Hl.
Qed.

Lemma classic_expand_uri (s : string) :
  JS.includes s "://" = true -> Classic.expandQName table s = s.
Proof. intros H. unfold Classic.expandQName. now rewrite H, orb_true_r. Qed.

Lemma classic_expand_no_colon (s : string) :
  JS.includes s ":" = false -> Classic.expandQName table s = s.
Proof.
  intros H. unfold Classic.expandQName.
  destruct (String.eqb s "" || JS.includes s "://"); [reflexivity|].
  rewrite includes_indexOf in H. apply Z.leb_gt in H.
  pose proof (indexOf_lower s ":").
  replace (JS.indexOf s ":") with (-1) by lia. reflexivity.
Qed.

(** X4: a value with [://] in it, and a value without a colon, come back from
    [expandQName] as they went in, in both iterations. *)
Theorem expandQName_untouched (s : string) :
  JS.includes s "://" = true \/ JS.includes s ":" = false ->
  Unified.expandQName table s = s /\ Classic.expandQName table s = s.
Proof.
  intros [H|H]; split.
  - now apply expandQName_complete_uri.
  - now apply classic_expand_uri.
  - now apply expandQName_no_colon.
  - now apply classic_expand_no_colon.
Qed.

(** X5: a value whose prefix, the text before its first colon, is neither a key
    of the table nor the name of an inherited member comes back from
    [expandQName] as it went in, in both iterations. *)
Theorem expandQName_unknown_prefix (s : string) :
  own table (JS.substring s 0 (JS.indexOf s ":")) = None ->
  JS.has objectPrototypeMembers (JS.substring s 0 (JS.indexOf s ":")) = false ->
  Unified.expandQName table s = s /\ Classic.expandQName table s = s.
Proof.
  intros Hown Hmem.
  assert (T : truthy (getProp table (JS.substring s 0 (JS.indexOf s ":"))) = false).
  { unfold getProp. now rewrite Hown, Hmem. }
  split.
  - now apply expandQName_unresolved.
  - unfold Classic.expandQName. rewrite T.
    repeat match goal with |- context [if ?b then _ else _] => destruct b end;
      reflexivity.
Qed.

Lemma firstMatch_contractUri (t : PrefixTable) (v : string) :
  Classic.firstMatch t v = Unified.contractUri t v.
Proof.
  induction t as [|[q m] t IH]; [reflexivity|].
  cbn [Classic.firstMatch Unified.contractUri]. now rewrite IH.
Qed.

(** X6: a value that no registered namespace begins comes back from
    [contractUri] as it went in, in both iterations. *)
Theorem contractUri_miss (v : string) :
  (forall q m, In (q, m) table -> JS.startsWith v m = false) ->
  Unified.contractUri table v = v /\ Classic.contractUri table v = v.
Proof.
  intros H. split; [now apply contractUri_unmatched|].
  unfold Classic.contractUri.
  destruct (String.eqb v "" || negb (JS.includes v "://")); [reflexivity|].
  rewrite firstMatch_contractUri. now apply contractUri_unmatched.
Qed.

(** A colon-free prefix followed by a colon and a rest that neither starts
    with two slashes nor has [://] in it has no [://] in it. *)
Lemma prefixed_no_uri (p rest : string) :
  JS.includes p ":" = false ->
  JS.startsWith rest "//" = false -> JS.includes rest "://" = false ->
  JS.includes (p ++ ":" ++ rest) "://" = false.
Proof.
  intros Hp Hs Hr. change (":" ++ rest) with (String ":" rest).
  induction p as [|c p IH].
  - cbn [String.append JS.includes]. rewrite Hr, orb_false_r, startsWith_cons.
    cbn [Ascii.eqb Bool.eqb andb]. exact Hs.
  - cbn [JS.includes] in Hp. apply orb_false_iff in Hp as [Hc Hp].
    rewrite startsWith_colon in Hc.
    cbn [String.append JS.includes]. rewrite startsWith_cons, Hc, (IH Hp).
    reflexivity.
Qed.

(** X7: a value made of the namespace [n] of the prefix [p] and a
    rest, contracted and expanded again, is the value itself, when no
    namespace of another key begins the value, [p] is a colon-free prefix
    outside both scheme sets, [n] is not empty, and the rest neither starts
    with two slashes nor has [://] in it. *)
Theorem expand_contract_roundtrip (p n rest : string) :
  own table p = Some n -> n <> "" ->
  JS.includes p ":" = false ->
  JS.has Unified.MMM_URN_SCHEMES p || JS.has Unified.STANDARD_SCHEMES p = false ->
  (forall q m, In (q, m) table -> q <> p -> JS.startsWith (n ++ rest) m = false) ->
  JS.startsWith rest "//" = false -> JS.includes rest "://" = false ->
  Unified.expandQName table (Unified.contractUri table (n ++ rest)) = n ++ rest.
Proof.
  intros Hown Hn Hp Hs Hothers Hsl Huri.
  rewrite (contractUri_first_match table p n rest Hown Hothers).
  unfold Unified.expandQName.
  rewrite app_colon_nonempty, (prefixed_no_uri p rest Hp Hsl Huri). cbn [orb].
  destruct (split_at_colon p rest Hp) as [E1 E2]. rewrite E1, E2, Hs.
  rewrite (indexOf_colon_app p rest Hp).
  assert (I : (JS.length p =? -1) = false).
  { apply Z.eqb_neq. unfold JS.length. lia. }
  rewrite I. destruct (getProp_own table p n Hown Hn) as [G T].
  now rewrite G, T.
Qed.

End MoreIdentifiers.

Lemma validateField_blank_witness :
  JS.allWhiteSpace "   " = true
  /\ Unified.validateField COMMON_PREFIXES "object" "   " "xsd:string" = Returns false
  /\ Classic.validateField COMMON_PREFIXES "object" "   " "xsd:string" = Returns false.
Proof.
  split; [reflexivity|].
  exact (validateField_blank COMMON_PREFIXES "object" "   " "xsd:string" eq_refl).
Defined.

Lemma validateField_literal_witness :
  JS.allWhiteSpace "forty two" = false
  /\ Unified.validateField COMMON_PREFIXES "object" "forty two" "xsd:integer"
     = Returns true
  /\ Classic.validateField COMMON_PREFIXES "object" "forty two" "xsd:integer"
     = Returns true.
Proof.
  split; [reflexivity|].
  apply (validateField_literal COMMON_PREFIXES "object" "forty two" "xsd:integer").
  - reflexivity.
  - discriminate.
  - discriminate.
Defined.


Lemma classic_validateField_names_witness :
  JS.localNameRe "Foaf" = true
  /\ JS.localNameRe "knows" = true
  /\ own COMMON_PREFIXES "Foaf" = None
  /\ Classic.validateField COMMON_PREFIXES "predicate" ("Foaf" ++ ":" ++ "knows") "qname"
     = Returns false.
Proof.
  do 3 (split; [reflexivity|]).
  exact (classic_validateField_names COMMON_PREFIXES "predicate" "Foaf" "knows"
           eq_refl eq_refl).
Defined.

Lemma expandQName_untouched_witness :
  JS.includes "plain text" ":" = false
  /\ Unified.expandQName COMMON_PREFIXES "plain text" = "plain text"
  /\ Classic.expandQName COMMON_PREFIXES "plain text" = "plain text".
Proof.
  split; [reflexivity|].
  exact (expandQName_untouched COMMON_PREFIXES "plain text" (or_intror eq_refl)).
Defined.

Lemma expandQName_unknown_prefix_witness :
  own COMMON_PREFIXES "nope" = None
  /\ Unified.expandQName COMMON_PREFIXES "nope:thing" = "nope:thing"
  /\ Classic.expandQName COMMON_PREFIXES "nope:thing" = "nope:thing".
Proof.
  split; [reflexivity|].
  exact (expandQName_unknown_prefix COMMON_PREFIXES "nope:thing" eq_refl eq_refl).
Defined.

Lemma contractUri_miss_witness :
  Unified.contractUri COMMON_PREFIXES "http://elsewhere.test/x" = "http://elsewhere.test/x"
  /\ Classic.contractUri COMMON_PREFIXES "http://elsewhere.test/x"
     = "http://elsewhere.test/x".
Proof.
  apply (contractUri_miss COMMON_PREFIXES "http://elsewhere.test/x").
  intros q m Hin. simpl in Hin.
  repeat (destruct Hin as [Hin|Hin]; [injection Hin as <- <-; reflexivity|]).
  contradiction.
Defined.

Lemma expand_contract_roundtrip_witness :
  own COMMON_PREFIXES "foaf" = Some "http://xmlns.com/foaf/0.1/"
  /\ Unified.contractUri COMMON_PREFIXES ("http://xmlns.com/foaf/0.1/" ++ "knows")
     = "foaf:knows"
  /\ Unified.expandQName COMMON_PREFIXES
       (Unified.contractUri COMMON_PREFIXES ("http://xmlns.com/foaf/0.1/" ++ "knows"))
     = "http://xmlns.com/foaf/0.1/" ++ "knows".
Proof.
  split; [reflexivity|]. split; [reflexivity|].
  apply (expand_contract_roundtrip COMMON_PREFIXES "foaf" "http://xmlns.com/foaf/0.1/" "knows").
  - reflexivity.
  - discriminate.
  - reflexivity.
  - reflexivity.
  - intros q m Hin Hq. simpl in Hin.
    repeat (destruct Hin as [Hin|Hin];
            [injection Hin as <- <-; first [reflexivity | congruence]|]).
    contradiction.
  - reflexivity.
  - reflexivity.
Defined.

(** ** Further facts about submission, clearing and type changes *)

Section MoreUnifiedForm.

Variable st : Unified.State.

(** X8: in full mode a form whose four fields are filled is submitted: the
    trace is the validation event, the [quad-submitted] event for the
    record and, when a server is set, the call to the server, followed by
    the console line and the error notification when the server rejects
    the record; the state is the one before.  Whether the values are
    valid identifiers is not asked. *)
Theorem handleSubmit_full_filled (now : string) :
  Unified.dataMode st = Unified.full ->
  subject (Unified.fieldValues st) <> "" ->
  predicate (Unified.fieldValues st) <> "" ->
  object (Unified.fieldValues st) <> "" ->
  graph (Unified.fieldValues st) <> "" ->
  Unified.handleSubmit now st
  = (st, ValidationChanged true []
         :: QuadSubmitted (Unified.buildQuad now st)
         :: match Unified.mmmServer st with
            | Some server =>
                AddQuad (Unified.buildQuad now st)
                :: match server (Unified.buildQuad now st) with
                   | Resolved => []
                   | Rejected err =>
                       [ConsoleError "Failed to submit quad:" err; QuadError err]
                   end
            | None => []
            end).
Proof.
  intros Hmode Hs Hp Ho Hg.
  now rewrite (unified_submit_full st now Hmode Hs Hp Ho Hg).
Qed.

(** X9: in full mode a form with an empty field is not submitted: the trace is
    one validation event that reports the form invalid, and the state is
    the one before. *)
Theorem handleSubmit_full_incomplete (now : string) (f : Field) :
  Unified.dataMode st = Unified.full ->
  get f (Unified.fieldValues st) = "" ->
  exists errors,
    errors <> []
    /\ Unified.handleSubmit now st = (st, [ValidationChanged false errors]).
Proof.
  intros Hmode Hf. unfold Unified.handleSubmit, Unified.validate. rewrite Hmode.
  destruct f; cbn [get] in Hf; rewrite Hf, required_empty;
    unfold required;
    repeat match goal with
           | |- context [String.eqb ?a ?b] => destruct (String.eqb a b)
           end;
    cbn [app]; (eexists; split; [|reflexivity]; discriminate).
Qed.

(** X10: [handleSubmit] clears nothing, whatever the mode and the outcome: a
    field value that was filled in is still there, and the field types, the
    two tags, the inputs and the prefix table are as before. *)
Theorem handleSubmit_keeps_form (now : string) :
  let st' := fst (Unified.handleSubmit now st) in
  (forall f, get f (Unified.fieldValues st) <> "" ->
             get f (Unified.fieldValues st') = get f (Unified.fieldValues st))
  /\ Unified.fieldTypes st' = Unified.fieldTypes st
  /\ Unified.objectDatatype st' = Unified.objectDatatype st
  /\ Unified.objectLanguage st' = Unified.objectLanguage st
  /\ Unified.dom st' = Unified.dom st
  /\ Unified.prefixes st' = Unified.prefixes st
  /\ Unified.dataMode st' = Unified.dataMode st.
Proof.
  cbv zeta. unfold Unified.handleSubmit.
  destruct (Unified.dataMode st) eqn:Hmode.
  - destruct (Unified.validate st) as [valid events].
    destruct valid; cbn [fst]; rewrite ?Hmode; repeat split; reflexivity.
  - match goal with |- context [Unified.validate ?s] =>
      destruct (Unified.validate s) as [valid events] end.
    assert (K : forall f, get f (Unified.fieldValues st) <> "" ->
      get f (set Graph (orElse (graph (Unified.fieldValues st)) (Unified.defaultGraph st))
                 (Unified.fieldValues st)) = get f (Unified.fieldValues st)).
    { intros f Hf. destruct f; cbn [get set subject predicate object graph] in *;
        try reflexivity. now apply orElse_filled. }
    destruct valid; cbn [fst Unified.withValues Unified.fieldValues Unified.fieldTypes
      Unified.objectDatatype Unified.objectLanguage Unified.dom Unified.prefixes
      Unified.dataMode]; rewrite ?Hmode; repeat split; try reflexivity; exact K.
  - destruct (String.eqb (object (Unified.fieldValues st)) ""
              || String.eqb (JS.trim (object (Unified.fieldValues st))) "");
      cbn [fst Unified.withValues Unified.fieldValues Unified.fieldTypes
        Unified.objectDatatype Unified.objectLanguage Unified.dom Unified.prefixes
        Unified.dataMode]; rewrite ?Hmode; repeat split; try reflexivity.
    intros f Hf. now apply nanoDefaults_keeps.
Qed.


End MoreUnifiedForm.

(** The expansion and contraction steps of a switch from qname to uri and
    back. *)
Lemma expand_step (table : PrefixTable) (p n loc : string) :
  own table p = Some n -> n <> "" ->
  JS.includes p ":" = false ->
  JS.has Unified.MMM_URN_SCHEMES p || JS.has Unified.STANDARD_SCHEMES p = false ->
  JS.localNameRe loc = true ->
  Unified.expandQName table (p ++ ":" ++ loc) = n ++ loc.
Proof.
  intros Hown Hn Hp Hs Hl.
  rewrite (expandQName_prefixed table p loc Hp Hl), Hs.
  destruct (getProp_own table p n Hown Hn) as [G T]. now rewrite G, T.
Qed.





Section MoreClear.

(** X14: [clear()] always ends by reporting the form invalid, the object being
    one of the fields it names, in both iterations. *)
Theorem clear_announces_invalid :
  (forall st : Unified.State,
     exists errors,
       snd (Unified.clear st) = [ValidationChanged false errors]
       /\ In "Object is required" errors)
  /\ (forall st : Classic.State,
     exists errors,
       snd (Classic.clear st) = [ValidationChanged false errors]
       /\ In "Object is required" errors).
Proof.
  split; intros st.
  - unfold Unified.clear, Unified.validate.
    cbn [snd Unified.dataMode Unified.fieldValues subject predicate object graph].
    destruct (Unified.dataMode st); rewrite !required_empty; cbn [app].
    + eexists. split; [reflexivity|]. simpl. tauto.
    + eexists. split; [reflexivity|]. simpl. tauto.
    + eexists. split; [reflexivity|]. simpl. tauto.
  - unfold Classic.clear, Classic.validate.
    cbn [snd Classic.fieldValues subject predicate object graph].
    rewrite !required_empty. cbn [app].
    eexists. split; [reflexivity|]. simpl. tauto.
Qed.

Lemma setObjectDatatype_same (value : string) (st : Unified.State) :
  Unified.objectDatatype st = value -> Unified.setObjectDatatype value st = st.
Proof.
  intros <-. unfold Unified.setObjectDatatype. now rewrite String.eqb_refl.
Qed.

Lemma clearInputs_twice (m : Dom) : clearInputs (clearInputs m) = clearInputs m.
Proof.
  destruct m as [s p o ty a t l d]. destruct ty; reflexivity.
Qed.

Lemma tinyInputs_twice (m : Dom) :
  let emptied x := setInput Subject "" (setInput Predicate "" (setInput Object "" x)) in
  emptied (emptied m) = emptied m.
Proof.
  destruct m as [s p o ty a t l d]. destruct ty; reflexivity.
Qed.

(** X15: clearing a cleared form changes nothing, in both iterations. *)
Theorem clear_idempotent :
  (forall st : Unified.State,
     fst (Unified.clear (fst (Unified.clear st))) = fst (Unified.clear st))
  /\ (forall st : Classic.State,
     fst (Classic.clear (fst (Classic.clear st))) = fst (Classic.clear st)).
Proof.
  split; intros st.
  - unfold Unified.clear. cbn [fst].
    set (m := clearInputs (Unified.dom (Unified.setObjectDatatype "" st))).
    rewrite setObjectDatatype_same by reflexivity.
    cbn [Unified.dom Unified.nanoMode Unified.tinyMode Unified.dataMode
         Unified.mmmServer Unified.prefixes Unified.currentIdentity
         Unified.expandQNames Unified.defaultGraph].
    subst m. now rewrite clearInputs_twice.
  - unfold Classic.clear. cbn [fst Classic.tinyMode Classic.dom Classic.defaultGraph
      Classic.mmmServer Classic.prefixes Classic.currentIdentity Classic.expandQNames].
    destruct (Classic.tinyMode st).
    + now rewrite (tinyInputs_twice (Classic.dom st)).
    + now rewrite clearInputs_twice.
Qed.

End MoreClear.

Lemma handleSubmit_full_filled_witness :
  Unified.dataMode sloppyFilled = Unified.full
  /\ Unified.fieldValues sloppyFilled
     = {| subject := "not an identifier"; predicate := "rdfs:comment";
          object := "ex:Bob"; graph := "mntl:publ/scratch" |}
  /\ Unified.validateField (Unified.prefixes sloppyFilled) "subject"
       (subject (Unified.fieldValues sloppyFilled))
       (subject (Unified.fieldTypes sloppyFilled)) = Returns false
  /\ Unified.handleSubmit "2025-01-15T10:30:00.000Z" sloppyFilled
     = (sloppyFilled,
        [ValidationChanged true [];
         QuadSubmitted (Unified.buildQuad "2025-01-15T10:30:00.000Z" sloppyFilled)]).
Proof.
  do 3 (split; [reflexivity|]).
  apply (handleSubmit_full_filled sloppyFilled "2025-01-15T10:30:00.000Z");
    first [reflexivity | discriminate].
Defined.

Lemma handleSubmit_full_incomplete_witness :
  object (Unified.fieldValues Unified.initial) = ""
  /\ exists errors,
       errors <> []
       /\ Unified.handleSubmit "2025-01-15T10:30:00.000Z" Unified.initial
          = (Unified.initial, [ValidationChanged false errors]).
Proof.
  split; [reflexivity|].
  exact (handleSubmit_full_incomplete Unified.initial "2025-01-15T10:30:00.000Z"
           Object eq_refl eq_refl).
Defined.


(** X11: in [src/quad-form.js] a valid form whose server resolves, or that has
    no server, hands out the record and is left as [clear()] leaves it. *)
Theorem classic_submit_clears (st : Classic.State) (now : string) :
  fst (Classic.validate st) = true ->
  (forall server, Classic.mmmServer st = Some server ->
                  server (Classic.buildQuad now st) = Resolved) ->
  fst (Classic.handleSubmit now st) = fst (Classic.clear st)
  /\ In (QuadSubmitted (Classic.buildQuad now st)) (snd (Classic.handleSubmit now st)).
Proof.
  intros Hvalid Hres. split; [now apply classic_handleSubmit_clears|].
  unfold Classic.handleSubmit.
  destruct (Classic.validate st) as [valid events]. cbn [fst] in Hvalid. subst valid.
  cbn [negb].
  destruct (Classic.mmmServer st) as [server|];
    [rewrite (Hres server eq_refl)|];
    destruct (Classic.clear st) as [st' cleared]; cbn [snd];
    rewrite !in_app_iff; cbn [In]; tauto.
Qed.

Lemma classic_submit_clears_witness :
  fst (Classic.validate (Classic.setMmmServer online classicFilled)) = true
  /\ fst (Classic.handleSubmit "2025-01-15T10:30:00.000Z"
            (Classic.setMmmServer online classicFilled))
     = fst (Classic.clear (Classic.setMmmServer online classicFilled)).
Proof.
  split; [reflexivity|].
  refine (proj1 (classic_submit_clears (Classic.setMmmServer online classicFilled)
                   "2025-01-15T10:30:00.000Z" eq_refl _)).
  intros server H. injection H as <-. reflexivity.
Defined.


(** ** The graph, the public setters and the tiny line *)

Section GraphAndSetters.

Variable w : Widget.State.

Lemma startsWith_split (v p : string) :
  JS.startsWith v p = true -> exists r, v = p ++ r.
Proof.
  revert v. induction p as [|c p IH]; intros v H.
  - now exists v.
  - destruct v as [|d v]; [discriminate|].
    rewrite startsWith_cons in H. apply andb_true_iff in H as [Hc Hp].
    apply Ascii.eqb_eq in Hc. subst d.
    destruct (IH v Hp) as [r ->]. now exists r.
Qed.

Lemma startsWith_rest (v p : string) :
  JS.startsWith v p = true -> p ++ JS.substringFrom v (JS.length p) = v.
Proof.
  intros H. destruct (startsWith_split v p H) as [r ->].
  now rewrite substringFrom_app.
Qed.

Lemma orElse_empty (a : string) : orElse a "" = a.
Proof.
  unfold orElse. destruct (String.eqb a "") eqn:E; [|reflexivity].
  apply String.eqb_eq in E. now subst a.
Qed.

Lemma mntl_is_not_http (space : string) :
  JS.startsWith space "mntl:" = true ->
  String.eqb space "http:" || String.eqb space "https:" = false.
Proof.
  intros H. apply orb_false_iff.
  split; apply String.eqb_neq; intros E; subst space; discriminate H.
Qed.

(** X16: after an edit of the graph path and after a change of the mental space
    the graph value is the graph prefix followed by the graph path; a change
    between two [mntl:] spaces keeps the path. *)
Theorem graph_handlers_consistent (path newSpace : string) :
  Widget.graphConsistent (fst (Widget.handleGraphPathChange path w))
  /\ Widget.graphPath (fst (Widget.handleGraphPathChange path w)) = path
  /\ Widget.graphConsistent (fst (Widget.handleGraphMentalSpaceChange newSpace w))
  /\ (JS.startsWith (Widget.graphMentalSpace w) "mntl:" = true ->
      JS.startsWith newSpace "mntl:" = true ->
      Widget.graphPath (fst (Widget.handleGraphMentalSpaceChange newSpace w))
      = Widget.graphPath w).
Proof.
  repeat apply conj.
  - reflexivity.
  - reflexivity.
  - reflexivity.
  - intros Hold Hnew. unfold Widget.handleGraphMentalSpaceChange.
    cbn [fst Widget.graphPath Widget.withCore Widget.withGraph].
    now rewrite Hold, Hnew, (mntl_is_not_http newSpace Hnew).
Qed.

(** X17: [setField] on the graph with the graph prefix followed by a path takes
    the path out again and keeps value, prefix and path in step; with a
    value that does not start with the graph prefix the path stays as it
    was. *)
Theorem setField_graph_roundtrip (path : string) :
  let w' := fst (Widget.setField Graph (Widget.graphPrefix w ++ path) w) in
  Widget.graphPath w' = path
  /\ Widget.graphConsistent w'
  /\ Widget.getField w' Graph = Widget.graphPrefix w ++ path
  /\ (forall value,
        JS.startsWith value (Widget.graphPrefix w) = false ->
        Widget.graphPath (fst (Widget.setField Graph value w)) = Widget.graphPath w).
Proof.
  cbv zeta.
  assert (P : forall value,
            Widget.graphPrefix
              (Widget.withCore
                 (Unified.withDom
                    (if String.eqb (get Graph (Widget.fieldControls w)) "input"
                     then setInput Graph value
                            (Unified.dom (Unified.withValues
                               (set Graph value (Unified.fieldValues (Widget.core w)))
                               (Widget.core w)))
                     else Unified.dom (Unified.withValues
                               (set Graph value (Unified.fieldValues (Widget.core w)))
                               (Widget.core w)))
                    (Unified.withValues
                       (set Graph value (Unified.fieldValues (Widget.core w)))
                       (Widget.core w))) w)
            = Widget.graphPrefix w) by reflexivity.
  unfold Widget.setField. cbn [fst]. rewrite !P.
  rewrite startsWith_app, substringFrom_app.
  repeat apply conj.
  - reflexivity.
  - unfold Widget.graphConsistent.
    cbn [Widget.core Widget.withGraph Widget.withCore Widget.graphPath
         Unified.fieldValues Unified.withDom Unified.withValues set graph].
    reflexivity.
  - unfold Widget.getField, Unified.getField.
    cbn [Widget.core Widget.withGraph Widget.withCore
         Unified.fieldValues Unified.withDom Unified.withValues set get graph].
    apply orElse_empty.
  - intros value H. rewrite P, H. reflexivity.
Qed.

Lemma setField_reads (name : Field) (value : string) :
  Widget.getField (fst (Widget.setField name value w)) name = value.
Proof.
  unfold Widget.setField, Widget.getField, Unified.getField. cbn [fst].
  rewrite orElse_empty.
  destruct name; cbn [get];
    repeat match goal with |- context [if ?b then _ else _] => destruct b end;
    reflexivity.
Qed.

(** X18: [getField] after [setField] gives the value that was set, and the
    other three fields read as before. *)
Theorem setField_getField (name : Field) (value : string) :
  let w' := fst (Widget.setField name value w) in
  Widget.getField w' name = value
  /\ (forall other, other <> name -> Widget.getField w' other = Widget.getField w other).
Proof.
  cbv zeta. split; [apply setField_reads|].
  unfold Widget.setField, Widget.getField, Unified.getField. cbn [fst].
  intros other Hother.
  destruct name, other; try congruence; cbn [get];
    repeat match goal with |- context [if ?b then _ else _] => destruct b end;
    reflexivity.
Qed.

(** X20: [populateFromEntity]: mode [reuse] sets the field of the role, mode
    [meta] sets the subject whatever the role, and any other mode does
    nothing at all. *)
Theorem populateFromEntity_modes (entity : string) (role : Field) (mode : string) :
  (mode = "reuse" ->
     Widget.getField (fst (Widget.populateFromEntity entity role mode w)) role = entity)
  /\ (mode = "meta" ->
     Widget.getField (fst (Widget.populateFromEntity entity role mode w)) Subject = entity)
  /\ (mode <> "reuse" -> mode <> "meta" ->
     Widget.populateFromEntity entity role mode w = (w, [])).
Proof.
  repeat apply conj.
  - intros ->. unfold Widget.populateFromEntity. cbn [String.eqb Ascii.eqb Bool.eqb].
    apply setField_reads.
  - intros ->. unfold Widget.populateFromEntity. cbn [String.eqb Ascii.eqb Bool.eqb].
    apply setField_reads.
  - intros H1 H2. unfold Widget.populateFromEntity.
    apply String.eqb_neq in H1, H2. now rewrite H1, H2.
Qed.

End GraphAndSetters.

(** ** The pickers of the tiny line *)

Lemma wrapIndex_range (len i d : Z) : 0 < len -> 0 <= wrapIndex len i d < len.
Proof.
  intros H. unfold wrapIndex. rewrite !Z.geb_leb.
  destruct (Z.ltb_spec (i + d) 0);
    match goal with |- context [?a <=? ?b] => destruct (Z.leb_spec a b) end; lia.
Qed.

Lemma wrapIndex_down_up (len i : Z) :
  0 <= i < len -> wrapIndex len (wrapIndex len i 1) (-1) = i.
Proof.
  intros H. unfold wrapIndex. cbv zeta. rewrite !Z.geb_leb.
  destruct (Z.ltb_spec (i + 1) 0); [lia|].
  destruct (Z.leb_spec len (i + 1));
    repeat match goal with
           | |- context [?a <? ?b] => destruct (Z.ltb_spec a b)
           | |- context [?a <=? ?b] => destruct (Z.leb_spec a b)
           end; lia.
Qed.

Lemma at_In (values : list string) (i : Z) :
  0 <= i < Z.of_nat (List.length values) -> In (at_ values i) values.
Proof.
  intros H. unfold at_. apply nth_In. lia.
Qed.

Section Pickers.

Variable w : Widget.State.
Variable field : Term.

Lemma cycleTinyPicker_filled (direction : Z) :
  Widget.pickerValues w field <> [] ->
  Widget.cycleTinyPicker field direction w =
  let newIndex :=
    wrapIndex (Z.of_nat (List.length (Widget.pickerValues w field)))
              (termGet field (Widget.tinyPickerIndices w)) direction in
  let w1 := Widget.withPickerIndices
              (termSet field newIndex (Widget.tinyPickerIndices w)) w in
  let c := Widget.core w1 in
  Widget.withCore
    (Unified.withDom
       (setInput (fieldOf field) (at_ (Widget.pickerValues w field) newIndex)
                 (Unified.dom c))
       (Unified.withValues
          (set (fieldOf field) (at_ (Widget.pickerValues w field) newIndex)
               (Unified.fieldValues c)) c))
    w1.
Proof.
  unfold Widget.cycleTinyPicker.
  destruct (Widget.pickerValues w field); [congruence|]. reflexivity.
Qed.

Lemma termGet_termSet {A : Type} (x : A) (v : Terms A) : termGet field (termSet field x v) = x.
Proof. now destruct field. Qed.

Lemma get_set (f : Field) (x : string) (v : Fields) : get f (set f x v) = x.
Proof. now destruct f. Qed.

(** X21: with values to pick from, [cycleTinyPicker] leaves the index of the
    field inside the list whatever it was before, and stores the value at
    that index as the value of the field; with nothing to pick from it
    changes nothing. *)
Theorem cycleTinyPicker_in_range (direction : Z) :
  (Widget.pickerValues w field <> [] ->
   let w' := Widget.cycleTinyPicker field direction w in
   let i := termGet field (Widget.tinyPickerIndices w') in
   0 <= i < Z.of_nat (List.length (Widget.pickerValues w field))
   /\ In (get (fieldOf field) (Unified.fieldValues (Widget.core w')))
         (Widget.pickerValues w field)
   /\ get (fieldOf field) (Unified.fieldValues (Widget.core w'))
      = at_ (Widget.pickerValues w field) i)
  /\ (Widget.pickerValues w field = [] -> Widget.cycleTinyPicker field direction w = w).
Proof.
  split.
  - intros Hne. cbv zeta. rewrite (cycleTinyPicker_filled direction Hne). cbv zeta.
    cbn [Widget.tinyPickerIndices Widget.withCore Widget.withPickerIndices Widget.core
         Unified.fieldValues Unified.dom Unified.withDom Unified.withValues].
    rewrite termGet_termSet, get_set.
    assert (R : 0 <= wrapIndex (Z.of_nat (List.length (Widget.pickerValues w field)))
                       (termGet field (Widget.tinyPickerIndices w)) direction
                < Z.of_nat (List.length (Widget.pickerValues w field))).
    { apply wrapIndex_range.
      destruct (Widget.pickerValues w field); [congruence|]. cbn [List.length]. lia. }
    repeat apply conj; try reflexivity; try apply R. now apply at_In.
  - intros E. unfold Widget.cycleTinyPicker. now rewrite E.
Qed.

(** X22: from an index inside the list, one step down and one step up come back
    to the same index and put the value at that index into the field. *)
Theorem cycleTinyPicker_down_up :
  0 <= termGet field (Widget.tinyPickerIndices w)
    < Z.of_nat (List.length (Widget.pickerValues w field)) ->
  let w' := Widget.cycleTinyPicker field (-1) (Widget.cycleTinyPicker field 1 w) in
  termGet field (Widget.tinyPickerIndices w') = termGet field (Widget.tinyPickerIndices w)
  /\ get (fieldOf field) (Unified.fieldValues (Widget.core w'))
     = at_ (Widget.pickerValues w field) (termGet field (Widget.tinyPickerIndices w)).
Proof.
  intros Hi. cbv zeta.
  assert (Hne : Widget.pickerValues w field <> []).
  { destruct (Widget.pickerValues w field); [cbn [List.length] in Hi; lia | congruence]. }
  rewrite (cycleTinyPicker_filled 1 Hne). cbv zeta.
  unfold Widget.cycleTinyPicker.
  match goal with
  | |- context [Widget.pickerValues ?x field] =>
      change (Widget.pickerValues x field) with (Widget.pickerValues w field)
  end.
  destruct (Widget.pickerValues w field) as [|v0 vs] eqn:E; [congruence|].
  cbn [Widget.tinyPickerIndices Widget.withCore Widget.withPickerIndices Widget.core
       Unified.fieldValues Unified.dom Unified.withDom Unified.withValues].
  rewrite !termGet_termSet, !get_set, (wrapIndex_down_up _ _ Hi).
  split; reflexivity.
Qed.

End Pickers.

(** ** The field types of the tiny line *)

Section TinyTypes.

Variable w : Widget.State.

(** One press of Escape on a field whose type is [qname] or [uri]. *)
Lemma cycleTinyFieldType_press (field : Term) :
  let current := termGet field (Widget.tinyFieldTypes w) in
  let value := get (fieldOf field) (Unified.fieldValues (Widget.core w)) in
  let w' := Widget.cycleTinyFieldType field w in
  Unified.prefixes (Widget.core w') = Unified.prefixes (Widget.core w)
  /\ termGet field (Widget.tinyFieldTypes w') = nextTinyType field current
  /\ (current = "qname" ->
      get (fieldOf field) (Unified.fieldValues (Widget.core w'))
      = if String.eqb value "" then ""
        else Unified.expandQName (Unified.prefixes (Widget.core w)) value)
  /\ (current = "uri" -> field <> TObject ->
      get (fieldOf field) (Unified.fieldValues (Widget.core w'))
      = if String.eqb value "" then ""
        else Unified.contractUri (Unified.prefixes (Widget.core w)) value)
  /\ (current <> "qname" -> (current = "uri" -> field = TObject) ->
      get (fieldOf field) (Unified.fieldValues (Widget.core w')) = value).
Proof.
  cbv zeta. unfold Widget.cycleTinyFieldType.
  cbn [Widget.core Widget.withCore Widget.withTinyTypes Widget.tinyFieldTypes
       Unified.prefixes Unified.withDom Unified.withValues Unified.fieldValues].
  rewrite termGet_termSet, get_set.
  repeat apply conj; try reflexivity.
  - intros E. rewrite E.
    destruct (String.eqb (get (fieldOf field) (Unified.fieldValues (Widget.core w))) "") eqn:V.
    + now apply String.eqb_eq in V.
    + now destruct field.
  - intros E Hf. rewrite E.
    destruct (String.eqb (get (fieldOf field) (Unified.fieldValues (Widget.core w))) "") eqn:V.
    + now apply String.eqb_eq in V.
    + destruct field; try congruence; reflexivity.
  - intros Hq Hu.
    destruct (String.eqb (get (fieldOf field) (Unified.fieldValues (Widget.core w))) "") eqn:V;
      [reflexivity|].
    apply String.eqb_neq in Hq. rewrite Hq, andb_false_r.
    destruct (String.eqb (termGet field (Widget.tinyFieldTypes w)) "uri") eqn:U.
    + apply String.eqb_eq in U. pose proof (Hu U) as F. subst field.
      cbn [termGet nextTinyType] in U |- *. rewrite U. reflexivity.
    + now rewrite andb_false_r.
Qed.

End TinyTypes.

(** X23: three presses of Escape on the object take its type from [qname] over
    [uri] and [string] back to [qname]; the text is expanded at the first
    press and is never contracted again. *)
Theorem cycleTinyFieldType_object_cycle (w : Widget.State) :
  termGet TObject (Widget.tinyFieldTypes w) = "qname" ->
  let value := object (Unified.fieldValues (Widget.core w)) in
  let w1 := Widget.cycleTinyFieldType TObject w in
  let w2 := Widget.cycleTinyFieldType TObject w1 in
  let w3 := Widget.cycleTinyFieldType TObject w2 in
  termGet TObject (Widget.tinyFieldTypes w1) = "uri"
  /\ termGet TObject (Widget.tinyFieldTypes w2) = "string"
  /\ termGet TObject (Widget.tinyFieldTypes w3) = "qname"
  /\ object (Unified.fieldValues (Widget.core w3))
     = if String.eqb value "" then ""
       else Unified.expandQName (Unified.prefixes (Widget.core w)) value.
Proof.
  intros Hq. cbv zeta.
  destruct (cycleTinyFieldType_press w TObject) as (_ & T1 & V1 & _).
  rewrite Hq in T1. change (nextTinyType TObject "qname") with "uri" in T1.
  specialize (V1 Hq). cbn [get fieldOf] in V1.
  destruct (cycleTinyFieldType_press (Widget.cycleTinyFieldType TObject w) TObject)
    as (_ & T2 & _ & _ & V2).
  rewrite T1 in T2, V2. change (nextTinyType TObject "uri") with "string" in T2.
  cbn [get fieldOf] in V2.
  destruct (cycleTinyFieldType_press
              (Widget.cycleTinyFieldType TObject (Widget.cycleTinyFieldType TObject w))
              TObject) as (_ & T3 & _ & _ & V3).
  rewrite T2 in T3, V3. change (nextTinyType TObject "string") with "qname" in T3.
  cbn [get fieldOf] in V3.
  repeat apply conj; try assumption.
  rewrite V3, V2, V1; try reflexivity; try discriminate; intros; reflexivity.
Qed.


(** ** Changes to the prefix table *)

Lemma own_replace (t : PrefixTable) (k v k' : string) :
  own (replace k v t) k' =
  match own t k with
  | Some _ => if String.eqb k' k then Some v else own t k'
  | None => own t k'
  end.
Proof.
  induction t as [|[q m] t IH]; [reflexivity|].
  cbn [replace own].
  destruct (String.eqb q k) eqn:E.
  - apply String.eqb_eq in E. subst q. cbn [own].
    rewrite (String.eqb_sym k' k). now destruct (String.eqb k k').
  - cbn [own]. rewrite IH.
    destruct (String.eqb q k') eqn:F; [|reflexivity].
    apply String.eqb_eq in F. subst k'. rewrite E.
    now destruct (own t k).
Qed.

Lemma own_app (t u : PrefixTable) (k : string) :
  own (t ++ u)%list k = match own t k with Some v => Some v | None => own u k end.
Proof.
  induction t as [|[q m] t IH]; [reflexivity|].
  cbn [app own]. now destruct (String.eqb q k).
Qed.

Lemma own_insertIndex (i : N) (t : PrefixTable) (k v k' : string) :
  own t k = None ->
  own (insertIndex i k v t) k' = if String.eqb k' k then Some v else own t k'.
Proof.
  induction t as [|[q m] t IH]; intros H.
  - cbn [insertIndex own]. now rewrite (String.eqb_sym k' k).
  - cbn [own] in H. destruct (String.eqb q k) eqn:E; [discriminate|].
    assert (Front : own ((k, v) :: (q, m) :: t) k'
                    = if String.eqb k' k then Some v else own ((q, m) :: t) k').
    { cbn [own]. now rewrite (String.eqb_sym k' k). }
    cbn [insertIndex]. destruct (arrayIndex q); [|exact Front].
    destruct (n <? i)%N; [|exact Front].
    cbn [own]. rewrite (IH H).
    destruct (String.eqb q k') eqn:F; [|reflexivity].
    apply String.eqb_eq in F. subst k'. now rewrite E.
Qed.

Lemma own_place (t : PrefixTable) (k v k' : string) :
  own t k = None ->
  own (place k v t) k' = if String.eqb k' k then Some v else own t k'.
Proof.
  intros H. unfold place. destruct (arrayIndex k).
  - now apply own_insertIndex.
  - rewrite own_app. cbn [own]. rewrite (String.eqb_sym k' k).
    destruct (String.eqb k k') eqn:E.
    + apply String.eqb_eq in E. subst k'. now rewrite H.
    + now destruct (own t k').
Qed.

Lemma own_defineProp (t : PrefixTable) (k v k' : string) :
  own (defineProp t k v) k' = if String.eqb k' k then Some v else own t k'.
Proof.
  unfold defineProp. destruct (own t k) eqn:E.
  - now rewrite own_replace, E.
  - now apply own_place.
Qed.

Lemma own_assignProp (t : PrefixTable) (k v k' : string) :
  k <> "__proto__" ->
  own (assignProp t k v) k' = if String.eqb k' k then Some v else own t k'.
Proof.
  intros H. unfold assignProp. destruct (own t k) eqn:E.
  - now rewrite own_replace, E.
  - apply String.eqb_neq in H. rewrite H. now apply own_place.
Qed.

Lemma own_deleteProp (t : PrefixTable) (k k' : string) :
  own (deleteProp t k) k' = if String.eqb k' k then None else own t k'.
Proof.
  unfold deleteProp. induction t as [|[q m] t IH].
  - now destruct (String.eqb k' k).
  - cbn [filter fst own]. destruct (String.eqb q k) eqn:E; cbn [negb].
    + rewrite IH. apply String.eqb_eq in E. subst q.
      rewrite (String.eqb_sym k' k). now destruct (String.eqb k k').
    + cbn [own]. rewrite IH.
      destruct (String.eqb q k') eqn:F; [|reflexivity].
      apply String.eqb_eq in F. subst k'. now rewrite E.
Qed.

Lemma own_None (t : PrefixTable) (k : string) :
  ~ In k (map fst t) -> own t k = None.
Proof.
  induction t as [|[q m] t IH]; intros H; [reflexivity|].
  cbn [own]. cbn [map fst In] in H.
  destruct (String.eqb q k) eqn:E.
  - apply String.eqb_eq in E. tauto.
  - apply IH. tauto.
Qed.

Lemma own_spread_one (src acc : PrefixTable) (k : string) :
  NoDup (map fst src) ->
  own (fold_left (fun a e => defineProp a (fst e) (snd e)) src acc) k
  = match own src k with Some v => Some v | None => own acc k end.
Proof.
  revert acc. induction src as [|[q m] src IH]; intros acc H; [reflexivity|].
  cbn [map fst] in H. inversion H as [|? ? Hq Hrest]. subst.
  cbn [fold_left fst snd own]. rewrite (IH _ Hrest), own_defineProp.
  rewrite (String.eqb_sym k q).
  destruct (String.eqb q k) eqn:E; [|reflexivity].
  apply String.eqb_eq in E. subst k. now rewrite (own_None src q Hq).
Qed.

(** X25: after [prefixes] is set to a table, a prefix of that table reads as the
    table has it, and any other prefix reads as the common prefixes have
    it: what the form held before does not matter. *)
Theorem setPrefixes_lookup (w : Widget.State) (value : PrefixTable) (k : string) :
  NoDup (map fst value) ->
  own (Unified.prefixes (Widget.core (Widget.setPrefixes value w))) k
  = match own value k with
    | Some n => Some n
    | None => own COMMON_PREFIXES k
    end.
Proof.
  intros H. unfold Widget.setPrefixes, spread.
  cbn [Widget.core Widget.withCore Widget.withPrefixes Unified.prefixes fold_left].
  rewrite (own_spread_one value _ k H).
  destruct (own value k); [reflexivity|].
  assert (E : fold_left (fun a e => defineProp a (fst e) (snd e)) COMMON_PREFIXES []
              = COMMON_PREFIXES) by (vm_compute; reflexivity).
  now rewrite E.
Qed.

(** X26: the listeners of the prefixes form: an added or enabled prefix other
    than [__proto__] reads as its expansion afterwards, a disabled prefix
    is no own entry any more, and every other prefix reads as before. *)
Theorem prefix_listeners_lookup (w : Widget.State) (p n k : string) :
  (p <> "__proto__" ->
   own (Unified.prefixes (Widget.core (Widget.prefixAdded p n w))) k
   = if String.eqb k p then Some n else own (Unified.prefixes (Widget.core w)) k)
  /\ own (Unified.prefixes (Widget.core (Widget.prefixDisabled p w))) k
     = if String.eqb k p then None else own (Unified.prefixes (Widget.core w)) k.
Proof.
  split.
  - intros H. now apply own_assignProp.
  - apply own_deleteProp.
Qed.

Lemma map_fst_replace (t : PrefixTable) (k v : string) :
  map fst (replace k v t) = map fst t.
Proof.
  induction t as [|[q m] t IH]; [reflexivity|].
  cbn [replace]. destruct (String.eqb q k); cbn [map fst]; [reflexivity|].
  now rewrite IH.
Qed.

(** X27: a prefix that is added while it is registered keeps its place among
    the prefixes; a new prefix that is no array index and not [__proto__]
    goes to the end. *)
Theorem prefixAdded_order (w : Widget.State) (p n : string) :
  let before := Unified.prefixes (Widget.core w) in
  let after := Unified.prefixes (Widget.core (Widget.prefixAdded p n w)) in
  (own before p <> None -> map fst after = map fst before)
  /\ (own before p = None -> arrayIndex p = None -> p <> "__proto__" ->
      after = (before ++ [(p, n)])%list).
Proof.
  cbv zeta. unfold Widget.prefixAdded, assignProp.
  cbn [Widget.core Widget.withCore Widget.withPrefixes Unified.prefixes].
  split.
  - intros H. destruct (own (Unified.prefixes (Widget.core w)) p); [|congruence].
    apply map_fst_replace.
  - intros H A P. rewrite H. apply String.eqb_neq in P. rewrite P.
    unfold place. now rewrite A.
Qed.

Lemma contractUri_app (t u : PrefixTable) (v : string) :
  Unified.contractUri t v <> v ->
  Unified.contractUri (t ++ u)%list v = Unified.contractUri t v.
Proof.
  induction t as [|[q m] t IH]; intros H.
  - now cbn [Unified.contractUri] in H.
  - cbn [app Unified.contractUri] in *.
    destruct (JS.startsWith v m); [reflexivity|]. now apply IH.
Qed.

(** X28: a URI that [contractUri] shortens is shortened to the same text after
    a new prefix is added, when the new prefix is no array index and not
    [__proto__]. *)
Theorem prefixAdded_keeps_contractions (w : Widget.State) (p n v : string) :
  own (Unified.prefixes (Widget.core w)) p = None ->
  arrayIndex p = None -> p <> "__proto__" ->
  Unified.contractUri (Unified.prefixes (Widget.core w)) v <> v ->
  Unified.contractUri (Unified.prefixes (Widget.core (Widget.prefixAdded p n w))) v
  = Unified.contractUri (Unified.prefixes (Widget.core w)) v.
Proof.
  intros H A P C. unfold Widget.prefixAdded, assignProp.
  cbn [Widget.core Widget.withCore Widget.withPrefixes Unified.prefixes].
  rewrite H. apply String.eqb_neq in P. rewrite P. unfold place. rewrite A.
  now apply contractUri_app.
Qed.

(** X29: a prefix [p] without a colon, other than [__proto__] and outside
    both scheme sets, that is added with a non-empty namespace [n] expands
    from then on: [expandQName] turns [p:loc] into [n] followed by [loc]
    for every local name [loc].  Once the prefix is disabled, [p:loc]
    comes back unchanged, unless [p] is the name of a member every object
    inherits. *)
Theorem prefixAdded_then_expand (w : Widget.State) (p n loc : string) :
  p <> "__proto__" -> n <> "" ->
  JS.includes p ":" = false ->
  JS.has Unified.MMM_URN_SCHEMES p || JS.has Unified.STANDARD_SCHEMES p = false ->
  JS.localNameRe loc = true ->
  let added := Widget.prefixAdded p n w in
  let disabled := Widget.prefixDisabled p added in
  Unified.expandQName (Unified.prefixes (Widget.core added)) (p ++ ":" ++ loc) = n ++ loc
  /\ (JS.has objectPrototypeMembers p = false ->
      Unified.expandQName (Unified.prefixes (Widget.core disabled)) (p ++ ":" ++ loc)
      = p ++ ":" ++ loc).
Proof.
  intros P Hn Hp Hs Hl. cbv zeta. split.
  - apply expand_step; try assumption.
    unfold Widget.prefixAdded.
    cbn [Widget.core Widget.withCore Widget.withPrefixes Unified.prefixes].
    rewrite (own_assignProp _ p n p P). now rewrite String.eqb_refl.
  - intros M. rewrite (expandQName_prefixed _ p loc Hp Hl), Hs.
    unfold getProp, Widget.prefixDisabled.
    cbn [Widget.core Widget.withCore Widget.withPrefixes Unified.prefixes].
    rewrite own_deleteProp, String.eqb_refl, M. reflexivity.
Qed.

(** ** Controls and keys *)

(** X19: [setField] writes to the input of a field only while the control of
    the field is the input.  The subject and the predicate input, and the
    object input while its type is text, then show the value without its
    line breaks, which a text input strips, so a value on one line is
    shown as it is; once the control is toggled to the picker, the input
    keeps its text whatever [setField] sets. *)
Theorem setField_input (w : Widget.State) (name : Field) (value : string) :
  let shown x := inputValue name (Unified.dom (Widget.core x)) in
  (get name (Widget.fieldControls w) = "input" -> name <> Graph ->
   (name = Object -> objectInputType (Unified.dom (Widget.core w)) = TextInput) ->
   shown (fst (Widget.setField name value w)) = Some (HTML.stripNewlines value)
   /\ (HTML.singleLine value = true ->
       shown (fst (Widget.setField name value w)) = Some value))
  /\ (get name (Widget.fieldControls w) <> "input" ->
      shown (fst (Widget.setField name value w)) = shown w)
  /\ (forall t, name = fieldOf t ->
      get name (Widget.fieldControls w) = "input" ->
      shown (fst (Widget.setField name value (fst (Widget.handleControlToggle t w))))
      = shown w).
Proof.
  cbv zeta.
  assert (Off : forall x, get name (Widget.fieldControls x) <> "input" ->
                inputValue name (Unified.dom (Widget.core (fst (Widget.setField name value x))))
                = inputValue name (Unified.dom (Widget.core x))).
  { intros x H. apply String.eqb_neq in H.
    unfold Widget.setField. cbn [fst]. rewrite H.
    destruct name;
      repeat match goal with |- context [if ?b then _ else _] => destruct b end;
      reflexivity. }
  assert (On : get name (Widget.fieldControls w) = "input" -> name <> Graph ->
               (name = Object -> objectInputType (Unified.dom (Widget.core w)) = TextInput) ->
               inputValue name (Unified.dom (Widget.core (fst (Widget.setField name value w))))
               = Some (HTML.stripNewlines value)).
  { intros H Hg Ht. unfold Widget.setField. cbn [fst]. rewrite H.
    cbn [String.eqb Ascii.eqb Bool.eqb].
    destruct name; try congruence; try reflexivity.
    specialize (Ht eq_refl).
    cbn [Widget.core Widget.withCore Unified.dom Unified.withDom Unified.withValues].
    unfold setTextarea, setInput, inputValue, objectInputValue, withObjectInput.
    cbn [objectInputType objectInputAttr objectInput]. rewrite Ht.
    reflexivity. }
  repeat apply conj.
  - intros H Hg Ht. split; [now apply On|].
    intros Hs. rewrite (On H Hg Ht). now rewrite stripNewlines_singleLine.
  - apply Off.
  - intros t -> H. rewrite Off.
    + reflexivity.
    + unfold Widget.handleControlToggle.
      cbn [fst Widget.fieldControls Widget.withControls]. rewrite get_set, H.
      cbn [String.eqb Ascii.eqb Bool.eqb]. discriminate.
Qed.

(** X30: keys and blur that do nothing to the form: every key and every blur in
    full mode, every blur on the tiny line, every key in the textarea of
    the tiny line without Ctrl or Cmd, and in nano mode every key and blur
    outside the object. *)
Theorem keydown_inert (w : Widget.State) (e : KeyEvent) (field : Term) (now : string) :
  (Unified.dataMode (Widget.core w) = Unified.full ->
   Widget.onKeydown e field now w = (w, []) /\ Widget.onBlur field now w = (w, []))
  /\ (Unified.dataMode (Widget.core w) = Unified.tiny ->
      Widget.onBlur field now w = (w, []))
  /\ (Unified.dataMode (Widget.core w) = Unified.tiny ->
      inTextarea e = true -> ctrlKey e = false -> metaKey e = false ->
      Widget.onKeydown e field now w = (w, []))
  /\ (Unified.dataMode (Widget.core w) = Unified.nano -> field <> TObject ->
      Widget.onKeydown e field now w = (w, []) /\ Widget.onBlur field now w = (w, [])).
Proof.
  unfold Widget.onKeydown, Widget.onBlur, Widget.handleTinyKeydown.
  repeat apply conj.
  - intros ->. now split.
  - now intros ->.
  - intros -> -> -> ->. cbn [negb orb]. rewrite !andb_false_r.
    now destruct (String.eqb (key e) "Tab").
  - intros -> H. destruct field; try congruence; now split.
Qed.

(** ** The tiny line and the prefix table at concrete states *)

Lemma cycleTinyPicker_down_up_witness :
  0 <= termGet TPredicate (Widget.tinyPickerIndices tinyLine)
    < Z.of_nat (List.length (Widget.pickerValues tinyLine TPredicate))
  /\ termGet TPredicate
       (Widget.tinyPickerIndices
          (Widget.cycleTinyPicker TPredicate (-1)
             (Widget.cycleTinyPicker TPredicate 1 tinyLine))) = 0
  /\ get Predicate
       (Unified.fieldValues
          (Widget.core
             (Widget.cycleTinyPicker TPredicate (-1)
                (Widget.cycleTinyPicker TPredicate 1 tinyLine)))) = "rdf:type".
Proof.
  assert (H : 0 <= termGet TPredicate (Widget.tinyPickerIndices tinyLine)
              < Z.of_nat (List.length (Widget.pickerValues tinyLine TPredicate)))
    by (vm_compute; split; [discriminate | reflexivity]).
  split; [exact H|].
  exact (cycleTinyPicker_down_up tinyLine TPredicate H).
Defined.

Lemma cycleTinyFieldType_object_cycle_witness :
  termGet TObject (Widget.tinyFieldTypes tinyLine) = "qname"
  /\ termGet TObject
       (Widget.tinyFieldTypes
          (Widget.cycleTinyFieldType TObject
             (Widget.cycleTinyFieldType TObject
                (Widget.cycleTinyFieldType TObject tinyLine)))) = "qname"
  /\ object
       (Unified.fieldValues
          (Widget.core
             (Widget.cycleTinyFieldType TObject
                (Widget.cycleTinyFieldType TObject
                   (Widget.cycleTinyFieldType TObject tinyLine)))))
     = "http://example.org/Bob".
Proof.
  split; [reflexivity|].
  assert (H := cycleTinyFieldType_object_cycle tinyLine eq_refl).
  cbv zeta in H.
  exact (conj (proj1 (proj2 (proj2 H))) (proj2 (proj2 (proj2 H)))).
Defined.


Lemma setPrefixes_lookup_witness :
  NoDup (map fst [("ex", "http://example.com/ns#"); ("my", "urn:my:")])
  /\ own (Unified.prefixes
            (Widget.core
               (Widget.setPrefixes [("ex", "http://example.com/ns#"); ("my", "urn:my:")]
                                   tinyLine))) "ex"
     = Some "http://example.com/ns#".
Proof.
  assert (H : NoDup (map fst [("ex", "http://example.com/ns#"); ("my", "urn:my:")])).
  { cbn [map fst]. constructor; [intros [F|[]]; discriminate F|].
    constructor; [intros []|]. constructor. }
  split; [exact H|].
  exact (setPrefixes_lookup tinyLine _ "ex" H).
Defined.

Lemma prefixAdded_keeps_contractions_witness :
  own (Unified.prefixes (Widget.core tinyLine)) "exx" = None
  /\ arrayIndex "exx" = None
  /\ String.eqb "exx" "__proto__" = false
  /\ String.eqb (Unified.contractUri (Unified.prefixes (Widget.core tinyLine))
                                     "http://example.org/x/Thing")
                "http://example.org/x/Thing" = false
  /\ Unified.contractUri
       (Unified.prefixes
          (Widget.core (Widget.prefixAdded "exx" "http://example.org/x/" tinyLine)))
       "http://example.org/x/Thing"
     = "ex:x/Thing".
Proof.
  repeat (split; [reflexivity|]).
  refine (prefixAdded_keeps_contractions tinyLine "exx" "http://example.org/x/"
            "http://example.org/x/Thing" eq_refl eq_refl _ _).
  - discriminate.
  - discriminate.
Defined.

Lemma prefixAdded_then_expand_witness :
  String.eqb "my" "__proto__" = false
  /\ String.eqb "urn:my:" "" = false
  /\ JS.includes "my" ":" = false
  /\ JS.has Unified.MMM_URN_SCHEMES "my" || JS.has Unified.STANDARD_SCHEMES "my" = false
  /\ JS.localNameRe "thing" = true
  /\ Unified.expandQName
       (Unified.prefixes (Widget.core (Widget.prefixAdded "my" "urn:my:" tinyLine)))
       ("my" ++ ":" ++ "thing")
     = "urn:my:" ++ "thing".
Proof.
  repeat (split; [reflexivity|]).
  assert (H := prefixAdded_then_expand tinyLine "my" "urn:my:" "thing").
  cbv zeta in H.
  refine (proj1 (H _ _ eq_refl eq_refl eq_refl)); discriminate.
Defined.
